(** * pyvolt: gateway session, keep-alive thread and entity hydration

    A shallow embedding of [pyvolt/gateway.py], [pyvolt/structs/user.py]
    and [pyvolt/structs/channels.py].

    Conventions of the embedding:
    - a decoded JSON document (what [json.loads] returns) is a [json] value;
      [json.loads (json.dumps d)] is [d], so the [FromJSON] functions take the
      decoded document; JSON numbers are integers here;
    - an [async] function is a computation over an explicit state that either
      returns a value or raises; every [await] runs to completion, so
      operations are atomic and interleavings are separate steps;
    - the HTTP client and the websockets library are outside the sources:
      their answers are oracles, and every interaction with them is recorded
      in a trace. *)

From stdpp Require Import gmap strings list.
From Stdlib Require Import ZArith.

Set Warnings "-register-all".

(** ** Python values *)

Fixpoint assoc {A : Type} (k : string) (kv : list (string * A)) : option A :=
  match kv with
  | [] => None
  | (k', v) :: rest => if String.eqb k k' then Some v else assoc k rest
  end.

Inductive json : Type :=
| JNull
| JBool (b : bool)
| JNum (n : Z)
| JStr (s : string)
| JArr (items : list json)
| JObj (members : list (string * json)).

(** Python's [==] on decoded JSON: [True == 1], lists elementwise, dicts by
    key (the order of the items does not matter). *)
Fixpoint json_eqb (a b : json) {struct a} : bool :=
  match a, b with
  | JNull, JNull => true
  | JBool x, JBool y => Bool.eqb x y
  | JBool x, JNum n => Z.eqb (Z.b2z x) n
  | JNum n, JBool x => Z.eqb n (Z.b2z x)
  | JNum m, JNum n => Z.eqb m n
  | JStr s, JStr t => String.eqb s t
  | JArr xs, JArr ys =>
      (fix go (xs ys : list json) : bool :=
         match xs, ys with
         | [], [] => true
         | x :: xs', y :: ys' => json_eqb x y && go xs' ys'
         | _, _ => false
         end) xs ys
  | JObj ms, JObj ns =>
      Nat.eqb (length ms) (length ns) &&
      (fix go (ms : list (string * json)) : bool :=
         match ms with
         | [] => true
         | (k, v) :: ms' =>
             match assoc k ns with
             | Some w => json_eqb v w
             | None => false
             end && go ms'
         end) ms
  | _, _ => false
  end.

Inductive exn : Type :=
| KeyError (key : string)
| AttributeError (attr : string)
| TypeError
| ValueError
| RuntimeError
| ClosedSocketException
| TransportError (detail : string).

Inductive result (A : Type) : Type :=
| Ok (a : A)
| Raise (e : exn).
Arguments Ok {A} a.
Arguments Raise {A} e.

Definition is_ok {A : Type} (r : result A) : bool :=
  match r with Ok _ => true | Raise _ => false end.

(** [d.get(k)]: only a dict has the method; a missing key gives [None]. *)
Definition py_get (d : json) (k : string) : result json :=
  match d with
  | JObj kv => Ok (default JNull (assoc k kv))
  | _ => Raise (AttributeError "get")
  end.

(** [d[k]] with a string [k]: [KeyError] on a dict without the key,
    [TypeError] on anything that is not a dict. *)
Definition py_item (d : json) (k : string) : result json :=
  match d with
  | JObj kv => match assoc k kv with
               | Some v => Ok v
               | None => Raise (KeyError k)
               end
  | _ => Raise TypeError
  end.

(** [for x in v]: a list yields its items, a string its characters, a dict
    its keys; nothing else is iterable. *)
Fixpoint chars (s : string) : list json :=
  match s with
  | EmptyString => []
  | String c rest => JStr (String c EmptyString) :: chars rest
  end.

Definition py_iter (v : json) : result (list json) :=
  match v with
  | JArr items => Ok items
  | JStr s => Ok (chars s)
  | JObj kv => Ok (map (fun p => JStr (fst p)) kv)
  | _ => Raise TypeError
  end.

(** Keys of a Python dict: strings, numbers ([True] and [False] hash and
    compare as 1 and 0) and [None]; lists and dicts are unhashable. *)
Inductive key : Type :=
| KStr (s : string)
| KInt (n : Z)
| KNone.

#[global] Instance key_eq_dec : EqDecision key.
Proof. solve_decision. Defined.

#[global] Program Instance key_countable : Countable key :=
  inj_countable'
    (fun k => match k with
              | KStr s => inl s
              | KInt n => inr (inl n)
              | KNone => inr (inr tt)
              end)
    (fun x => match x with
              | inl s => KStr s
              | inr (inl n) => KInt n
              | inr (inr _) => KNone
              end) _.
Next Obligation. by intros []. Qed.

Definition to_key (v : json) : result key :=
  match v with
  | JStr s => Ok (KStr s)
  | JNum n => Ok (KInt n)
  | JBool b => Ok (KInt (Z.b2z b))
  | JNull => Ok KNone
  | JArr _ | JObj _ => Raise TypeError
  end.

(** ** Computations with state and exceptions

    A raised exception does not undo the effects that came before it. *)

Definition St (S A : Type) : Type := S -> result A * S.

Definition ret {S A : Type} (a : A) : St S A := fun s => (Ok a, s).

Definition raise {S A : Type} (e : exn) : St S A := fun s => (Raise e, s).

Definition bind {S A B : Type} (m : St S A) (k : A -> St S B) : St S B :=
  fun s => match m s with
           | (Ok a, s') => k a s'
           | (Raise e, s') => (Raise e, s')
           end.

Definition lift {S A : Type} (r : result A) : St S A := fun s => (r, s).

Definition get {S : Type} : St S S := fun s => (Ok s, s).

Definition modify {S : Type} (f : S -> S) : St S unit := fun s => (Ok tt, f s).

Declare Scope py_scope.
Delimit Scope py_scope with py.
Notation "x <- m ;; k" := (bind m (fun x => k))
  (at level 100, m at next level, right associativity) : py_scope.
Notation "m ;; k" := (bind m (fun _ => k))
  (at level 100, right associativity) : py_scope.
Open Scope py_scope.

(** [kw <- when_present data probe k] is the idiom
    [if data.get(probe) is not None: kwargs[..] = k]: the keyword argument
    is passed only when the probed field is present and not null. *)
Definition when_present {S A : Type} (data : json) (probe : string)
    (k : St S A) : St S (option A) :=
  v <- lift (py_get data probe) ;;
  match v with
  | JNull => ret None
  | _ => a <- k ;; ret (Some a)
  end.

(** [kwargs.get(name)] for a keyword argument holding a JSON value. *)
Definition kwargs_get (kw : option json) : json := default JNull kw.

(** ** The outside world: HTTP client and websockets library

    [client.py] is not among the sources. A [Request] carries what the
    sources put into it; [HTTPClient.Request] answers with the decoded body
    or raises. *)

Inductive Method : Type := GET | POST.

Record Request : Type := {
  req_method : Method;
  req_path : string;
  req_data : option json;
  req_auth : option string
}.

Definition Request_init (m : Method) (path : string) : Request :=
  {| req_method := m; req_path := path; req_data := None; req_auth := None |}.

Definition AddAuthentication (token : string) (r : Request) : Request :=
  {| req_method := req_method r; req_path := req_path r;
     req_data := req_data r; req_auth := Some token |}.

(** Everything the program does to the outside world, in order. *)
Inductive effect : Type :=
| HttpRequest (r : Request)
| HttpRelease
| WsConnect (uri : string)
| WsSend (frame : json)
| WsClose
| ThreadStart.

Definition is_fetch (e : effect) : bool :=
  match e with HttpRequest _ => true | _ => false end.

Definition is_connect (e : effect) : bool :=
  match e with WsConnect _ => true | _ => false end.

Definition is_release (e : effect) : bool :=
  match e with HttpRelease | WsClose => true | _ => false end.

Definition count (p : effect -> bool) (t : list effect) : nat :=
  length (filter (fun e => p e = true) t).

(** ** user.py *)

Module Relationship.
Inductive t : Type :=
| Blocked | BlockedOther | Friend | Incoming | Outgoing | NoRelationship
| User.

Definition value (r : t) : string :=
  match r with
  | Blocked => "Blocked"
  | BlockedOther => "BlockedOther"
  | Friend => "Friend"
  | Incoming => "Incoming"
  | Outgoing => "Outgoing"
  | NoRelationship => "None"
  | User => "User"
  end.

Definition members : list t :=
  [Blocked; BlockedOther; Friend; Incoming; Outgoing; NoRelationship; User].

(** [Relationship(v)]: the member with that value, or [ValueError]. *)
Definition call (v : json) : result t :=
  match find (fun r => json_eqb v (JStr (value r))) members with
  | Some r => Ok r
  | None => Raise ValueError
  end.
End Relationship.

Module Presence.
Inductive t : Type := Busy | Idle | Invisible | Online.

Definition value (p : t) : string :=
  match p with
  | Busy => "Busy"
  | Idle => "Idle"
  | Invisible => "Invisible"
  | Online => "Online"
  end.

Definition members : list t := [Busy; Idle; Invisible; Online].

Definition call (v : json) : result t :=
  match find (fun p => json_eqb v (JStr (value p))) members with
  | Some p => Ok p
  | None => Raise ValueError
  end.
End Presence.

Record Status : Type := {
  presence : Presence.t;
  text : json
}.

Definition Status_init (p : Presence.t) (kw_text : option json) : Status :=
  {| presence := p; text := kwargs_get kw_text |}.

Definition Status_FromJSON {S : Type} (data : json) : St S Status :=
  kw_text <- when_present data "text" (lift (py_item data "text")) ;;
  v <- lift (py_item data "presence") ;;
  p <- lift (Presence.call v) ;;
  ret (Status_init p kw_text).

Record Bot : Type := { ownerID : json }.

Definition Bot_init (owner : json) : Bot := {| ownerID := owner |}.

(** A [User] object. The attribute is [id] in the source; every field set
    by [__init__] is listed, and [None] is [JNull] or [None]. *)
Record User : Type := {
  id_ : json;
  username : json;
  badges : json;
  online : json;
  relationship : option Relationship.t;
  status : option Status;
  flags : json;
  bot : option Bot
}.

Definition User_init (id username : json)
    (kw_badges kw_online : option json)
    (kw_relationship : option Relationship.t) (kw_status : option Status)
    (kw_flags : option json) (kw_bot : option Bot) : User :=
  {| id_ := id; username := username;
     badges := kwargs_get kw_badges; online := kwargs_get kw_online;
     relationship := kw_relationship; status := kw_status;
     flags := kwargs_get kw_flags; bot := kw_bot |}.

(** What an attribute of an object can hold. *)
Inductive pyobj : Type :=
| PJson (v : json)
| PRelationship (r : Relationship.t)
| PStatus (s : Status)
| PBot (b : Bot).

Definition pyobj_of {A : Type} (inj : A -> pyobj) (o : option A) : pyobj :=
  match o with Some a => inj a | None => PJson JNull end.

(** [user.<name>] for the data attributes of a [User]: exactly the eight
    names that [User.__init__] assigns; any other name raises
    [AttributeError]. *)
Definition User_getattr (u : User) (name : string) : result pyobj :=
  if String.eqb name "id" then Ok (PJson (id_ u))
  else if String.eqb name "username" then Ok (PJson (username u))
  else if String.eqb name "badges" then Ok (PJson (badges u))
  else if String.eqb name "online" then Ok (PJson (online u))
  else if String.eqb name "relationship"
       then Ok (pyobj_of PRelationship (relationship u))
  else if String.eqb name "status" then Ok (pyobj_of PStatus (status u))
  else if String.eqb name "flags" then Ok (PJson (flags u))
  else if String.eqb name "bot" then Ok (pyobj_of PBot (bot u))
  else Raise (AttributeError name).

(** [a == b] where [b] is a JSON value: enum members and plain objects are
    equal only to themselves. *)
Definition py_eq (a : pyobj) (b : json) : bool :=
  match a with
  | PJson v => json_eqb v b
  | _ => false
  end.

(** A reference to a [User] object. The sources never mutate a [User] after
    its construction, so a reference is the object's identity together with
    its contents; [is] compares the identities. *)
Record UserRef : Type := {
  addr : nat;
  deref : User
}.

Definition same_object (a b : UserRef) : bool := Nat.eqb (addr a) (addr b).

(** ** channels.py: the data *)

Module ChannelType.
Inductive t : Type :=
| SavedMessages | DirectMessage | Group | TextChannel | VoiceChannel.

Definition value (c : t) : string :=
  match c with
  | SavedMessages => "SavedMessages"
  | DirectMessage => "DirectMessage"
  | Group => "Group"
  | TextChannel => "TextChannel"
  | VoiceChannel => "VoiceChannel"
  end.
End ChannelType.

(** The five channel classes with the attributes their [__init__] sets. An
    attribute that is [None] is [JNull]; [owner] is [None] until the loop of
    [FromJSON] finds it. The [session] attribute is the one session of the
    world (a [SavedMessages] is built without it). *)
Inductive Channel : Type :=
| SavedMessages (channelID : json) (user : UserRef)
| DirectMessage (channelID active : json) (recipients : list UserRef)
    (lastMessageID : json)
| Group (channelID name : json) (recipients : list UserRef)
    (owner : option UserRef)
    (description lastMessageID permissions nsfw : json)
| TextChannel (channelID server name : json)
    (description defaultPermissions nsfw lastMessageID : json)
| VoiceChannel (channelID server name : json)
    (description defaultPermissions nsfw : json).

Definition channelID (c : Channel) : json :=
  match c with
  | SavedMessages i _ => i
  | DirectMessage i _ _ _ => i
  | Group i _ _ _ _ _ _ _ => i
  | TextChannel i _ _ _ _ _ _ => i
  | VoiceChannel i _ _ _ _ _ => i
  end.

Definition type (c : Channel) : ChannelType.t :=
  match c with
  | SavedMessages _ _ => ChannelType.SavedMessages
  | DirectMessage _ _ _ _ => ChannelType.DirectMessage
  | Group _ _ _ _ _ _ _ _ => ChannelType.Group
  | TextChannel _ _ _ _ _ _ _ => ChannelType.TextChannel
  | VoiceChannel _ _ _ _ _ _ => ChannelType.VoiceChannel
  end.

(** The session object that [FromJSON] and [FromID] receive: the two caches
    (Python dicts) and the token. The sources read [session.users], and read
    and write [session.channels]. *)
Record Session : Type := {
  users : gmap key UserRef;
  channels : gmap key Channel;
  token : string
}.

Record World : Type := {
  session : Session;
  next_addr : nat;
  trace : list effect
}.

Definition emit (e : effect) : St World unit :=
  modify (fun w => {| session := session w; next_addr := next_addr w;
                      trace := trace w ++ [e] |}).

(** A constructor call: the new object gets an identity no other has. *)
Definition new_User (u : User) : St World UserRef :=
  fun w => (Ok {| addr := next_addr w; deref := u |},
            {| session := session w; next_addr := S (next_addr w);
               trace := trace w |}).

Definition register_channel (k : key) (c : Channel) : St World unit :=
  modify (fun w =>
    {| session := {| users := users (session w);
                     channels := <[k := c]> (channels (session w));
                     token := token (session w) |};
       next_addr := next_addr w; trace := trace w |}).

(** ["prefix" + v]: concatenation needs a [str] on the right. *)
Definition str_add (prefix : string) (v : json) : result string :=
  match v with
  | JStr s => Ok (prefix +:+ s)
  | _ => Raise TypeError
  end.

Section Entities.

(** [HTTPClient.Request]: the answer may depend on what happened before. *)
Variable http : list effect -> Request -> result json.

Definition HTTPClient_Request (r : Request) : St World json :=
  w <- get ;;
  emit (HttpRequest r) ;;
  lift (http (trace w) r).

(** [User.FromJSON] *)
Definition User_FromJSON (data : json) : St World UserRef :=
  kw_badges <- when_present data "badges" (lift (py_item data "badges")) ;;
  kw_online <- when_present data "online" (lift (py_item data "online")) ;;
  kw_relationship <- when_present data "relationship"
    (v <- lift (py_item data "relationship") ;; lift (Relationship.call v)) ;;
  kw_status <- when_present data "status"
    (v <- lift (py_item data "status") ;; Status_FromJSON v) ;;
  kw_bot <- when_present data "bot"
    (b <- lift (py_item data "bot") ;;
     o <- lift (py_item b "owner") ;;
     ret (Bot_init o)) ;;
  id <- lift (py_item data "_id") ;;
  name <- lift (py_item data "username") ;;
  new_User (User_init id name kw_badges kw_online kw_relationship kw_status
              None kw_bot).

(** [User.FromID]: a client of its own, one request, no access to the
    session. The client is closed only when the request returned. *)
Definition User_FromID (id : json) (token : string) : St World UserRef :=
  path <- lift (str_add "/users/" id) ;;
  result <- HTTPClient_Request
              (AddAuthentication token (Request_init GET path)) ;;
  emit HttpRelease ;;
  User_FromJSON result.

(** The lookup that [Channel.FromJSON] writes out three times (lines 31-33,
    40-42 and 57-59):
    [user = session.users.get(userID)], and [User.FromID] when that is
    [None]. *)
Definition resolve_user (userID : json) : St World UserRef :=
  k <- lift (to_key userID) ;;
  w <- get ;;
  match users (session w) !! k with
  | Some user => ret user
  | None => User_FromID userID (token (session w))
  end.

(** A value pattern of [match]: the subject equals the member's value. *)
Definition matches (subject : json) (c : ChannelType.t) : bool :=
  json_eqb subject (JStr (ChannelType.value c)).

(** The loop of the [DirectMessage] case. *)
Fixpoint DirectMessage_loop (ids : list json) (recipients : list UserRef)
    : St World (list UserRef) :=
  match ids with
  | [] => ret recipients
  | userID :: rest =>
      user <- resolve_user userID ;;
      DirectMessage_loop rest (recipients ++ [user])
  end.

(** The loop of the [Group] case; the test reads [user.userID]. *)
Fixpoint Group_loop (data : json) (ids : list json)
    (recipients : list UserRef) (owner : option UserRef)
    : St World (list UserRef * option UserRef) :=
  match ids with
  | [] => ret (recipients, owner)
  | userID :: rest =>
      user <- resolve_user userID ;;
      uid <- lift (User_getattr (deref user) "userID") ;;
      o <- lift (py_item data "owner") ;;
      Group_loop data rest (recipients ++ [user])
        (if py_eq uid o then Some user else owner)
  end.

Definition plain_kwarg (data : json) (field : string)
    : St World (option json) :=
  when_present data field (lift (py_item data field)).

(** [Channel.FromJSON] *)
Definition Channel_FromJSON (data : json) : St World Channel :=
  tag <- lift (py_item data "channel_type") ;;
  channel <-
    (if matches tag ChannelType.SavedMessages then
       userID <- lift (py_item data "user") ;;
       user <- resolve_user userID ;;
       id <- lift (py_item data "_id") ;;
       ret (Some (SavedMessages id user))
     else if matches tag ChannelType.DirectMessage then
       kw_last <- plain_kwarg data "last_message_id" ;;
       r <- lift (py_item data "recipients") ;;
       ids <- lift (py_iter r) ;;
       recipients <- DirectMessage_loop ids [] ;;
       id <- lift (py_item data "_id") ;;
       active <- lift (py_item data "active") ;;
       ret (Some (DirectMessage id active recipients (kwargs_get kw_last)))
     else if matches tag ChannelType.Group then
       kw_description <- plain_kwarg data "description" ;;
       kw_last <- plain_kwarg data "last_message_id" ;;
       kw_permissions <- plain_kwarg data "permissions" ;;
       kw_nsfw <- plain_kwarg data "nsfw" ;;
       r <- lift (py_item data "recipients") ;;
       ids <- lift (py_iter r) ;;
       ro <- Group_loop data ids [] None ;;
       id <- lift (py_item data "_id") ;;
       name <- lift (py_item data "name") ;;
       ret (Some (Group id name (fst ro) (snd ro)
                    (kwargs_get kw_description) (kwargs_get kw_last)
                    (kwargs_get kw_permissions) (kwargs_get kw_nsfw)))
     else if matches tag ChannelType.TextChannel then
       kw_description <- plain_kwarg data "description" ;;
       kw_default <- when_present data "default_permissions"
                       (lift (py_item data "defaultPermissions")) ;;
       kw_nsfw <- plain_kwarg data "nsfw" ;;
       kw_last <- plain_kwarg data "last_message_id" ;;
       id <- lift (py_item data "_id") ;;
       server <- lift (py_item data "server") ;;
       name <- lift (py_item data "name") ;;
       ret (Some (TextChannel id server name
                    (kwargs_get kw_description) (kwargs_get kw_default)
                    (kwargs_get kw_nsfw) (kwargs_get kw_last)))
     else if matches tag ChannelType.VoiceChannel then
       kw_description <- plain_kwarg data "description" ;;
       kw_default <- when_present data "default_permissions"
                       (lift (py_item data "defaultPermissions")) ;;
       kw_nsfw <- plain_kwarg data "nsfw" ;;
       id <- lift (py_item data "_id") ;;
       server <- lift (py_item data "server") ;;
       name <- lift (py_item data "name") ;;
       ret (Some (VoiceChannel id server name
                    (kwargs_get kw_description) (kwargs_get kw_default)
                    (kwargs_get kw_nsfw)))
     else ret None) ;;
  match channel with
  | None => raise (AttributeError "channelID")
  | Some c =>
      k <- lift (to_key (channelID c)) ;;
      register_channel k c ;;
      ret c
  end.

(** [Channel.FromID]; the bare [return] gives [None]. *)
Definition Channel_FromID (id : json) : St World (option Channel) :=
  k <- lift (to_key id) ;;
  w <- get ;;
  match channels (session w) !! k with
  | Some c => ret (Some c)
  | None =>
      path <- lift (str_add "/channels/" id) ;;
      result <- HTTPClient_Request
                  (AddAuthentication (token (session w))
                     (Request_init GET path)) ;;
      emit HttpRelease ;;
      ty <- lift (py_get result "type") ;;
      match ty with
      | JNull => c <- Channel_FromJSON result ;; ret (Some c)
      | _ => ret None
      end
  end.

End Entities.

(** ** gateway.py *)

Module GatewayEvent.
Inductive t : Type :=
| Authenticate | BeginTyping | EndTyping | Ping | Error | Authenticated
| Pong | Ready | Message | MessageUpdate | MessageDelete | ChannelCreate
| ChannelUpdate | ChannelDelete | ChannelGroupJoin | ChannelGroupLeave
| ChannelStartTyping | ChannelStopTyping | ChannelAck | ServerUpdate
| ServerDelete | ServerMemberUpdate | ServerMemberJoin | ServerMemberLeave
| ServerRoleUpdate | ServerRoleDelete | UserUpdate | UserRelationship.

(** [class Authenticate: VALUE = "Authenticate"] *)
Definition Authenticate_VALUE : string := "Authenticate".

(** The member's value; for [Authenticate] the value is the class of that
    name, read through its [VALUE]. *)
Definition value (e : t) : string :=
  match e with
  | Authenticate => Authenticate_VALUE
  | BeginTyping => "BeginTyping"
  | EndTyping => "EndTyping"
  | Ping => "Ping"
  | Error => "Error"
  | Authenticated => "Authenticated"
  | Pong => "Pong"
  | Ready => "Ready"
  | Message => "Message"
  | MessageUpdate => "MessageUpdate"
  | MessageDelete => "MessageDelete"
  | ChannelCreate => "ChannelCreate"
  | ChannelUpdate => "ChannelUpdate"
  | ChannelDelete => "ChannelDelete"
  | ChannelGroupJoin => "ChannelGroupJoin"
  | ChannelGroupLeave => "ChannelGroupLeave"
  | ChannelStartTyping => "ChannelStartTyping"
  | ChannelStopTyping => "ChannelStopTyping"
  | ChannelAck => "ChannelAck"
  | ServerUpdate => "ServerUpdate"
  | ServerDelete => "ServerDelete"
  | ServerMemberUpdate => "ServerMemberUpdate"
  | ServerMemberJoin => "ServerMemberJoin"
  | ServerMemberLeave => "ServerMemberLeave"
  | ServerRoleUpdate => "ServerRoleUpdate"
  | ServerRoleDelete => "ServerRoleDelete"
  | UserUpdate => "UserUpdate"
  | UserRelationship => "UserRelationship"
  end.
End GatewayEvent.

(** The keep-alive thread object. [stopEvent] is the flag of the [Event];
    [started] and [finished] are the bookkeeping of [threading.Thread]:
    [start] sets the first, leaving [run] sets the second. *)
Record GatewayKeepAlive : Type := {
  interval : Z;
  daemon : bool;
  stopEvent : bool;
  started : bool;
  finished : bool
}.

Definition GatewayKeepAlive_init (interval : Z) : GatewayKeepAlive :=
  {| interval := interval; daemon := true; stopEvent := false;
     started := false; finished := false |}.

(** The socket as the sources see it: its [open] property, and the address
    it was connected to. *)
Record WebSocket : Type := {
  open : bool;
  remote : option string
}.

Record HTTPClient : Type := { released : bool }.

(** The gateway object, and with it the trace of what it did so far. *)
Record Gateway : Type := {
  client : HTTPClient;
  keepAlive : GatewayKeepAlive;
  websocket : WebSocket;
  log : list effect
}.

(** [Gateway.__init__]: the socket of a new gateway is a protocol object
    that was never connected. *)
Definition Gateway_init : Gateway :=
  {| client := {| released := false |};
     keepAlive := GatewayKeepAlive_init 20;
     websocket := {| open := false; remote := None |};
     log := [] |}.

Definition set_client (c : HTTPClient) (g : Gateway) : Gateway :=
  {| client := c; keepAlive := keepAlive g; websocket := websocket g;
     log := log g |}.

Definition set_keepAlive (k : GatewayKeepAlive) (g : Gateway) : Gateway :=
  {| client := client g; keepAlive := k; websocket := websocket g;
     log := log g |}.

Definition set_websocket (ws : WebSocket) (g : Gateway) : Gateway :=
  {| client := client g; keepAlive := keepAlive g; websocket := ws;
     log := log g |}.

Definition record (e : effect) : St Gateway unit :=
  modify (fun g => {| client := client g; keepAlive := keepAlive g;
                      websocket := websocket g; log := log g ++ [e] |}).

Definition set_stopEvent (b : bool) (k : GatewayKeepAlive)
    : GatewayKeepAlive :=
  {| interval := interval k; daemon := daemon k; stopEvent := b;
     started := started k; finished := finished k |}.

Definition set_started (k : GatewayKeepAlive) : GatewayKeepAlive :=
  {| interval := interval k; daemon := daemon k; stopEvent := stopEvent k;
     started := true; finished := finished k |}.

Definition set_finished (k : GatewayKeepAlive) : GatewayKeepAlive :=
  {| interval := interval k; daemon := daemon k; stopEvent := stopEvent k;
     started := started k; finished := true |}.

(** The states of the specification, read off the socket: between two
    operations the session is [Open] when the socket is open and
    [Disconnected] otherwise; [Connecting] and [Closing] last only while an
    operation awaits. *)
Inductive ConnectionState : Type :=
| Disconnected | Connecting | Open | Closing.

Definition state (g : Gateway) : ConnectionState :=
  if open (websocket g) then Open else Disconnected.

(** The thread is alive and nobody told it to stop: its next wake-up
    sends a Ping. *)
Definition heartbeat_running (g : Gateway) : bool :=
  started (keepAlive g) && negb (finished (keepAlive g))
  && negb (stopEvent (keepAlive g)).

(** [GatewayKeepAlive.GetPayload] *)
Definition GetPayload : json :=
  JObj [("type", JStr (GatewayEvent.value GatewayEvent.Ping));
        ("data", JNum 0)].

(** What one turn of the loop of [run] does when [stopEvent.wait] times
    out: it waited [interval], hands the coroutine [Send(data)] to the loop
    of the gateway and waits for its result for at most [func.result(10)].
    These are the numbers of the turn only; what they do to the time and
    to the thread is in [GatewayKeepAlive_turn]. *)
Record Tick : Type := {
  waited : Z;
  submitted : json;
  result_timeout : Z
}.

Definition run_tick (k : GatewayKeepAlive) : option Tick :=
  if stopEvent k then None
  else Some {| waited := interval k; submitted := GetPayload;
               result_timeout := 10 |}.

(** The other end closes the connection: [websocket.open] turns false
    without any call of the gateway. *)
Definition peer_close (g : Gateway) : Gateway :=
  set_websocket {| open := false; remote := remote (websocket g) |} g.

(** [threading.Thread.start]: a thread object can be started once, a second
    call raises [RuntimeError]. *)
Definition keepAlive_start : St Gateway unit :=
  g <- get ;;
  if started (keepAlive g) then raise RuntimeError
  else modify (set_keepAlive (set_started (keepAlive g))) ;;
       record ThreadStart.

Definition stopEvent_set : St Gateway unit :=
  modify (fun g => set_keepAlive (set_stopEvent true (keepAlive g)) g).

Definition stopEvent_clear : St Gateway unit :=
  modify (fun g => set_keepAlive (set_stopEvent false (keepAlive g)) g).

(** Modelled from the spec: [HTTPClient.Close], whose source ([client.py])
    is missing. Section 4.1 says that close releases resources and is
    idempotent: the first call releases them, a later call does nothing. *)
Definition HTTPClient_Close : St Gateway unit :=
  g <- get ;;
  if released (client g) then ret tt
  else modify (set_client {| released := true |}) ;;
       record HttpRelease.

(** [websocket.close()] on an open socket. *)
Definition websocket_close : St Gateway unit :=
  modify (fun g => set_websocket
                     {| open := false; remote := remote (websocket g) |} g) ;;
  record WsClose.

Section GatewayOps.

(** [self.client.Request] and [client.connect] of the websockets library;
    both may answer differently as the trace grows. *)
Variable http : list effect -> Request -> result json.
Variable dial : list effect -> string -> result unit.

Definition Gateway_Request (r : Request) : St Gateway json :=
  g <- get ;;
  record (HttpRequest r) ;;
  lift (http (log g) r).

(** [client.connect(uri)]: the library takes a string; on success the
    socket it returns is open. *)
Definition client_connect (uri : json) : St Gateway WebSocket :=
  match uri with
  | JStr s =>
      g <- get ;;
      lift (dial (log g) s) ;;
      record (WsConnect s) ;;
      ret {| open := true; remote := Some s |}
  | _ => raise TypeError
  end.

(** [Gateway.Close] *)
Definition Gateway_Close : St Gateway unit :=
  HTTPClient_Close ;;
  g <- get ;;
  if open (websocket g) then
    websocket_close ;;
    stopEvent_set
  else ret tt.

(** [Gateway.GetWebsocketURL] *)
Definition Gateway_GetWebsocketURL : St Gateway json :=
  result <- Gateway_Request (Request_init GET "/") ;;
  lift (py_item result "ws").

(** [Gateway.Connect] *)
Definition Gateway_Connect : St Gateway unit :=
  g <- get ;;
  if negb (open (websocket g)) then
    url <- Gateway_GetWebsocketURL ;;
    ws <- client_connect url ;;
    modify (set_websocket ws) ;;
    stopEvent_clear ;;
    keepAlive_start
  else ret tt.

(** [Gateway.Send]; the frame is [json.dumps(data)]. *)
Definition Gateway_Send (data : json) : St Gateway unit :=
  g <- get ;;
  if open (websocket g) then record (WsSend data)
  else raise ClosedSocketException.

(** [Gateway.Authenticate] *)
Definition Gateway_Authenticate (token : string) : St Gateway unit :=
  Gateway_Send
    (JObj [("type", JStr (GatewayEvent.value GatewayEvent.Authenticate));
           ("token", JStr token)]).

(** One wake-up of [GatewayKeepAlive.run] without the clock, for a loop
    of the gateway that runs the coroutine in time and a library that
    accepts the frame: the loop ends when the event is set; otherwise the
    payload goes through [Gateway.Send], and an exception of the send ends
    the thread. The result says whether the loop goes on. The wake-up with
    the clock, the [TimeoutError] of [func.result(10)] and a send that
    raises on an open socket is [GatewayKeepAlive_turn]. *)
Definition GatewayKeepAlive_run_step : St Gateway bool :=
  fun g =>
    match run_tick (keepAlive g) with
    | None => (Ok false, set_keepAlive (set_finished (keepAlive g)) g)
    | Some tick =>
        match Gateway_Send (submitted tick) g with
        | (Ok _, g') => (Ok true, g')
        | (Raise e, g') =>
            (Raise e, set_keepAlive (set_finished (keepAlive g')) g')
        end
    end.

End GatewayOps.

(** ** Vocabulary of the statements *)

(** The world after some more effects. *)
Definition after (w : World) (es : list effect) : World :=
  {| session := session w; next_addr := next_addr w;
     trace := trace w ++ es |}.

(** The gateway after some more effects. *)
Definition logged (g : Gateway) (es : list effect) : Gateway :=
  {| client := client g; keepAlive := keepAlive g; websocket := websocket g;
     log := log g ++ es |}.

(** The request of [User.FromID] and the one of [Channel.FromID]. *)
Definition user_request (token uid : string) : Request :=
  AddAuthentication token (Request_init GET ("/users/" +:+ uid)).

Definition channel_request (token id : string) : Request :=
  AddAuthentication token (Request_init GET ("/channels/" +:+ id)).

(** A computation that leaves the session and the trace alone. *)
Definition quiet {A : Type} (m : St World A) : Prop :=
  forall w, session (snd (m w)) = session w /\ trace (snd (m w)) = trace w.

(** The frames of the protocol, written out. *)
Definition ping_frame : json :=
  JObj [("type", JStr "Ping"); ("data", JNum 0)].

Definition authenticate_frame (token : string) : json :=
  JObj [("type", JStr "Authenticate"); ("token", JStr token)].

(** ** Scenarios

    Concrete servers, sessions and payloads on which the statements below
    are run. *)

Definition alice_json : json :=
  JObj [("_id", JStr "U1"); ("username", JStr "alice")].

Definition alice : UserRef :=
  {| addr := 0;
     deref := User_init (JStr "U1") (JStr "alice") None None None None None
                None |}.

Definition empty_session : Session :=
  {| users := ∅; channels := ∅; token := "secret" |}.

Definition fresh_world : World :=
  {| session := empty_session; next_addr := 0; trace := [] |}.

(** A session whose user cache already holds "U1". *)
Definition world_with_alice : World :=
  {| session := {| users := {[ KStr "U1" := alice ]}; channels := ∅;
                   token := "secret" |};
     next_addr := 1; trace := [] |}.

(** A server that answers every request with the user "U1". *)
Definition http_alice : list effect -> Request -> result json :=
  fun _ _ => Ok alice_json.

(** A server that answers every request with an error payload. *)
Definition http_not_found : list effect -> Request -> result json :=
  fun _ _ => Ok (JObj [("type", JStr "NotFound")]).

(** A transport that fails. *)
Definition http_down : list effect -> Request -> result json :=
  fun _ _ => Raise (TransportError "unreachable").

Definition group_payload : json :=
  JObj [("channel_type", JStr "Group"); ("_id", JStr "G1");
        ("name", JStr "team");
        ("recipients", JArr [JStr "U1"; JStr "U2"]);
        ("owner", JStr "U1")].

Definition unknown_payload : json :=
  JObj [("channel_type", JStr "Category"); ("_id", JStr "X1")].

(** The discovery endpoint of the specification's scenario. *)
Definition http_gateway : list effect -> Request -> result json :=
  fun _ _ => Ok (JObj [("ws", JStr "wss://example/ws")]).

Definition dial_ok : list effect -> string -> result unit :=
  fun _ _ => Ok tt.

(** The session after [connect()] on a new gateway. *)
Definition connected_gateway : Gateway :=
  snd (Gateway_Connect http_gateway dial_ok Gateway_init).

(** The same session after the other end dropped the connection. *)
Definition dropped_gateway : Gateway := peer_close connected_gateway.

(** The session after [connect(); close()]. *)
Definition closed_gateway : Gateway := snd (Gateway_Close connected_gateway).

(** ** The rest of gateway.py *)

(** A gateway together with how many frames it has read: [Receive] is the
    one operation that consumes what the other end sent. *)
Record Receiver : Type := {
  gateway : Gateway;
  cursor : nat
}.

Section Receiving.

(** [websocket.recv()]: what the n-th call returns, a frame, or the
    exception that the library raises when the connection is closed; and
    [json.loads]. *)
Variable recv : nat -> result string.
Variable loads : string -> result json.

(** After an exception of [recv] the socket is not open any more. *)
Definition websocket_recv : St Receiver string :=
  fun r =>
    match recv (cursor r) with
    | Ok frame =>
        (Ok frame, {| gateway := gateway r; cursor := S (cursor r) |})
    | Raise e =>
        (Raise e,
         {| gateway := peer_close (gateway r); cursor := S (cursor r) |})
    end.

(** [Gateway.Receive]; the dispatch of events is a TODO in the source. *)
Definition Gateway_Receive : St Receiver json :=
  r <- get ;;
  if open (websocket (gateway r)) then
    data <- websocket_recv ;;
    lift (loads data)
  else raise ClosedSocketException.

End Receiving.


(** What can happen to a gateway: the calls of its user, a wake-up of the
    keep-alive thread, and the other end closing the connection. *)
Inductive event : Type :=
| CallConnect
| CallClose
| CallSend (data : json)
| CallAuthenticate (token : string)
| ThreadWakes
| PeerCloses.

Definition is_peer_close (e : event) : bool :=
  match e with PeerCloses => true | _ => false end.

Definition is_thread_start (e : effect) : bool :=
  match e with ThreadStart => true | _ => false end.

Definition is_ws_close (e : effect) : bool :=
  match e with WsClose => true | _ => false end.

Definition is_http_release (e : effect) : bool :=
  match e with HttpRelease => true | _ => false end.

Section Histories.

Variable http : list effect -> Request -> result json.
Variable dial : list effect -> string -> result unit.

(** The gateway after one event, for a user who awaits every call before
    the next event: a call runs from its first line to its last with
    nothing in between (calls that overlap are below, in
    [Connect_twice]). An exception goes to the caller and the gateway stays
    as the call left it. Only a thread that was started and has not
    finished wakes up. *)
Definition perform (g : Gateway) (e : event) : Gateway :=
  match e with
  | CallConnect => snd (Gateway_Connect http dial g)
  | CallClose => snd (Gateway_Close g)
  | CallSend data => snd (Gateway_Send data g)
  | CallAuthenticate token => snd (Gateway_Authenticate token g)
  | ThreadWakes =>
      if started (keepAlive g) && negb (finished (keepAlive g))
      then snd (GatewayKeepAlive_run_step g) else g
  | PeerCloses => peer_close g
  end.

(** A new gateway after a sequence of events. *)
Definition history (es : list event) : Gateway :=
  fold_left perform es Gateway_init.

End Histories.

(** ** Calls that overlap

    [Connect] is a coroutine. Between the guard of line 82 and the
    assignment of line 83 it awaits twice, the answer to
    [GetWebsocketURL] and the socket of [client.connect]; at either place
    the event loop may run another coroutine on the same gateway. *)
Inductive Connect_call : Type :=
| AtGuard
| AwaitsURL
| AwaitsSocket (url : json)
| Returned (r : result unit).

Section Overlapping.

Variable http : list effect -> Request -> result json.
Variable dial : list effect -> string -> result unit.

(** A call of [Connect] runs on to its next await, or to its end. The guard
    is read once, at the start; lines 84 and 85 follow the assignment
    without an await. *)
Definition Connect_resume (c : Connect_call) (g : Gateway)
  : Connect_call * Gateway :=
  match c with
  | AtGuard =>
      if negb (open (websocket g)) then (AwaitsURL, g)
      else (Returned (Ok tt), g)
  | AwaitsURL =>
      match Gateway_GetWebsocketURL http g with
      | (Ok url, g') => (AwaitsSocket url, g')
      | (Raise e, g') => (Returned (Raise e), g')
      end
  | AwaitsSocket url =>
      match (ws <- client_connect dial url ;;
             modify (set_websocket ws) ;;
             stopEvent_clear ;;
             keepAlive_start) g with
      | (r, g') => (Returned r, g')
      end
  | Returned r => (Returned r, g)
  end.

(** One call with nothing in between. *)
Definition Connect_alone (g : Gateway) : Connect_call * Gateway :=
  match Connect_resume AtGuard g with
  | (c1, g1) =>
      match Connect_resume c1 g1 with
      | (c2, g2) => Connect_resume c2 g2
      end
  end.

(** Two calls of [Connect] on one gateway; the schedule says which of
    them the event loop resumes next, the first ([true]) or the second. *)
Fixpoint Connect_twice (schedule : list bool) (a b : Connect_call)
    (g : Gateway) : Connect_call * Connect_call * Gateway :=
  match schedule with
  | [] => (a, b, g)
  | true :: rest =>
      match Connect_resume a g with
      | (a', g') => Connect_twice rest a' b g'
      end
  | false :: rest =>
      match Connect_resume b g with
      | (b', g') => Connect_twice rest a b' g'
      end
  end.

End Overlapping.

(** How often the schedule resumes a call. *)
Fixpoint turns (who : bool) (schedule : list bool) : nat :=
  match schedule with
  | [] => 0
  | x :: rest => (if Bool.eqb who x then 1 else 0) + turns who rest
  end.

(** A call that passed the guard and has not yet got its socket. *)
Definition past_guard (c : Connect_call) : nat :=
  match c with
  | AwaitsURL | AwaitsSocket _ => 1
  | _ => 0
  end.

(** How often a call has to be resumed to reach its end. *)
Definition resumes_left (c : Connect_call) : nat :=
  match c with
  | AtGuard => 3
  | AwaitsURL => 2
  | AwaitsSocket _ => 1
  | Returned _ => 0
  end.

(** A call past the guard that, once it has an address, has [url]. *)
Definition waits_for (url : string) (c : Connect_call) : Prop :=
  c = AwaitsURL \/ c = AwaitsSocket (JStr url).

(** A call that is past the guard, or has returned. *)
Definition guard_behind (url : string) (c : Connect_call) : Prop :=
  waits_for url c \/ exists r, c = Returned r.

(** ** The keep-alive thread and the clock

    The loop of [run] once more, now with what the turn without a clock
    leaves out: the time that [stopEvent.wait(self.interval)] and
    [func.result(10)] take, the [TimeoutError] of the latter, and a
    [websocket.send] that raises on an open socket. *)

(** The thread as it runs: the gateway it serves, the time on its clock,
    when it handed which payload to the loop of the gateway, and the
    payloads it handed over whose coroutine had not run when it stopped
    waiting for them. *)
Record Heartbeat : Type := {
  served : Gateway;
  clock : Z;
  submissions : list (Z * json);
  pending : list json
}.

(** How a turn of the loop ends: the loop goes on, the loop is left
    because the event is set, [func.result(10)] raises [TimeoutError], or
    the coroutine raised and [func.result(10)] raises the same. *)
Inductive turn_end : Type :=
| Continues
| LoopLeft
| TimedOut
| Died (e : exn).

Definition thread_finished (g : Gateway) : Gateway :=
  set_keepAlive (set_finished (keepAlive g)) g.

Section Clocked.

(** [websocket.send] of the library on an open socket: it returns, or it
    raises when the connection breaks under it. *)
Variable wsend : list effect -> json -> result unit.

(** How long the loop of the gateway takes to run a coroutine handed to it
    and to have its result ready; [None] when it never does. *)
Variable handoff : list effect -> option N.

(** [Gateway.Send] with a library that may fail; [Gateway_Send] is the case
    of a library that accepts every frame. *)
Definition Gateway_Send_on (data : json) : St Gateway unit :=
  g <- get ;;
  if open (websocket g) then
    lift (wsend (log g) data) ;;
    record (WsSend data)
  else raise ClosedSocketException.

(** One turn of the loop of [GatewayKeepAlive.run]. With the event set the
    loop is left. Otherwise [stopEvent.wait(self.interval)] takes the
    interval; then the payload is built and the coroutine [Send(data)] is
    handed to the loop of the gateway; [func.result(10)] gives the outcome
    of the coroutine when that is ready within 10, and raises
    [TimeoutError] after 10 when it is not, leaving the coroutine with the
    loop. An exception ends the thread. *)
Definition GatewayKeepAlive_turn (h : Heartbeat) : turn_end * Heartbeat :=
  let g := served h in
  if stopEvent (keepAlive g) then
    (LoopLeft,
     {| served := thread_finished g; clock := clock h;
        submissions := submissions h; pending := pending h |})
  else
    let woke := (clock h + interval (keepAlive g))%Z in
    let data := GetPayload in
    let handed := submissions h ++ [(woke, data)] in
    let late :=
      (TimedOut,
       {| served := thread_finished g; clock := (woke + 10)%Z;
          submissions := handed; pending := pending h ++ [data] |}) in
    match handoff (log g) with
    | Some d =>
        if (Z.of_N d <=? 10)%Z then
          match Gateway_Send_on data g with
          | (Ok _, g') =>
              (Continues,
               {| served := g'; clock := (woke + Z.of_N d)%Z;
                  submissions := handed; pending := pending h |})
          | (Raise e, g') =>
              (Died e,
               {| served := thread_finished g';
                  clock := (woke + Z.of_N d)%Z;
                  submissions := handed; pending := pending h |})
          end
        else late
    | None => late
    end.

(** [GatewayKeepAlive.run] over a number of wake-ups. *)
Fixpoint GatewayKeepAlive_run_timed (wakeups : nat) (h : Heartbeat)
    : turn_end * Heartbeat :=
  match wakeups with
  | 0 => (Continues, h)
  | S n =>
      match GatewayKeepAlive_turn h with
      | (Continues, h') => GatewayKeepAlive_run_timed n h'
      | other => other
      end
  end.

(** The result of the coroutine is ready within the 10 that
    [func.result(10)] waits. *)
Definition in_time (t : list effect) : Prop :=
  match handoff t with
  | Some d => (Z.of_N d <= 10)%Z
  | None => False
  end.

End Clocked.

(** ** More vocabulary *)

(** A computation that leaves the state alone. *)
Definition stateless {S A : Type} (m : St S A) : Prop :=
  forall s, snd (m s) = s.

(** A computation that leaves the session alone. *)
Definition keeps_session {A : Type} (m : St World A) : Prop :=
  forall w, session (snd (m w)) = session w.

(** A computation that neither asks the server nor builds an object. *)
Definition offline {A : Type} (m : St World A) : Prop :=
  forall w, trace (snd (m w)) = trace w /\ next_addr (snd (m w)) = next_addr w.

(** The world after a constructor call. *)
Definition allocated (w : World) : World :=
  {| session := session w; next_addr := S (next_addr w); trace := trace w |}.

(** The world with a channel put into the channel cache. *)
Definition registered (k : key) (c : Channel) (w : World) : World :=
  {| session := {| users := users (session w);
                   channels := <[k := c]> (channels (session w));
                   token := token (session w) |};
     next_addr := next_addr w; trace := trace w |}.

(** The user objects that a channel refers to. *)
Definition channel_users (c : Channel) : list UserRef :=
  match c with
  | SavedMessages _ user => [user]
  | DirectMessage _ _ recipients _ => recipients
  | Group _ _ recipients owner _ _ _ _ => recipients ++ option_list owner
  | TextChannel _ _ _ _ _ _ _ | VoiceChannel _ _ _ _ _ _ => []
  end.

(** The user objects that a session holds: those of its user cache and
    those that a channel of its channel cache refers to. *)
Definition held (s : Session) (u : UserRef) : Prop :=
  (exists k, users s !! k = Some u)
  \/ (exists k c, channels s !! k = Some c /\ u ∈ channel_users c).

(** Objects that came out of one of the first [n] constructor calls. *)
Definition built_before (n : nat) (us : list UserRef) : Prop :=
  Forall (fun u => addr u < n) us.

(** Every object that the session holds came out of a constructor call. *)
Definition identities_in_use (w : World) : Prop :=
  forall u, held (session w) u -> addr u < next_addr w.

(** A computation that keeps [identities_in_use], never takes an identity
    back, and returns only objects that were built by its end, when it is
    given only objects that were built by its start. *)
Definition builds {A : Type} (given : list UserRef)
    (refs : A -> list UserRef) (m : St World A) : Prop :=
  forall w,
    identities_in_use w -> built_before (next_addr w) given ->
    identities_in_use (snd (m w))
    /\ next_addr w <= next_addr (snd (m w))
    /\ forall a, fst (m w) = Ok a ->
                 built_before (next_addr (snd (m w))) (refs a).

Definition bool_to_nat (b : bool) : nat := if b then 1 else 0.

(** What every gateway that grew out of [Gateway.__init__] satisfies: the
    trace and the flags agree, the period and the daemon flag are those of
    the constructor, and a socket is open or a thread finished only after
    the thread was started. *)
Definition gateway_invariant (g : Gateway) : Prop :=
  count is_thread_start (log g) = bool_to_nat (started (keepAlive g))
  /\ count is_http_release (log g) = bool_to_nat (released (client g))
  /\ interval (keepAlive g) = 20%Z
  /\ daemon (keepAlive g) = true
  /\ (open (websocket g) = true -> started (keepAlive g) = true)
  /\ (finished (keepAlive g) = true -> started (keepAlive g) = true).

(** The sockets opened so far against the sockets closed by [Close], the
    connections the other end may have dropped, and the open one. *)
Definition socket_balance (drops : nat) (g : Gateway) : Prop :=
  count is_ws_close (log g) + bool_to_nat (open (websocket g))
  <= count is_connect (log g)
  /\ count is_connect (log g)
     <= count is_ws_close (log g) + drops
        + bool_to_nat (open (websocket g)).

Definition peer_closes (es : list event) : nat :=
  length (filter (fun e => is_peer_close e = true) es).

(** A user payload without any of the optional fields that [User.FromJSON]
    reads. *)
Definition no_optional_fields (data : json) : Prop :=
  Forall (fun field => py_get data field = Ok JNull)
    ["badges"; "online"; "relationship"; "status"; "bot"].

(** A computation that makes at most [n] requests. *)
Definition costs {A : Type} (n : nat) (m : St World A) : Prop :=
  forall w,
    count is_fetch (trace (snd (m w))) <= count is_fetch (trace w) + n.

(** ** More scenarios *)

Definition bob : UserRef :=
  {| addr := 1;
     deref := User_init (JStr "U2") (JStr "bob") None None None None None
                None |}.

(** A session whose user cache holds "U1" and "U2". *)
Definition world_with_both : World :=
  {| session := {| users := {[ KStr "U1" := alice; KStr "U2" := bob ]};
                   channels := ∅; token := "secret" |};
     next_addr := 2; trace := [] |}.

Definition dm_payload : json :=
  JObj [("channel_type", JStr "DirectMessage"); ("_id", JStr "D1");
        ("active", JBool true);
        ("recipients", JArr [JStr "U1"; JStr "U2"])].

Definition saved_payload : json :=
  JObj [("channel_type", JStr "SavedMessages"); ("_id", JStr "S1");
        ("user", JStr "U1")].

Definition empty_group_payload : json :=
  JObj [("channel_type", JStr "Group"); ("_id", JStr "G0");
        ("name", JStr "nobody"); ("recipients", JArr []);
        ("owner", JStr "U1")].

Definition text_payload : json :=
  JObj [("channel_type", JStr "TextChannel"); ("_id", JStr "T1");
        ("server", JStr "S9"); ("name", JStr "general")].

Definition text_payload_with_permissions : json :=
  JObj [("channel_type", JStr "TextChannel"); ("_id", JStr "T2");
        ("server", JStr "S9"); ("name", JStr "mods");
        ("default_permissions", JNum 7)].

(** A server that knows the direct message "D1" and fails on every user:
    it answers the requests under [/channels/] and no other. *)
Definition http_channels_only : list effect -> Request -> result json :=
  fun _ r => if String.prefix "/channels/" (req_path r) then Ok dm_payload
             else Raise (TransportError "unreachable").

(** A server that answers every request with the text channel "T1". *)
Definition http_text : list effect -> Request -> result json :=
  fun _ _ => Ok text_payload.

(** A session that holds "U1" in its user cache and "U2" through the
    cached direct message "D1". *)
Definition world_with_channel : World :=
  {| session := {| users := {[ KStr "U1" := alice ]};
                   channels :=
                     {[ KStr "D1" := DirectMessage (JStr "D1") (JBool true)
                                       [alice; bob] JNull ]};
                   token := "secret" |};
     next_addr := 2; trace := [] |}.

Definition friend_json : json :=
  JObj [("_id", JStr "U3"); ("username", JStr "carol");
        ("relationship", JStr "Friend"); ("badges", JNum 3);
        ("flags", JNum 1)].

Definition stranger_json : json :=
  JObj [("_id", JStr "U4"); ("username", JStr "dave");
        ("relationship", JStr "Acquaintance")].

(** A library that accepts every frame, a loop that has every result ready
    after 2, and a loop that never runs the coroutine. *)
Definition wsend_ok : list effect -> json -> result unit :=
  fun _ _ => Ok tt.

Definition handoff_quick : list effect -> option N :=
  fun _ => Some 2%N.

Definition handoff_never : list effect -> option N :=
  fun _ => None.

(** A loop that has the first result ready after 2 and the later ones
    after 11. *)
Definition handoff_slows : list effect -> option N :=
  fun t => if Nat.eqb (count (fun e => match e with WsSend _ => true
                                           | _ => false end) t) 0
           then Some 2%N else Some 11%N.

(** The keep-alive thread of the connected gateway at time 0. *)
Definition heartbeat_start : Heartbeat :=
  {| served := connected_gateway; clock := 0; submissions := [];
     pending := [] |}.

(** Incoming frames: a Ready event, then the end of the connection. *)
Definition recv_then_closed : nat -> result string :=
  fun n => match n with
           | 0 => Ok "ready"
           | _ => Raise (TransportError "connection closed")
           end.

(** Incoming frames: the first is not JSON, the second is a Ready event. *)
Definition recv_two : nat -> result string :=
  fun n => match n with
           | 0 => Ok "garbage"
           | _ => Ok "ready"
           end.

Definition loads_ready : string -> result json :=
  fun s => if String.eqb s "ready" then Ok (JObj [("type", JStr "Ready")])
           else Raise ValueError.

(** * Properties *)

(** ** Running a computation *)

Lemma bind_ok {S A B : Type} (m : St S A) (k : A -> St S B) s a s' :
  m s = (Ok a, s') -> bind m k s = k a s'.
Proof. unfold bind. by intros ->. Qed.

Lemma bind_raise {S A B : Type} (m : St S A) (k : A -> St S B) s e s' :
  m s = (Raise e, s') -> bind m k s = (Raise e, s').
Proof. unfold bind. by intros ->. Qed.

Lemma bind_lift_ok {S A B : Type} (r : result A) (k : A -> St S B) s a :
  r = Ok a -> bind (lift r) k s = k a s.
Proof. intros ->. reflexivity. Qed.

Lemma bind_lift_raise {S A B : Type} (r : result A) (k : A -> St S B) s e :
  r = Raise e -> bind (lift r) k s = (Raise e, s).
Proof. intros ->. reflexivity. Qed.

(** A computation whose continuation never returns normally does not
    return normally. *)
Lemma bind_never_ok {S A B : Type} (m : St S A) (k : A -> St S B) s :
  (forall a s', is_ok (fst (k a s')) = false) ->
  is_ok (fst (bind m k s)) = false.
Proof.
  intros Hk. unfold bind. destruct (m s) as [[a|e] s']; [apply Hk | done].
Qed.

(** ** Python values *)

Lemma json_eqb_str (v : json) (s : string) :
  json_eqb v (JStr s) = true -> v = JStr s.
Proof.
  destruct v; simpl; try discriminate.
  intros H. apply String.eqb_eq in H. by subst.
Qed.

Lemma matches_false (tag : json) (c : ChannelType.t) :
  tag <> JStr (ChannelType.value c) -> matches tag c = false.
Proof.
  intros Hne. unfold matches.
  destruct (json_eqb tag (JStr (ChannelType.value c))) eqn:E; [|done].
  by apply json_eqb_str in E.
Qed.

Lemma py_item_dict (data : json) (k : string) (v : json) :
  py_item data k = Ok v -> exists kv, data = JObj kv /\ assoc k kv = Some v.
Proof.
  destruct data; simpl; try discriminate.
  destruct (assoc k members) eqn:E; [|discriminate].
  intros [= ->]. eauto.
Qed.

Lemma User_getattr_userID (u : User) :
  User_getattr u "userID" = Raise (AttributeError "userID").
Proof. reflexivity. Qed.

(** ** Decoding channels *)

Section EntityFacts.

Variable http : list effect -> Request -> result json.

(** Reading an optional field of a dict neither fails nor has an effect. *)
Lemma plain_kwarg_dict kv field (w : World) :
  exists kw, plain_kwarg (JObj kv) field w = (Ok kw, w).
Proof.
  unfold plain_kwarg, when_present, bind, lift, ret. simpl.
  destruct (assoc field kv) as [v|] eqn:E; simpl; [|eauto].
  destruct v; simpl; rewrite ?E; eauto.
Qed.

Lemma resolve_user_hit (uid : string) (user : UserRef) (w : World) :
  users (session w) !! KStr uid = Some user ->
  resolve_user http (JStr uid) w = (Ok user, w).
Proof.
  intros Hhit. unfold resolve_user, bind, lift, get. simpl.
  by rewrite Hhit.
Qed.

(** A hit hands out the very object that the cache holds. *)
Lemma resolve_user_hit_same_object (uid : string) (user : UserRef)
    (w : World) :
  users (session w) !! KStr uid = Some user ->
  exists r, fst (resolve_user http (JStr uid) w) = Ok r
            /\ same_object r user = true.
Proof.
  intros Hhit. exists user. rewrite (resolve_user_hit _ _ _ Hhit).
  split; [reflexivity | apply Nat.eqb_refl].
Qed.

End EntityFacts.

(** C10. A channel payload whose [channel_type] is none of SavedMessages,
    DirectMessage, Group, TextChannel, VoiceChannel builds no channel: the
    [match] falls through with [channel] still [None], the registration
    [session.channels[channel.channelID] = channel] raises [AttributeError]
    (not a decoding error), nothing is returned, and the world, with the
    channel cache of the session in it, is as before. *)
Theorem C10_unknown_channel_type_fails
    (http : list effect -> Request -> result json)
    (data tag : json) (w : World) :
  py_item data "channel_type" = Ok tag ->
  (forall c : ChannelType.t, tag <> JStr (ChannelType.value c)) ->
  Channel_FromJSON http data w = (Raise (AttributeError "channelID"), w).
Proof.
  intros Htag Hnone. unfold Channel_FromJSON.
  erewrite bind_lift_ok by exact Htag.
  rewrite !matches_false by apply Hnone.
  reflexivity.
Qed.

(** The payload [{"channel_type": "Category", "_id": "X1"}] on a new
    session: the decoding raises and the channel cache stays empty. *)
Lemma C10_unknown_channel_type_fails_witness :
  Channel_FromJSON http_alice unknown_payload fresh_world
  = (Raise (AttributeError "channelID"), fresh_world)
  /\ channels (session (snd (Channel_FromJSON http_alice unknown_payload
                                fresh_world))) = ∅.
Proof.
  assert (H : Channel_FromJSON http_alice unknown_payload fresh_world
              = (Raise (AttributeError "channelID"), fresh_world)).
  { apply (C10_unknown_channel_type_fails http_alice unknown_payload
             (JStr "Category") fresh_world).
    - reflexivity.
    - intros []; discriminate. }
  split; [exact H | by rewrite H].
Defined.

(** C1. Decoding a Group payload whose first recipient is already in the
    user cache does not yield a Group: the loop reads [user.userID], an
    attribute that [User.__init__] never sets (it sets [id]), so the decoding
    raises [AttributeError] at the first recipient, before the owner is
    compared, and leaves the world as it was. *)
Theorem C1_group_decode_raises
    (http : list effect -> Request -> result json)
    (data : json) (uid : string) (rest : list json) (user : UserRef)
    (w : World) :
  py_item data "channel_type" = Ok (JStr "Group") ->
  py_item data "recipients" = Ok (JArr (JStr uid :: rest)) ->
  users (session w) !! KStr uid = Some user ->
  Channel_FromJSON http data w = (Raise (AttributeError "userID"), w).
Proof.
  intros Htag Hrec Hhit.
  destruct (py_item_dict _ _ _ Htag) as (kv & -> & _).
  unfold Channel_FromJSON.
  erewrite bind_lift_ok by exact Htag.
  replace (matches (JStr "Group") ChannelType.SavedMessages) with false
    by reflexivity.
  replace (matches (JStr "Group") ChannelType.DirectMessage) with false
    by reflexivity.
  replace (matches (JStr "Group") ChannelType.Group) with true
    by reflexivity.
  cbv iota.
  destruct (plain_kwarg_dict kv "description" w) as [k1 E1].
  destruct (plain_kwarg_dict kv "last_message_id" w) as [k2 E2].
  destruct (plain_kwarg_dict kv "permissions" w) as [k3 E3].
  destruct (plain_kwarg_dict kv "nsfw" w) as [k4 E4].
  erewrite bind_raise; [reflexivity|].
  erewrite bind_ok by exact E1.
  erewrite bind_ok by exact E2.
  erewrite bind_ok by exact E3.
  erewrite bind_ok by exact E4.
  erewrite bind_lift_ok by exact Hrec.
  erewrite bind_lift_ok by reflexivity.
  erewrite bind_raise; [reflexivity|].
  cbn [Group_loop].
  erewrite bind_ok by (apply resolve_user_hit; exact Hhit).
  erewrite bind_lift_raise by apply User_getattr_userID.
  reflexivity.
Qed.

(** The Group payload with recipients ["U1", "U2"] and owner "U1", decoded
    in a session that has "U1" in its user cache. *)
Lemma C1_group_decode_raises_witness :
  Channel_FromJSON http_alice group_payload world_with_alice
  = (Raise (AttributeError "userID"), world_with_alice).
Proof.
  apply (C1_group_decode_raises http_alice group_payload "U1" [JStr "U2"]
           alice world_with_alice).
  - reflexivity.
  - reflexivity.
  - vm_compute. reflexivity.
Defined.

(** ** Fetching *)

Lemma count_app (p : effect -> bool) (a b : list effect) :
  count p (a ++ b) = count p a + count p b.
Proof. unfold count. by rewrite filter_app, length_app. Qed.

Lemma after_after (w : World) (a b : list effect) :
  after (after w a) b = after w (a ++ b).
Proof. unfold after. simpl. by rewrite app_assoc. Qed.

Lemma quiet_lift {A : Type} (r : result A) : quiet (lift r).
Proof. by intros w. Qed.

Lemma quiet_ret {A : Type} (a : A) : quiet (ret a).
Proof. by intros w. Qed.

Lemma quiet_new_User (u : User) : quiet (new_User u).
Proof. by intros w. Qed.

Lemma quiet_bind {A B : Type} (m : St World A) (k : A -> St World B) :
  quiet m -> (forall a, quiet (k a)) -> quiet (bind m k).
Proof.
  intros Hm Hk w. unfold bind.
  destruct (Hm w) as [Hs Ht].
  destruct (m w) as [[a|e] w1]; simpl in *; [|done].
  destruct (Hk a w1) as [Hs' Ht']. split; congruence.
Qed.

Lemma quiet_when_present {A : Type} data probe (k : St World A) :
  quiet k -> quiet (when_present data probe k).
Proof.
  intros Hk. unfold when_present.
  apply quiet_bind; [apply quiet_lift|].
  intros []; try apply quiet_ret;
    (apply quiet_bind; [exact Hk | intros; apply quiet_ret]).
Qed.

Create HintDb quiet.
#[local] Hint Resolve quiet_lift quiet_ret quiet_new_User : quiet.
#[local] Hint Extern 2 (quiet (bind _ _)) =>
  apply quiet_bind; [|intros] : quiet.
#[local] Hint Extern 2 (quiet (when_present _ _ _)) =>
  apply quiet_when_present : quiet.

(** Decoding a user builds one object and touches nothing else. *)
Lemma User_FromJSON_quiet (data : json) : quiet (User_FromJSON data).
Proof. unfold User_FromJSON, Status_FromJSON. auto 20 with quiet. Qed.

Section FetchFacts.

Variable http : list effect -> Request -> result json.

Lemma HTTPClient_Request_run (r : Request) (w : World) :
  HTTPClient_Request http r w = (http (trace w) r, after w [HttpRequest r]).
Proof. reflexivity. Qed.

(** [User.FromID] on a string: one request; a failure of the transport
    comes out as it is, an answer is decoded. *)
Lemma User_FromID_run (uid token : string) (w : World) :
  User_FromID http (JStr uid) token w =
  match http (trace w) (user_request token uid) with
  | Ok body =>
      User_FromJSON body
        (after w [HttpRequest (user_request token uid); HttpRelease])
  | Raise e => (Raise e, after w [HttpRequest (user_request token uid)])
  end.
Proof.
  unfold User_FromID. erewrite bind_lift_ok by reflexivity.
  unfold bind at 1. rewrite HTTPClient_Request_run.
  fold (user_request token uid).
  destruct (http (trace w) (user_request token uid)) as [body|e]; [|done].
  unfold bind, emit, modify. simpl. unfold after. simpl.
  by rewrite <- app_assoc.
Qed.

Lemma resolve_user_miss (uid : string) (w : World) :
  users (session w) !! KStr uid = None ->
  resolve_user http (JStr uid) w
  = User_FromID http (JStr uid) (token (session w)) w.
Proof.
  intros Hmiss. unfold resolve_user, bind, lift, get. simpl.
  by rewrite Hmiss.
Qed.

(** A miss costs exactly one request and leaves the session as it was. *)
Lemma resolve_user_miss_effects (uid : string) (w : World) :
  users (session w) !! KStr uid = None ->
  let w1 := snd (resolve_user http (JStr uid) w) in
  session w1 = session w
  /\ exists tail,
       trace w1
       = trace w ++ HttpRequest (user_request (token (session w)) uid)
                    :: tail
       /\ count is_fetch tail = 0.
Proof.
  intros Hmiss w1. subst w1.
  rewrite (resolve_user_miss _ _ Hmiss), User_FromID_run.
  destruct (http _ _) as [body|e].
  - destruct (User_FromJSON_quiet body
                (after w [HttpRequest
                            (user_request (token (session w)) uid);
                          HttpRelease])) as [Hs Ht].
    split; [exact Hs|]. exists [HttpRelease]. by rewrite Ht.
  - split; [done|]. by exists [].
Qed.

End FetchFacts.

(** C2 (as the code has it). Resolving a user reference returns the cached
    entry when there is one, with no request and no other effect. On a miss
    it requests [/users/{id}] with the session's token, decodes the answer
    and returns the result; the user cache of the session is left as it was,
    so the miss costs exactly one request and a second resolution of the same
    id costs one more. *)
Theorem C2_resolve_user_hit_or_fetch
    (http : list effect -> Request -> result json)
    (uid : string) (w : World) :
  (forall user, users (session w) !! KStr uid = Some user ->
     resolve_user http (JStr uid) w = (Ok user, w))
  /\ (users (session w) !! KStr uid = None ->
      let req := user_request (token (session w)) uid in
      let w1 := snd (resolve_user http (JStr uid) w) in
      let w2 := snd (resolve_user http (JStr uid) w1) in
      (forall body, http (trace w) req = Ok body ->
         resolve_user http (JStr uid) w
         = User_FromJSON body (after w [HttpRequest req; HttpRelease]))
      /\ session w1 = session w
      /\ count is_fetch (trace w1) = count is_fetch (trace w) + 1
      /\ count is_fetch (trace w2) = count is_fetch (trace w) + 2).
Proof.
  split; [intros user; apply resolve_user_hit|].
  intros Hmiss req w1 w2.
  destruct (resolve_user_miss_effects http uid w Hmiss)
    as (Hs & tail & Ht & Hc).
  fold w1 in Hs, Ht.
  assert (Hmiss1 : users (session w1) !! KStr uid = None) by by rewrite Hs.
  destruct (resolve_user_miss_effects http uid w1 Hmiss1)
    as (_ & tail' & Ht' & Hc').
  fold w2 in Ht'.
  repeat split.
  - intros body Hbody.
    rewrite (resolve_user_miss _ _ _ Hmiss), User_FromID_run.
    fold req. by rewrite Hbody.
  - exact Hs.
  - rewrite Ht, count_app. change (_ :: tail) with ([HttpRequest
      (user_request (token (session w)) uid)] ++ tail).
    rewrite count_app, Hc. reflexivity.
  - rewrite Ht', Ht.
    change (HttpRequest (user_request (token (session w1)) uid) :: tail')
      with ([HttpRequest (user_request (token (session w1)) uid)] ++ tail').
    change (HttpRequest (user_request (token (session w)) uid) :: tail)
      with ([HttpRequest (user_request (token (session w)) uid)] ++ tail).
    rewrite !count_app, Hc, Hc'. unfold count. simpl. lia.
Qed.

(** "U1" resolved with the cache holding it, and resolved twice with an
    empty cache against a server that knows "U1". *)
Lemma C2_resolve_user_hit_or_fetch_witness :
  resolve_user http_alice (JStr "U1") world_with_alice
  = (Ok alice, world_with_alice)
  /\ session (snd (resolve_user http_alice (JStr "U1") fresh_world))
     = session fresh_world
  /\ count is_fetch
       (trace (snd (resolve_user http_alice (JStr "U1")
                      (snd (resolve_user http_alice (JStr "U1")
                              fresh_world))))) = 2.
Proof.
  split.
  - apply (proj1 (C2_resolve_user_hit_or_fetch http_alice "U1"
                    world_with_alice) alice).
    vm_compute. reflexivity.
  - pose proof (proj2 (C2_resolve_user_hit_or_fetch http_alice "U1"
                         fresh_world)) as H.
    assert (Hmiss : users (session fresh_world) !! KStr "U1" = None)
      by (vm_compute; reflexivity).
    destruct (H Hmiss) as (_ & Hs & _ & H2).
    split; [exact Hs | exact H2].
Defined.

(** C2, the claim as it was stated, fails on a miss: the server answers
    with the user "U1", the resolution returns it, and afterwards the user
    cache still has no entry for "U1"; the second resolution asks the server
    again. *)
Lemma C2_miss_is_not_stored :
  is_ok (fst (resolve_user http_alice (JStr "U1") fresh_world)) = true
  /\ users (session (snd (resolve_user http_alice (JStr "U1") fresh_world)))
       !! KStr "U1" = None
  /\ count is_fetch
       (trace (snd (resolve_user http_alice (JStr "U1")
                      (snd (resolve_user http_alice (JStr "U1")
                              fresh_world))))) = 2.
Proof. vm_compute. repeat split. Qed.

(** ** Errors of a fetch *)

Lemma User_FromJSON_needs_id (data : json) (w : World) :
  is_ok (py_item data "_id") = false ->
  is_ok (fst (User_FromJSON data w)) = false.
Proof.
  intros Hid. unfold User_FromJSON.
  do 5 (apply bind_never_ok; intros ? ?).
  destruct (py_item data "_id"); [discriminate | reflexivity].
Qed.

Section ChannelFetchFacts.

Variable http : list effect -> Request -> result json.

Lemma Channel_FromID_run (id : string) (w : World) :
  channels (session w) !! KStr id = None ->
  let req := channel_request (token (session w)) id in
  Channel_FromID http (JStr id) w =
  match http (trace w) req with
  | Raise e => (Raise e, after w [HttpRequest req])
  | Ok body =>
      match py_get body "type" with
      | Raise e => (Raise e, after w [HttpRequest req; HttpRelease])
      | Ok JNull =>
          bind (Channel_FromJSON http body) (fun c => ret (Some c))
            (after w [HttpRequest req; HttpRelease])
      | Ok _ => (Ok None, after w [HttpRequest req; HttpRelease])
      end
  end.
Proof.
  intros Hmiss req. unfold Channel_FromID.
  erewrite bind_lift_ok by reflexivity.
  erewrite bind_ok by reflexivity.
  rewrite Hmiss.
  erewrite bind_lift_ok by reflexivity.
  unfold bind at 1. rewrite HTTPClient_Request_run.
  fold (channel_request (token (session w)) id). fold req.
  destruct (http (trace w) req) as [body|e]; [|done].
  unfold bind at 1. unfold emit at 1, modify at 1. cbv beta iota.
  change {| session := session (after w [HttpRequest req]);
            next_addr := next_addr (after w [HttpRequest req]);
            trace := trace (after w [HttpRequest req]) ++ [HttpRelease] |}
    with (after (after w [HttpRequest req]) [HttpRelease]).
  rewrite after_after. simpl app.
  unfold bind at 1, lift at 1.
  destruct (py_get body "type") as [[]|e]; reflexivity.
Qed.

End ChannelFetchFacts.

Section NestedFetchFacts.

Variable http : list effect -> Request -> result json.

Lemma DirectMessage_loop_app pre post acc (w : World) :
  DirectMessage_loop http (pre ++ post) acc w
  = bind (DirectMessage_loop http pre acc)
      (fun resolved => DirectMessage_loop http post resolved) w.
Proof.
  revert acc w. induction pre as [|x pre IH]; intros acc w; simpl.
  - reflexivity.
  - unfold bind.
    destruct (resolve_user http x w) as [[user|e] w1]; [apply IH|done].
Qed.

(** The loop of a direct message passes on what the first failing lookup
    raises. *)
Lemma DirectMessage_loop_raises pre x post acc resolved (w w1 w2 : World) e :
  DirectMessage_loop http pre acc w = (Ok resolved, w1) ->
  resolve_user http x w1 = (Raise e, w2) ->
  DirectMessage_loop http (pre ++ x :: post) acc w = (Raise e, w2).
Proof.
  intros Hpre Hx. rewrite DirectMessage_loop_app.
  erewrite bind_ok by exact Hpre. simpl.
  by erewrite bind_raise by exact Hx.
Qed.

Lemma SavedMessages_lookup_raises data x (w w1 : World) e :
  py_item data "channel_type" = Ok (JStr "SavedMessages") ->
  py_item data "user" = Ok x ->
  resolve_user http x w = (Raise e, w1) ->
  Channel_FromJSON http data w = (Raise e, w1).
Proof.
  intros Htag Huser Hx. unfold Channel_FromJSON.
  erewrite bind_lift_ok by exact Htag.
  replace (matches (JStr "SavedMessages") ChannelType.SavedMessages)
    with true by reflexivity.
  cbv iota. erewrite bind_raise; [reflexivity|].
  erewrite bind_lift_ok by exact Huser.
  by erewrite bind_raise by exact Hx.
Qed.

Lemma DirectMessage_lookup_raises data r pre x post resolved
    (w w1 w2 : World) e :
  py_item data "channel_type" = Ok (JStr "DirectMessage") ->
  py_item data "recipients" = Ok r ->
  py_iter r = Ok (pre ++ x :: post) ->
  DirectMessage_loop http pre [] w = (Ok resolved, w1) ->
  resolve_user http x w1 = (Raise e, w2) ->
  Channel_FromJSON http data w = (Raise e, w2).
Proof.
  intros Htag Hrec Hiter Hpre Hx.
  destruct (py_item_dict _ _ _ Htag) as (kv & -> & _).
  unfold Channel_FromJSON.
  erewrite bind_lift_ok by exact Htag.
  replace (matches (JStr "DirectMessage") ChannelType.SavedMessages)
    with false by reflexivity.
  replace (matches (JStr "DirectMessage") ChannelType.DirectMessage)
    with true by reflexivity.
  cbv iota.
  destruct (plain_kwarg_dict kv "last_message_id" w) as [kw Hkw].
  erewrite bind_raise; [reflexivity|].
  erewrite bind_ok by exact Hkw.
  erewrite bind_lift_ok by exact Hrec.
  erewrite bind_lift_ok by exact Hiter.
  erewrite bind_raise; [reflexivity|].
  by apply (DirectMessage_loop_raises pre x post [] resolved w w1 w2).
Qed.

Lemma Group_lookup_raises data r x rest (w w1 : World) e :
  py_item data "channel_type" = Ok (JStr "Group") ->
  py_item data "recipients" = Ok r ->
  py_iter r = Ok (x :: rest) ->
  resolve_user http x w = (Raise e, w1) ->
  Channel_FromJSON http data w = (Raise e, w1).
Proof.
  intros Htag Hrec Hiter Hx.
  destruct (py_item_dict _ _ _ Htag) as (kv & -> & _).
  unfold Channel_FromJSON.
  erewrite bind_lift_ok by exact Htag.
  replace (matches (JStr "Group") ChannelType.SavedMessages) with false
    by reflexivity.
  replace (matches (JStr "Group") ChannelType.DirectMessage) with false
    by reflexivity.
  replace (matches (JStr "Group") ChannelType.Group) with true
    by reflexivity.
  cbv iota.
  destruct (plain_kwarg_dict kv "description" w) as [k1 E1].
  destruct (plain_kwarg_dict kv "last_message_id" w) as [k2 E2].
  destruct (plain_kwarg_dict kv "permissions" w) as [k3 E3].
  destruct (plain_kwarg_dict kv "nsfw" w) as [k4 E4].
  erewrite bind_raise; [reflexivity|].
  erewrite bind_ok by exact E1.
  erewrite bind_ok by exact E2.
  erewrite bind_ok by exact E3.
  erewrite bind_ok by exact E4.
  erewrite bind_lift_ok by exact Hrec.
  erewrite bind_lift_ok by exact Hiter.
  erewrite bind_raise; [reflexivity|].
  cbn [Group_loop]. by erewrite bind_raise by exact Hx.
Qed.

(** After its own request, [Channel.FromID] is the decoding: what
    [Channel.FromJSON] returns or raises is what the caller gets. *)
Lemma Channel_FromID_decodes (id : string) (body : json) (w : World) :
  channels (session w) !! KStr id = None ->
  http (trace w) (channel_request (token (session w)) id) = Ok body ->
  py_get body "type" = Ok JNull ->
  let decoded :=
    Channel_FromJSON http body
      (after w [HttpRequest (channel_request (token (session w)) id);
                HttpRelease]) in
  Channel_FromID http (JStr id) w
  = (match fst decoded with
     | Ok c => Ok (Some c)
     | Raise e => Raise e
     end, snd decoded).
Proof.
  intros Hmiss Hbody Hty decoded. subst decoded.
  rewrite Channel_FromID_run by exact Hmiss. cbv zeta.
  rewrite Hbody, Hty. unfold bind, ret.
  by destruct (Channel_FromJSON http body _) as [[c|e] w1].
Qed.

End NestedFetchFacts.

(** C6 (as the code has it). When the request of a fetch raises, the
    exception reaches the caller of [User.FromID], of [Channel.FromID] and
    of a user lookup unchanged, after the one request. The same holds for a
    fetch made on the way: what the lookup of a user raises while a channel
    is decoded, a failed request or anything else, comes out of
    [Channel.FromJSON] as it is, for the user of saved messages, for any
    recipient of a direct message and for the first recipient of a group;
    and what [Channel.FromJSON] returns or raises after the request of
    [Channel.FromID] is what the caller of [Channel.FromID] gets. An error
    payload is another matter: [User.FromID] decodes whatever it gets, and
    the decoding raises when the payload has no [_id]; [Channel.FromID]
    tests the [type] field of the answer and, when it is there and not
    null, returns [None] without raising. *)
Theorem C6_fetch_errors
    (http : list effect -> Request -> result json)
    (id tok : string) (w : World) :
  (forall e, http (trace w) (user_request tok id) = Raise e ->
     User_FromID http (JStr id) tok w
     = (Raise e, after w [HttpRequest (user_request tok id)]))
  /\ (forall e, channels (session w) !! KStr id = None ->
        http (trace w) (channel_request (token (session w)) id) = Raise e ->
        Channel_FromID http (JStr id) w
        = (Raise e,
           after w [HttpRequest (channel_request (token (session w)) id)]))
  /\ (forall body, http (trace w) (user_request tok id) = Ok body ->
        is_ok (py_item body "_id") = false ->
        is_ok (fst (User_FromID http (JStr id) tok w)) = false)
  /\ (forall body ty, channels (session w) !! KStr id = None ->
        http (trace w) (channel_request (token (session w)) id) = Ok body ->
        py_get body "type" = Ok ty -> ty <> JNull ->
        Channel_FromID http (JStr id) w
        = (Ok None,
           after w [HttpRequest (channel_request (token (session w)) id);
                    HttpRelease]))
  /\ (forall e, users (session w) !! KStr id = None ->
        http (trace w) (user_request (token (session w)) id) = Raise e ->
        resolve_user http (JStr id) w
        = (Raise e,
           after w [HttpRequest (user_request (token (session w)) id)]))
  /\ (forall data x e w1,
        py_item data "channel_type" = Ok (JStr "SavedMessages") ->
        py_item data "user" = Ok x ->
        resolve_user http x w = (Raise e, w1) ->
        Channel_FromJSON http data w = (Raise e, w1))
  /\ (forall data r pre x post resolved e w1 w2,
        py_item data "channel_type" = Ok (JStr "DirectMessage") ->
        py_item data "recipients" = Ok r ->
        py_iter r = Ok (pre ++ x :: post) ->
        DirectMessage_loop http pre [] w = (Ok resolved, w1) ->
        resolve_user http x w1 = (Raise e, w2) ->
        Channel_FromJSON http data w = (Raise e, w2))
  /\ (forall data r x rest e w1,
        py_item data "channel_type" = Ok (JStr "Group") ->
        py_item data "recipients" = Ok r ->
        py_iter r = Ok (x :: rest) ->
        resolve_user http x w = (Raise e, w1) ->
        Channel_FromJSON http data w = (Raise e, w1))
  /\ (forall body, channels (session w) !! KStr id = None ->
        http (trace w) (channel_request (token (session w)) id) = Ok body ->
        py_get body "type" = Ok JNull ->
        Channel_FromID http (JStr id) w
        = (match
             fst (Channel_FromJSON http body
                    (after w [HttpRequest
                                (channel_request (token (session w)) id);
                              HttpRelease]))
           with
           | Ok c => Ok (Some c)
           | Raise e => Raise e
           end,
           snd (Channel_FromJSON http body
                  (after w [HttpRequest
                              (channel_request (token (session w)) id);
                            HttpRelease])))).
Proof.
  split; [|split; [|split; [|split; [|split; [|split; [|split;
    [|split]]]]]]].
  - intros e He. by rewrite User_FromID_run, He.
  - intros e Hmiss He. rewrite Channel_FromID_run by exact Hmiss.
    cbv zeta. by rewrite He.
  - intros body Hbody Hid. rewrite User_FromID_run, Hbody.
    by apply User_FromJSON_needs_id.
  - intros body ty Hmiss Hbody Hty Hnn.
    rewrite Channel_FromID_run by exact Hmiss.
    cbv zeta. rewrite Hbody, Hty. by destruct ty.
  - intros e Hmiss He.
    rewrite (resolve_user_miss _ _ _ Hmiss), User_FromID_run.
    by rewrite He.
  - intros data x e w1. apply SavedMessages_lookup_raises.
  - intros data r pre x post resolved e w1 w2.
    apply DirectMessage_lookup_raises.
  - intros data r x rest e w1. apply Group_lookup_raises.
  - intros body. apply Channel_FromID_decodes.
Qed.

(** Fetches against a transport that is down, against a server that
    answers [{"type": "NotFound"}], and against a server that knows the
    direct message "D1" and fails on its users. *)
Lemma C6_fetch_errors_witness :
  User_FromID http_down (JStr "U1") "secret" fresh_world
  = (Raise (TransportError "unreachable"),
     after fresh_world [HttpRequest (user_request "secret" "U1")])
  /\ Channel_FromID http_down (JStr "C1") fresh_world
     = (Raise (TransportError "unreachable"),
        after fresh_world [HttpRequest (channel_request "secret" "C1")])
  /\ is_ok (fst (User_FromID http_not_found (JStr "U1") "secret"
                   fresh_world)) = false
  /\ Channel_FromID http_not_found (JStr "C1") fresh_world
     = (Ok None,
        after fresh_world [HttpRequest (channel_request "secret" "C1");
                           HttpRelease])
  /\ Channel_FromID http_channels_only (JStr "D1") fresh_world
     = (Raise (TransportError "unreachable"),
        after fresh_world [HttpRequest (channel_request "secret" "D1");
                           HttpRelease;
                           HttpRequest (user_request "secret" "U1")]).
Proof.
  destruct (C6_fetch_errors http_down "U1" "secret" fresh_world)
    as (Hu & _).
  destruct (C6_fetch_errors http_down "C1" "secret" fresh_world)
    as (_ & Hc & _).
  destruct (C6_fetch_errors http_not_found "U1" "secret" fresh_world)
    as (_ & _ & Hue & _).
  destruct (C6_fetch_errors http_not_found "C1" "secret" fresh_world)
    as (_ & _ & _ & Hce & _).
  destruct (C6_fetch_errors http_channels_only "D1" "secret" fresh_world)
    as (_ & _ & _ & _ & _ & _ & _ & _ & Hdec).
  destruct (C6_fetch_errors http_channels_only "U1" "secret"
              (after fresh_world
                 [HttpRequest (channel_request "secret" "D1"); HttpRelease]))
    as (_ & _ & _ & _ & Hres & _ & Hdm & _).
  split; [|split; [|split; [|split]]].
  - apply Hu. reflexivity.
  - apply Hc; [vm_compute|]; reflexivity.
  - apply (Hue (JObj [("type", JStr "NotFound")])); reflexivity.
  - apply (Hce (JObj [("type", JStr "NotFound")]) (JStr "NotFound"));
      [vm_compute; reflexivity | reflexivity | reflexivity | discriminate].
  - assert (Hjson :
      Channel_FromJSON http_channels_only dm_payload
        (after fresh_world
           [HttpRequest (channel_request "secret" "D1"); HttpRelease])
      = (Raise (TransportError "unreachable"),
         after fresh_world
           [HttpRequest (channel_request "secret" "D1"); HttpRelease;
            HttpRequest (user_request "secret" "U1")])).
    { apply (Hdm dm_payload (JArr [JStr "U1"; JStr "U2"]) [] (JStr "U1")
               [JStr "U2"] [] (TransportError "unreachable")
               (after fresh_world
                  [HttpRequest (channel_request "secret" "D1");
                   HttpRelease]));
        [reflexivity | reflexivity | reflexivity | reflexivity |].
      apply Hres; [vm_compute; reflexivity | reflexivity]. }
    rewrite (Hdec dm_payload);
      [|vm_compute; reflexivity | reflexivity | reflexivity].
    change (token (session fresh_world)) with "secret".
    by rewrite Hjson.
Defined.

(** C6, the claim as it was stated, fails for a channel: the server answers
    the fetch of "C1" with the error payload [{"type": "NotFound"}], and
    [Channel.FromID] returns [None] to its caller instead of raising. *)
Lemma C6_error_payload_becomes_None :
  http_not_found [] (channel_request "secret" "C1")
  = Ok (JObj [("type", JStr "NotFound")])
  /\ fst (Channel_FromID http_not_found (JStr "C1") fresh_world) = Ok None.
Proof. vm_compute. split; reflexivity. Qed.

(** ** The gateway *)

Lemma Gateway_Send_open (g : Gateway) (data : json) :
  open (websocket g) = true ->
  Gateway_Send data g = (Ok tt, logged g [WsSend data]).
Proof. intros Ho. unfold Gateway_Send, bind, get. simpl. by rewrite Ho. Qed.

Lemma Gateway_Send_closed (g : Gateway) (data : json) :
  open (websocket g) = false ->
  Gateway_Send data g = (Raise ClosedSocketException, g).
Proof. intros Ho. unfold Gateway_Send, bind, get. simpl. by rewrite Ho. Qed.

Lemma state_not_open (g : Gateway) :
  open (websocket g) = false <-> state g = Disconnected \/ state g = Closing.
Proof.
  unfold state. destruct (open (websocket g)); split.
  - discriminate.
  - intros [|]; discriminate.
  - by left.
  - done.
Qed.

(** C5. [Send] and [Authenticate] raise [ClosedSocketException] exactly when
    the socket is not open, that is in state Disconnected or Closing, and
    then nothing is sent; on an open socket they send their frame, the
    payload for [Send] and [{"type": "Authenticate", "token": token}] for
    [Authenticate], and return. *)
Theorem C5_send_needs_open_socket (g : Gateway) (data : json)
    (token : string) :
  (fst (Gateway_Send data g) = Raise ClosedSocketException
   <-> state g = Disconnected \/ state g = Closing)
  /\ (fst (Gateway_Authenticate token g) = Raise ClosedSocketException
      <-> state g = Disconnected \/ state g = Closing)
  /\ (open (websocket g) = false ->
      Gateway_Send data g = (Raise ClosedSocketException, g)
      /\ Gateway_Authenticate token g = (Raise ClosedSocketException, g))
  /\ (open (websocket g) = true ->
      Gateway_Send data g = (Ok tt, logged g [WsSend data])
      /\ Gateway_Authenticate token g
         = (Ok tt, logged g [WsSend (authenticate_frame token)])).
Proof.
  rewrite <- state_not_open. unfold Gateway_Authenticate.
  destruct (open (websocket g)) eqn:Ho.
  - rewrite !Gateway_Send_open by exact Ho. simpl.
    repeat split; try discriminate; intros _; reflexivity.
  - rewrite !Gateway_Send_closed by exact Ho. simpl.
    repeat split; try discriminate; intros _; reflexivity.
Qed.

(** A Ping sent on a new gateway, and an Authenticate sent on a connected
    one. *)
Lemma C5_send_needs_open_socket_witness :
  Gateway_Send ping_frame Gateway_init = (Raise ClosedSocketException,
                                          Gateway_init)
  /\ Gateway_Authenticate "secret" connected_gateway
     = (Ok tt, logged connected_gateway
                 [WsSend (authenticate_frame "secret")]).
Proof.
  split.
  - apply (C5_send_needs_open_socket Gateway_init ping_frame "secret").
    reflexivity.
  - apply (C5_send_needs_open_socket connected_gateway ping_frame "secret").
    reflexivity.
Defined.

Lemma logged_nil (g : Gateway) : logged g [] = g.
Proof. destruct g. unfold logged. simpl. by rewrite app_nil_r. Qed.

Lemma logged_logged (g : Gateway) (a b : list effect) :
  logged (logged g a) b = logged g (a ++ b).
Proof. unfold logged. simpl. by rewrite app_assoc. Qed.

Section ClockFacts.

Variable wsend : list effect -> json -> result unit.
Variable handoff : list effect -> option N.

Lemma Gateway_Send_on_run (data : json) (g : Gateway) :
  Gateway_Send_on wsend data g =
  if open (websocket g) then
    match wsend (log g) data with
    | Ok _ => (Ok tt, logged g [WsSend data])
    | Raise e => (Raise e, g)
    end
  else (Raise ClosedSocketException, g).
Proof.
  unfold Gateway_Send_on, bind, get, lift, record, modify, logged. simpl.
  destruct (open (websocket g)); [|reflexivity].
  by destruct (wsend (log g) data).
Qed.

(** A turn with a late result. *)
Lemma GatewayKeepAlive_turn_late (h : Heartbeat) :
  stopEvent (keepAlive (served h)) = false ->
  ~ in_time handoff (log (served h)) ->
  GatewayKeepAlive_turn wsend handoff h
  = (TimedOut,
     {| served := thread_finished (served h);
        clock := (clock h + interval (keepAlive (served h)) + 10)%Z;
        submissions :=
          submissions h
          ++ [((clock h + interval (keepAlive (served h)))%Z, ping_frame)];
        pending := pending h ++ [ping_frame] |}).
Proof.
  intros Hstop Hlate. unfold GatewayKeepAlive_turn, in_time in *.
  rewrite Hstop. cbv zeta.
  destruct (handoff (log (served h))) as [d|]; [|reflexivity].
  destruct (Z.leb_spec (Z.of_N d) 10); [by destruct Hlate|reflexivity].
Qed.

(** A turn with a result that is ready in time. *)
Lemma GatewayKeepAlive_turn_in_time (h : Heartbeat) (d : N) :
  stopEvent (keepAlive (served h)) = false ->
  handoff (log (served h)) = Some d ->
  (Z.of_N d <= 10)%Z ->
  GatewayKeepAlive_turn wsend handoff h
  = match Gateway_Send_on wsend ping_frame (served h) with
    | (Ok _, g') =>
        (Continues,
         {| served := g';
            clock :=
              (clock h + interval (keepAlive (served h)) + Z.of_N d)%Z;
            submissions :=
              submissions h
              ++ [((clock h + interval (keepAlive (served h)))%Z,
                   ping_frame)];
            pending := pending h |})
    | (Raise e, g') =>
        (Died e,
         {| served := thread_finished g';
            clock :=
              (clock h + interval (keepAlive (served h)) + Z.of_N d)%Z;
            submissions :=
              submissions h
              ++ [((clock h + interval (keepAlive (served h)))%Z,
                   ping_frame)];
            pending := pending h |})
    end.
Proof.
  intros Hstop Hd Hle. unfold GatewayKeepAlive_turn.
  rewrite Hstop, Hd. cbv zeta.
  destruct (Z.leb_spec (Z.of_N d) 10); [reflexivity|lia].
Qed.

Lemma GatewayKeepAlive_turn_submits (h : Heartbeat) :
  stopEvent (keepAlive (served h)) = false ->
  submissions (snd (GatewayKeepAlive_turn wsend handoff h))
  = submissions h
    ++ [((clock h + interval (keepAlive (served h)))%Z, ping_frame)].
Proof.
  intros Hstop. unfold GatewayKeepAlive_turn. rewrite Hstop. cbv zeta.
  destruct (handoff (log (served h))) as [d|]; [|reflexivity].
  destruct (Z.of_N d <=? 10)%Z; [|reflexivity].
  by destruct (Gateway_Send_on wsend GetPayload (served h)) as [[[]|e] g'].
Qed.

Lemma GatewayKeepAlive_turn_interval (h : Heartbeat) :
  interval (keepAlive (served (snd (GatewayKeepAlive_turn wsend handoff h))))
  = interval (keepAlive (served h)).
Proof.
  unfold GatewayKeepAlive_turn.
  destruct (stopEvent (keepAlive (served h))); [reflexivity|]. cbv zeta.
  destruct (handoff (log (served h))) as [d|]; [|reflexivity].
  destruct (Z.of_N d <=? 10)%Z; [|reflexivity].
  rewrite Gateway_Send_on_run.
  destruct (open (websocket (served h))); [|reflexivity].
  by destruct (wsend (log (served h)) GetPayload) as [[]|e].
Qed.

Lemma GatewayKeepAlive_run_timed_interval (n : nat) (h : Heartbeat) :
  interval (keepAlive
              (served (snd (GatewayKeepAlive_run_timed wsend handoff n h))))
  = interval (keepAlive (served h)).
Proof.
  revert h. induction n as [|n IH]; intros h; [reflexivity|].
  cbn [GatewayKeepAlive_run_timed].
  pose proof (GatewayKeepAlive_turn_interval h) as Ht.
  destruct (GatewayKeepAlive_turn wsend handoff h) as [[| | |e] h'];
    simpl in *; try exact Ht.
  by rewrite IH.
Qed.

(** The loop over [a + b] wake-ups is the loop over [a], then over [b]. *)
Lemma GatewayKeepAlive_run_timed_add (a b : nat) (h : Heartbeat) :
  GatewayKeepAlive_run_timed wsend handoff (a + b) h
  = match GatewayKeepAlive_run_timed wsend handoff a h with
    | (Continues, h') => GatewayKeepAlive_run_timed wsend handoff b h'
    | other => other
    end.
Proof.
  revert h. induction a as [|a IH]; intros h; [reflexivity|].
  cbn [Nat.add GatewayKeepAlive_run_timed].
  destruct (GatewayKeepAlive_turn wsend handoff h) as [[| | |e] h'];
    try reflexivity.
  apply IH.
Qed.

(** As long as the results are ready in time on an open socket that takes
    the frames, the loop goes on: a Ping per wake-up, each handed over one
    interval after the turn before it ended. *)
Lemma GatewayKeepAlive_run_timed_good (k : nat) (h : Heartbeat) :
  stopEvent (keepAlive (served h)) = false ->
  open (websocket (served h)) = true ->
  (forall j, j < k ->
     in_time handoff (log (served h) ++ repeat (WsSend ping_frame) j)) ->
  (forall t, wsend t ping_frame = Ok tt) ->
  exists h',
    GatewayKeepAlive_run_timed wsend handoff k h = (Continues, h')
    /\ served h' = logged (served h) (repeat (WsSend ping_frame) k)
    /\ pending h' = pending h
    /\ map snd (submissions h')
       = map snd (submissions h) ++ repeat ping_frame k
    /\ (clock h + Z.of_nat k * interval (keepAlive (served h))
        <= clock h')%Z
    /\ (clock h'
        <= clock h
           + Z.of_nat k * (interval (keepAlive (served h)) + 10))%Z.
Proof.
  revert h. induction k as [|k IH]; intros h Hstop Hopen Hin Hsend.
  - exists h. simpl. rewrite logged_nil, app_nil_r. repeat split; lia.
  - pose proof (Hin 0 (Nat.lt_0_succ k)) as H0. simpl in H0.
    rewrite app_nil_r in H0. unfold in_time in H0.
    destruct (handoff (log (served h))) as [d|] eqn:Hd; [|done].
    cbn [GatewayKeepAlive_run_timed].
    rewrite (GatewayKeepAlive_turn_in_time h d Hstop Hd H0).
    rewrite Gateway_Send_on_run, Hopen, Hsend.
    set (h1 := {| served := logged (served h) [WsSend ping_frame];
                  clock := (clock h + interval (keepAlive (served h))
                            + Z.of_N d)%Z;
                  submissions :=
                    submissions h
                    ++ [((clock h + interval (keepAlive (served h)))%Z,
                         ping_frame)];
                  pending := pending h |}).
    destruct (IH h1) as (h' & Hrun & Hserved & Hpend & Hsub & Hlo & Hhi);
      try done.
    { intros j Hj. simpl. rewrite <- app_assoc. simpl.
      apply (Hin (S j)). lia. }
    exists h'. split; [exact Hrun|].
    split; [rewrite Hserved; unfold logged; simpl;
            by rewrite <- app_assoc|].
    split; [exact Hpend|].
    split; [rewrite Hsub; simpl; rewrite map_app, <- app_assoc; done|].
    simpl in Hlo, Hhi. split; lia.
Qed.

End ClockFacts.

(** C9. The keep-alive thread of a new gateway has the interval 20, and the
    loop of [run] never changes it. A turn of the loop that is not told to
    stop waits one interval, builds exactly [{"type": "Ping", "data": 0}]
    and hands it to [Gateway.Send]; it then waits for the outcome for at
    most 10: an outcome that is ready in time is the outcome of the turn
    (a frame sent and the loop going on, or the exception of the send
    ending the thread), and one that is not ends the thread with a timeout
    after 10, the frame unsent. So with outcomes ready in time, on an open
    socket that takes the frames, the loop over [n] wake-ups sends exactly
    [n] such Pings, and the wake-ups take between [n] intervals and [n]
    intervals and [n] times 10. *)
Theorem C9_heartbeat_tick
    (wsend : list effect -> json -> result unit)
    (handoff : list effect -> option N) :
  interval (keepAlive Gateway_init) = 20%Z
  /\ GetPayload = ping_frame
  /\ (forall n h,
        interval (keepAlive
                    (served (snd (GatewayKeepAlive_run_timed wsend handoff
                                    n h))))
        = interval (keepAlive (served h)))
  /\ (forall h,
        stopEvent (keepAlive (served h)) = false ->
        let woke := (clock h + interval (keepAlive (served h)))%Z in
        submissions (snd (GatewayKeepAlive_turn wsend handoff h))
        = submissions h ++ [(woke, ping_frame)]
        /\ (forall d,
              handoff (log (served h)) = Some d -> (Z.of_N d <= 10)%Z ->
              GatewayKeepAlive_turn wsend handoff h
              = match Gateway_Send_on wsend ping_frame (served h) with
                | (Ok _, g') =>
                    (Continues,
                     {| served := g'; clock := (woke + Z.of_N d)%Z;
                        submissions := submissions h ++ [(woke, ping_frame)];
                        pending := pending h |})
                | (Raise e, g') =>
                    (Died e,
                     {| served := thread_finished g';
                        clock := (woke + Z.of_N d)%Z;
                        submissions := submissions h ++ [(woke, ping_frame)];
                        pending := pending h |})
                end)
        /\ (~ in_time handoff (log (served h)) ->
            GatewayKeepAlive_turn wsend handoff h
            = (TimedOut,
               {| served := thread_finished (served h);
                  clock := (woke + 10)%Z;
                  submissions := submissions h ++ [(woke, ping_frame)];
                  pending := pending h ++ [ping_frame] |})))
  /\ (forall n h,
        stopEvent (keepAlive (served h)) = false ->
        open (websocket (served h)) = true ->
        (forall t, in_time handoff t) ->
        (forall t, wsend t ping_frame = Ok tt) ->
        let h' := snd (GatewayKeepAlive_run_timed wsend handoff n h) in
        fst (GatewayKeepAlive_run_timed wsend handoff n h) = Continues
        /\ log (served h')
           = log (served h) ++ repeat (WsSend ping_frame) n
        /\ map snd (submissions h')
           = map snd (submissions h) ++ repeat ping_frame n
        /\ (clock h + Z.of_nat n * interval (keepAlive (served h))
            <= clock h')%Z
        /\ (clock h'
            <= clock h
               + Z.of_nat n * (interval (keepAlive (served h)) + 10))%Z).
Proof.
  split; [reflexivity|]. split; [reflexivity|].
  split; [apply GatewayKeepAlive_run_timed_interval|].
  split.
  - intros h Hstop woke.
    split; [by apply GatewayKeepAlive_turn_submits|].
    split; [intros d; by apply GatewayKeepAlive_turn_in_time|].
    by apply GatewayKeepAlive_turn_late.
  - intros n h Hstop Hopen Hin Hsend h'. subst h'.
    destruct (GatewayKeepAlive_run_timed_good wsend handoff n h Hstop Hopen)
      as (h' & Hrun & Hserved & _ & Hsub & Hlo & Hhi); [auto|auto|].
    rewrite Hrun. simpl. rewrite Hserved. done.
Qed.

(** The thread of a connected gateway, with every result ready after 2:
    three wake-ups send three Pings and take 66; with a loop that never
    runs the coroutine the first turn times out at 30. *)
Lemma C9_heartbeat_tick_witness :
  log (served (snd (GatewayKeepAlive_run_timed wsend_ok handoff_quick 3
                      heartbeat_start)))
  = log connected_gateway
    ++ [WsSend ping_frame; WsSend ping_frame; WsSend ping_frame]
  /\ fst (GatewayKeepAlive_turn wsend_ok handoff_never heartbeat_start)
     = TimedOut
  /\ clock (snd (GatewayKeepAlive_turn wsend_ok handoff_never
                   heartbeat_start)) = 30%Z.
Proof.
  destruct (C9_heartbeat_tick wsend_ok handoff_quick) as (_ & _ & _ & _ & H).
  destruct (H 3 heartbeat_start) as (_ & Hlog & _); try reflexivity.
  { intros t. unfold in_time, handoff_quick. simpl. lia. }
  destruct (C9_heartbeat_tick wsend_ok handoff_never)
    as (_ & _ & _ & Hturn & _).
  destruct (Hturn heartbeat_start eq_refl) as (_ & _ & Hlate).
  rewrite Hlate by (unfold in_time, handoff_never; tauto).
  split; [exact Hlog|]. split; reflexivity.
Defined.

(** ** Connecting and closing *)

Section ConnectFacts.

Variable http : list effect -> Request -> result json.
Variable dial : list effect -> string -> result unit.

(** The guard of [Connect]: on an open socket nothing happens. *)
Lemma Gateway_Connect_open (g : Gateway) :
  open (websocket g) = true -> Gateway_Connect http dial g = (Ok tt, g).
Proof.
  intros Ho. unfold Gateway_Connect, bind, get. simpl. by rewrite Ho.
Qed.

(** [Connect] with the socket not open, step by step: the request of the
    address, the field [ws], the connection, the reset of the event and
    the start of the thread. *)
Lemma Gateway_Connect_run (g : Gateway) :
  open (websocket g) = false ->
  let req := Request_init GET "/" in
  Gateway_Connect http dial g =
  match http (log g) req with
  | Raise e => (Raise e, logged g [HttpRequest req])
  | Ok body =>
      match py_item body "ws" with
      | Raise e => (Raise e, logged g [HttpRequest req])
      | Ok (JStr uri) =>
          match dial (log g ++ [HttpRequest req]) uri with
          | Raise e => (Raise e, logged g [HttpRequest req])
          | Ok _ =>
              if started (keepAlive g) then
                (Raise RuntimeError,
                 {| client := client g;
                    keepAlive := set_stopEvent false (keepAlive g);
                    websocket := {| open := true; remote := Some uri |};
                    log := log g ++ [HttpRequest req; WsConnect uri] |})
              else
                (Ok tt,
                 {| client := client g;
                    keepAlive :=
                      set_started (set_stopEvent false (keepAlive g));
                    websocket := {| open := true; remote := Some uri |};
                    log := log g ++ [HttpRequest req; WsConnect uri;
                                     ThreadStart] |})
          end
      | Ok _ => (Raise TypeError, logged g [HttpRequest req])
      end
  end.
Proof.
  intros Ho req.
  unfold Gateway_Connect, Gateway_GetWebsocketURL, Gateway_Request,
    client_connect, keepAlive_start, stopEvent_clear, record, bind, get,
    modify, lift, ret, raise, logged.
  simpl. rewrite Ho. simpl. fold req.
  destruct (http (log g) req) as [body|e]; [|reflexivity].
  destruct (py_item body "ws") as [[| | |uri| |]|e]; try reflexivity.
  simpl.
  destruct (dial (log g ++ [HttpRequest req]) uri) as [[]|e];
    [|reflexivity].
  simpl. destruct (started (keepAlive g)); simpl;
    rewrite <- ?app_assoc; reflexivity.
Qed.

(** When [Connect] leaves the socket open, it opened exactly one. *)
Lemma Gateway_Connect_opens_one (g g1 : Gateway) (r : result unit) :
  open (websocket g) = false ->
  Gateway_Connect http dial g = (r, g1) ->
  open (websocket g1) = true ->
  exists uri tail,
    remote (websocket g1) = Some uri
    /\ log g1 = log g ++ [HttpRequest (Request_init GET "/"); WsConnect uri]
                      ++ tail
    /\ count is_connect tail = 0.
Proof.
  intros Ho Hrun Ho1. rewrite Gateway_Connect_run in Hrun by exact Ho.
  cbv zeta in Hrun.
  destruct (http _ _) as [body|e];
    [|injection Hrun as _ <-; simpl in Ho1; congruence].
  destruct (py_item body "ws") as [[| | |uri| |]|e];
    try (injection Hrun as _ <-; simpl in Ho1; congruence).
  destruct (dial _ uri) as [[]|e];
    [|injection Hrun as _ <-; simpl in Ho1; congruence].
  exists uri.
  destruct (started (keepAlive g)); injection Hrun as _ <-; simpl.
  - by exists [].
  - by exists [ThreadStart].
Qed.

(** A [Connect] that returns, from a closed socket, left it open. *)
Lemma Gateway_Connect_ok_open (g g1 : Gateway) :
  open (websocket g) = false ->
  Gateway_Connect http dial g = (Ok tt, g1) ->
  open (websocket g1) = true
  /\ started (keepAlive g) = false
  /\ keepAlive g1 = set_started (set_stopEvent false (keepAlive g)).
Proof.
  intros Ho Hrun. rewrite Gateway_Connect_run in Hrun by exact Ho.
  cbv zeta in Hrun.
  destruct (http _ _) as [body|e]; [|discriminate].
  destruct (py_item body "ws") as [[| | |uri| |]|e]; try discriminate.
  destruct (dial _ uri) as [[]|e]; [|discriminate].
  destruct (started (keepAlive g)); [discriminate|].
  by injection Hrun as <-.
Qed.

End ConnectFacts.

Lemma Gateway_Close_run (g : Gateway) :
  Gateway_Close g =
  (Ok tt,
   {| client := {| released := true |};
      keepAlive := if open (websocket g)
                   then set_stopEvent true (keepAlive g) else keepAlive g;
      websocket := {| open := false; remote := remote (websocket g) |};
      log := log g
             ++ (if released (client g) then [] else [HttpRelease])
             ++ (if open (websocket g) then [WsClose] else []) |}).
Proof.
  unfold Gateway_Close, HTTPClient_Close, websocket_close, stopEvent_set,
    record, bind, get, modify, ret.
  destruct g as [[rel] k [o rem] l]. simpl.
  destruct rel, o; simpl; rewrite ?app_nil_r, <- ?app_assoc; reflexivity.
Qed.

(** The first [Connect] of a gateway whose thread was never started: the
    socket goes to the address the server gave, the event is clear and the
    thread is started. *)
Lemma Gateway_Connect_first_time
    (http : list effect -> Request -> result json)
    (dial : list effect -> string -> result unit)
    (g : Gateway) (body : json) (uri : string) :
  open (websocket g) = false ->
  started (keepAlive g) = false ->
  http (log g) (Request_init GET "/") = Ok body ->
  py_item body "ws" = Ok (JStr uri) ->
  dial (log g ++ [HttpRequest (Request_init GET "/")]) uri = Ok tt ->
  exists g1,
    Gateway_Connect http dial g = (Ok tt, g1)
    /\ websocket g1 = {| open := true; remote := Some uri |}
    /\ stopEvent (keepAlive g1) = false
    /\ started (keepAlive g1) = true
    /\ log g1 = log g ++ [HttpRequest (Request_init GET "/"); WsConnect uri;
                          ThreadStart].
Proof.
  intros Ho Hs Hh Hws Hd. rewrite Gateway_Connect_run by exact Ho.
  cbv zeta. rewrite Hh, Hws, Hd, Hs. eexists. split; [reflexivity|]. done.
Qed.

(** C7. A [Connect] on a socket that is already open is a no-op. So when a
    first [Connect], called with the socket closed, leaves the socket open,
    it opened exactly one socket, and a second [Connect] right after it
    returns with the session unchanged: after both calls still exactly one
    socket was opened. *)
Theorem C7_second_connect_opens_nothing
    (http : list effect -> Request -> result json)
    (dial : list effect -> string -> result unit)
    (g g1 : Gateway) (r : result unit) :
  open (websocket g) = false ->
  Gateway_Connect http dial g = (r, g1) ->
  open (websocket g1) = true ->
  count is_connect (log g1) = count is_connect (log g) + 1
  /\ Gateway_Connect http dial g1 = (Ok tt, g1)
  /\ count is_connect (log (snd (Gateway_Connect http dial g1)))
     = count is_connect (log g) + 1.
Proof.
  intros Ho Hrun Ho1.
  destruct (Gateway_Connect_opens_one http dial g g1 r Ho Hrun Ho1)
    as (uri & tail & _ & Hlog & Htail).
  assert (Hone : count is_connect (log g1) = count is_connect (log g) + 1).
  { rewrite Hlog, !count_app, Htail. unfold count. simpl. lia. }
  rewrite (Gateway_Connect_open http dial g1 Ho1). auto.
Qed.

(** [connect(); connect()] on a new gateway, with the discovery endpoint
    answering [{"ws": "wss://example/ws"}]. *)
Lemma C7_second_connect_opens_nothing_witness :
  count is_connect (log connected_gateway) = 1
  /\ Gateway_Connect http_gateway dial_ok connected_gateway
     = (Ok tt, connected_gateway).
Proof.
  destruct (C7_second_connect_opens_nothing http_gateway dial_ok
              Gateway_init connected_gateway (Ok tt))
    as (Hone & Hnoop & _).
  - reflexivity.
  - reflexivity.
  - reflexivity.
  - split; [exact Hone | exact Hnoop].
Defined.

Lemma release_effects (rel o : bool) :
  NoDup ((if rel then [] else [HttpRelease])
         ++ (if o then [WsClose] else []))
  /\ (forall e,
        e ∈ (if rel then [] else [HttpRelease])
            ++ (if o then [WsClose] else []) ->
        is_release e = true).
Proof.
  destruct rel, o; simpl; split;
    rewrite ?NoDup_cons, ?NoDup_nil, ?elem_of_cons, ?elem_of_nil;
    try (intros e; rewrite ?elem_of_cons, ?elem_of_nil);
    intuition (subst; try discriminate; auto).
Qed.

(** C8. [Close] never raises, and a second [Close] right after it changes
    nothing at all: no effect is added to the trace. What the first call
    releases, the HTTP resources and the socket, it releases at most once
    each. On a session that is already closed (client released, socket not
    open) [Close] is a no-op. *)
Theorem C8_close_idempotent (g : Gateway) :
  (exists g1 released_now,
     Gateway_Close g = (Ok tt, g1)
     /\ Gateway_Close g1 = (Ok tt, g1)
     /\ log g1 = log g ++ released_now
     /\ NoDup released_now
     /\ (forall e, e ∈ released_now -> is_release e = true)
     /\ released (client g1) = true
     /\ open (websocket g1) = false)
  /\ (released (client g) = true -> open (websocket g) = false ->
      Gateway_Close g = (Ok tt, g)).
Proof.
  split.
  - eexists; eexists. split; [apply Gateway_Close_run|].
    split; [rewrite Gateway_Close_run; simpl; by rewrite app_nil_r|].
    simpl. split; [reflexivity|].
    destruct (release_effects (released (client g)) (open (websocket g)))
      as [Hnodup Hall].
    done.
  - intros Hr Ho. rewrite Gateway_Close_run.
    destruct g as [[rel] k [o rem] l]. simpl in *. subst.
    by rewrite app_nil_r.
Qed.

(** [connect(); close(); close()] on a new gateway. *)
Lemma C8_close_idempotent_witness :
  Gateway_Close closed_gateway = (Ok tt, closed_gateway).
Proof.
  apply (proj2 (C8_close_idempotent closed_gateway)); reflexivity.
Defined.

(** C3 (as the code has it). After [connect(); close()] on a new gateway
    the session is Disconnected and the heartbeat is not running: the stop
    event is set, and the next wake-up of the thread leaves the loop without
    sending. In general [Close] sets the stop event when it finds the socket
    open. When the socket is not open at the call, [Close] leaves the thread
    object as it is. *)
Theorem C3_close_stops_heartbeat_of_open_socket
    (http : list effect -> Request -> result json)
    (dial : list effect -> string -> result unit) :
  (forall g1, Gateway_Connect http dial Gateway_init = (Ok tt, g1) ->
     exists g2,
       Gateway_Close g1 = (Ok tt, g2)
       /\ state g2 = Disconnected
       /\ heartbeat_running g2 = false
       /\ fst (GatewayKeepAlive_run_step g2) = Ok false
       /\ log (snd (GatewayKeepAlive_run_step g2)) = log g2)
  /\ (forall g, open (websocket g) = true ->
        state (snd (Gateway_Close g)) = Disconnected
        /\ heartbeat_running (snd (Gateway_Close g)) = false)
  /\ (forall g, open (websocket g) = false ->
        state (snd (Gateway_Close g)) = Disconnected
        /\ keepAlive (snd (Gateway_Close g)) = keepAlive g
        /\ heartbeat_running (snd (Gateway_Close g)) = heartbeat_running g).
Proof.
  assert (Hopen : forall g, open (websocket g) = true ->
            state (snd (Gateway_Close g)) = Disconnected
            /\ heartbeat_running (snd (Gateway_Close g)) = false
            /\ stopEvent (keepAlive (snd (Gateway_Close g))) = true).
  { intros g Ho. rewrite Gateway_Close_run. unfold state, heartbeat_running.
    simpl. rewrite Ho. simpl. by rewrite andb_false_r. }
  split; [|split].
  - intros g1 Hrun.
    destruct (Gateway_Connect_ok_open http dial Gateway_init g1
                eq_refl Hrun) as (Ho1 & _).
    destruct (Hopen g1 Ho1) as (Hst & Hhb & Hstop).
    exists (snd (Gateway_Close g1)).
    split; [by rewrite Gateway_Close_run|].
    split; [exact Hst|]. split; [exact Hhb|].
    unfold GatewayKeepAlive_run_step, run_tick. by rewrite Hstop.
  - intros g Ho. destruct (Hopen g Ho) as (Hst & Hhb & _). done.
  - intros g Ho. rewrite Gateway_Close_run.
    unfold state, heartbeat_running. simpl. by rewrite Ho.
Qed.

(** [connect(); close()] on a new gateway, and [close()] alone on a new
    gateway, whose socket was never open. *)
Lemma C3_close_stops_heartbeat_of_open_socket_witness :
  state closed_gateway = Disconnected
  /\ heartbeat_running closed_gateway = false
  /\ keepAlive (snd (Gateway_Close Gateway_init)) = keepAlive Gateway_init.
Proof.
  destruct (C3_close_stops_heartbeat_of_open_socket http_gateway dial_ok)
    as (Hfresh & _ & Hclosed).
  destruct (Hfresh connected_gateway eq_refl)
    as (g2 & Hclose & Hst & Hhb & _).
  assert (Hg2 : closed_gateway = g2) by (unfold closed_gateway; by rewrite Hclose).
  rewrite Hg2. split; [exact Hst|]. split; [exact Hhb|].
  apply (Hclosed Gateway_init). reflexivity.
Defined.

(** C3, the claim as it was stated, fails when the socket was closed before
    [close()]: the session was connected, the other end dropped the
    connection, and after [Close] the thread is still alive with its stop
    event clear; its next wake-up tries to send a Ping. *)
Lemma C3_dropped_socket_keeps_heartbeat :
  open (websocket dropped_gateway) = false
  /\ fst (Gateway_Close dropped_gateway) = Ok tt
  /\ state (snd (Gateway_Close dropped_gateway)) = Disconnected
  /\ heartbeat_running (snd (Gateway_Close dropped_gateway)) = true
  /\ run_tick (keepAlive (snd (Gateway_Close dropped_gateway)))
     = Some {| waited := 20; submitted := ping_frame; result_timeout := 10 |}.
Proof. vm_compute. repeat split. Qed.

(** C4. Once the thread object was started, a [Connect] from a closed socket
    cannot return normally: when the address is found and the socket is
    opened, the event is cleared and [keepAlive.start()] raises
    [RuntimeError], since a thread can be started only once. The socket is
    then open and no thread was started for it. This is the case of
    [connect(); close(); connect()]. *)
Theorem C4_reconnect_raises
    (http : list effect -> Request -> result json)
    (dial : list effect -> string -> result unit)
    (g : Gateway) :
  open (websocket g) = false ->
  started (keepAlive g) = true ->
  is_ok (fst (Gateway_Connect http dial g)) = false
  /\ (forall body uri,
        http (log g) (Request_init GET "/") = Ok body ->
        py_item body "ws" = Ok (JStr uri) ->
        dial (log g ++ [HttpRequest (Request_init GET "/")]) uri = Ok tt ->
        Gateway_Connect http dial g
        = (Raise RuntimeError,
           {| client := client g;
              keepAlive := set_stopEvent false (keepAlive g);
              websocket := {| open := true; remote := Some uri |};
              log := log g ++ [HttpRequest (Request_init GET "/");
                               WsConnect uri] |})).
Proof.
  intros Ho Hs. rewrite Gateway_Connect_run by exact Ho. cbv zeta.
  rewrite Hs. split.
  - destruct (http _ _) as [body|e]; [|done].
    destruct (py_item body "ws") as [[| | |uri| |]|e]; try done.
    by destruct (dial _ uri) as [[]|e].
  - intros body uri Hh Hws Hd. by rewrite Hh, Hws, Hd.
Qed.

(** [connect(); close(); connect()] on a new gateway: the first two calls
    return, the third raises. *)
Lemma C4_reconnect_raises_witness :
  fst (Gateway_Connect http_gateway dial_ok Gateway_init) = Ok tt
  /\ fst (Gateway_Close connected_gateway) = Ok tt
  /\ fst (Gateway_Connect http_gateway dial_ok closed_gateway)
     = Raise RuntimeError.
Proof.
  split; [reflexivity|]. split; [reflexivity|].
  destruct (C4_reconnect_raises http_gateway dial_ok closed_gateway)
    as (_ & H); [reflexivity | reflexivity |].
  rewrite (H (JObj [("ws", JStr "wss://example/ws")]) "wss://example/ws");
    reflexivity.
Defined.

(** * Further properties of the gateway *)

(** The turn without a clock is the turn with one, when the event is set
    or the result is ready in time and the socket is closed or takes the
    frame. *)
Lemma GatewayKeepAlive_turn_refines_step
    (wsend : list effect -> json -> result unit)
    (handoff : list effect -> option N) (h : Heartbeat) :
  stopEvent (keepAlive (served h)) = true
  \/ (in_time handoff (log (served h))
      /\ (open (websocket (served h)) = false
          \/ wsend (log (served h)) ping_frame = Ok tt)) ->
  served (snd (GatewayKeepAlive_turn wsend handoff h))
  = snd (GatewayKeepAlive_run_step (served h)).
Proof.
  unfold GatewayKeepAlive_turn, GatewayKeepAlive_run_step, run_tick, in_time.
  intros [Hstop|[Hin Hsend]].
  - by rewrite Hstop.
  - destruct (stopEvent (keepAlive (served h))); [reflexivity|].
    cbv zeta. cbn [submitted].
    destruct (handoff (log (served h))) as [d|]; [|done].
    destruct (Z.leb_spec (Z.of_N d) 10); [|lia].
    rewrite Gateway_Send_on_run. change GetPayload with ping_frame.
    destruct (open (websocket (served h))) eqn:Ho.
    + destruct Hsend as [|Hsend]; [discriminate|]. rewrite Hsend.
      by rewrite Gateway_Send_open.
    + by rewrite Gateway_Send_closed.
Qed.

(** The loop of [run] sends one Ping per wake-up as long as the outcome of
    every hand-over is ready within the 10 that [func.result(10)] waits, on
    an open socket that takes the frames. The first outcome that is not
    ready in time ends the thread with a timeout, whatever number of
    wake-ups would follow: the Pings before it were sent, the last payload
    was handed over and is still unsent. *)
Theorem heartbeat_ends_at_late_handoff
    (wsend : list effect -> json -> result unit)
    (handoff : list effect -> option N)
    (k m : nat) (h : Heartbeat) :
  stopEvent (keepAlive (served h)) = false ->
  open (websocket (served h)) = true ->
  (forall j, j < k ->
     in_time handoff (log (served h) ++ repeat (WsSend ping_frame) j)) ->
  (forall t, wsend t ping_frame = Ok tt) ->
  ~ in_time handoff (log (served h) ++ repeat (WsSend ping_frame) k) ->
  let out := GatewayKeepAlive_run_timed wsend handoff (S k + m) h in
  fst out = TimedOut
  /\ log (served (snd out))
     = log (served h) ++ repeat (WsSend ping_frame) k
  /\ finished (keepAlive (served (snd out))) = true
  /\ map snd (submissions (snd out))
     = map snd (submissions h) ++ repeat ping_frame (S k)
  /\ pending (snd out) = pending h ++ [ping_frame].
Proof.
  intros Hstop Hopen Hin Hsend Hlate out. subst out.
  replace (S k + m) with (k + S m) by lia.
  rewrite GatewayKeepAlive_run_timed_add.
  destruct (GatewayKeepAlive_run_timed_good wsend handoff k h Hstop Hopen
              Hin Hsend) as (h' & Hrun & Hserved & Hpend & Hsub & _).
  rewrite Hrun. cbn [GatewayKeepAlive_run_timed].
  rewrite GatewayKeepAlive_turn_late; rewrite ?Hserved; try done.
  simpl. rewrite Hpend, map_app, Hsub. simpl.
  repeat split; try done.
  rewrite <- app_assoc. f_equal.
  clear. induction k as [|k IH]; [done|]. simpl. by rewrite IH.
Qed.

(** The thread of a connected gateway with a loop that has the first
    result ready after 2 and the later ones after 11: one Ping is sent, the
    second turn times out, and three more wake-ups change nothing. *)
Lemma heartbeat_ends_at_late_handoff_witness :
  let out := GatewayKeepAlive_run_timed wsend_ok handoff_slows 5
               heartbeat_start in
  fst out = TimedOut
  /\ log (served (snd out)) = log connected_gateway ++ [WsSend ping_frame]
  /\ pending (snd out) = [ping_frame].
Proof.
  destruct (heartbeat_ends_at_late_handoff wsend_ok handoff_slows 1 3
              heartbeat_start) as (Hend & Hlog & _ & _ & Hpend);
    try reflexivity.
  - intros j Hj. destruct j; [|lia]. unfold in_time. simpl. lia.
  - unfold in_time. simpl. lia.
  - split; [exact Hend|]. split; [exact Hlog|exact Hpend].
Defined.



(** A [Connect] that does not leave the socket open raised, and did nothing
    but ask for the address: client, thread object and socket are as they
    were, no socket was opened and no thread was started. *)
Theorem failed_connect_leaves_session
    (http : list effect -> Request -> result json)
    (dial : list effect -> string -> result unit)
    (g : Gateway) :
  open (websocket g) = false ->
  open (websocket (snd (Gateway_Connect http dial g))) = false ->
  exists e,
    Gateway_Connect http dial g
    = (Raise e, logged g [HttpRequest (Request_init GET "/")]).
Proof.
  intros Ho. rewrite Gateway_Connect_run by exact Ho. cbv zeta.
  destruct (http _ _) as [body|e]; [|by exists e].
  destruct (py_item body "ws") as [[| | |uri| |]|e]; eauto.
  destruct (dial _ uri) as [[]|e]; [|by exists e].
  destruct (started (keepAlive g)); simpl; discriminate.
Qed.

(** A transport that is down, and a server whose answer has no [ws]. *)
Lemma failed_connect_leaves_session_witness :
  Gateway_Connect http_down dial_ok Gateway_init
  = (Raise (TransportError "unreachable"),
     logged Gateway_init [HttpRequest (Request_init GET "/")])
  /\ Gateway_Connect http_alice dial_ok Gateway_init
     = (Raise (KeyError "ws"),
        logged Gateway_init [HttpRequest (Request_init GET "/")]).
Proof.
  split.
  - destruct (failed_connect_leaves_session http_down dial_ok Gateway_init)
      as [e He]; [reflexivity | reflexivity |].
    rewrite He. f_equal.
    assert (H : fst (Gateway_Connect http_down dial_ok Gateway_init)
                = Raise e) by by rewrite He.
    vm_compute in H. congruence.
  - destruct (failed_connect_leaves_session http_alice dial_ok Gateway_init)
      as [e He]; [reflexivity | reflexivity |].
    rewrite He. f_equal.
    assert (H : fst (Gateway_Connect http_alice dial_ok Gateway_init)
                = Raise e) by by rewrite He.
    vm_compute in H. congruence.
Defined.

(** After [Close], whatever the session was, [Send] and [Authenticate]
    raise [ClosedSocketException] and send nothing. *)
Theorem send_after_close_raises (g : Gateway) (data : json)
    (token : string) :
  Gateway_Send data (snd (Gateway_Close g))
  = (Raise ClosedSocketException, snd (Gateway_Close g))
  /\ Gateway_Authenticate token (snd (Gateway_Close g))
     = (Raise ClosedSocketException, snd (Gateway_Close g)).
Proof.
  assert (Ho : open (websocket (snd (Gateway_Close g))) = false)
    by by rewrite Gateway_Close_run.
  unfold Gateway_Authenticate. by rewrite !Gateway_Send_closed.
Qed.

(** [close(); connect()] on a new gateway: the thread was never started, so
    the connection goes through. *)
Lemma Gateway_Connect_first_time_witness :
  exists g1,
    Gateway_Connect http_gateway dial_ok (snd (Gateway_Close Gateway_init))
    = (Ok tt, g1)
    /\ websocket g1 = {| open := true; remote := Some "wss://example/ws" |}
    /\ heartbeat_running g1 = true.
Proof.
  destruct (Gateway_Connect_first_time http_gateway dial_ok
              (snd (Gateway_Close Gateway_init))
              (JObj [("ws", JStr "wss://example/ws")]) "wss://example/ws")
    as (g1 & Hrun & Hws & Hstop & Hstarted & _);
    try reflexivity.
  exists g1. split; [exact Hrun|]. split; [exact Hws|].
  assert (Hg1 : g1 = snd (Gateway_Connect http_gateway dial_ok
                            (snd (Gateway_Close Gateway_init))))
    by by rewrite Hrun.
  rewrite Hg1. reflexivity.
Defined.

(** [Receive] on a socket that is not open raises [ClosedSocketException]
    without reading a frame. On an open socket it reads the next frame and
    returns what [json.loads] makes of it; whether that succeeds or raises,
    the gateway is as before and the following call gets the following
    frame. When [recv] itself raises, the connection was closed: [Receive]
    raises the same, the socket is not open afterwards, and the following
    call raises [ClosedSocketException] without reading. *)
Theorem receive_reads_frames_in_order
    (recv : nat -> result string) (loads : string -> result json)
    (r : Receiver) :
  (open (websocket (gateway r)) = false ->
   Gateway_Receive recv loads r = (Raise ClosedSocketException, r))
  /\ (open (websocket (gateway r)) = true ->
      (forall frame,
         recv (cursor r) = Ok frame ->
         Gateway_Receive recv loads r
         = (loads frame,
            {| gateway := gateway r; cursor := S (cursor r) |})
         /\ (forall next,
               recv (S (cursor r)) = Ok next ->
               fst (Gateway_Receive recv loads
                      (snd (Gateway_Receive recv loads r)))
               = loads next))
      /\ (forall e,
            recv (cursor r) = Raise e ->
            let r1 := snd (Gateway_Receive recv loads r) in
            fst (Gateway_Receive recv loads r) = Raise e
            /\ open (websocket (gateway r1)) = false
            /\ Gateway_Receive recv loads r1
               = (Raise ClosedSocketException, r1))).
Proof.
  assert (Hclosed : forall r0, open (websocket (gateway r0)) = false ->
            Gateway_Receive recv loads r0 = (Raise ClosedSocketException, r0)).
  { intros r0 Ho. unfold Gateway_Receive, bind, get. simpl. by rewrite Ho. }
  assert (Hframe : forall r0 frame,
            open (websocket (gateway r0)) = true ->
            recv (cursor r0) = Ok frame ->
            Gateway_Receive recv loads r0
            = (loads frame,
               {| gateway := gateway r0; cursor := S (cursor r0) |})).
  { intros r0 frame Ho Hf.
    unfold Gateway_Receive, websocket_recv, bind, get, lift.
    simpl. by rewrite Ho, Hf. }
  split; [apply Hclosed|].
  intros Ho. split.
  - intros frame Hf. split; [by apply Hframe|].
    intros next Hn. rewrite (Hframe r frame Ho Hf). simpl.
    by rewrite (Hframe {| gateway := gateway r; cursor := S (cursor r) |}
                  next Ho Hn).
  - intros e He r1. subst r1.
    assert (Hrun : Gateway_Receive recv loads r
                   = (Raise e, {| gateway := peer_close (gateway r);
                                  cursor := S (cursor r) |})).
    { unfold Gateway_Receive, websocket_recv, bind, get, lift.
      simpl. by rewrite Ho, He. }
    rewrite Hrun. simpl. split; [reflexivity|]. split; [reflexivity|].
    by apply Hclosed.
Qed.

(** On a connected gateway: two frames, the first of them not JSON; and a
    frame followed by the end of the connection. *)
Lemma receive_reads_frames_in_order_witness :
  fst (Gateway_Receive recv_two loads_ready
         {| gateway := connected_gateway; cursor := 0 |}) = Raise ValueError
  /\ fst (Gateway_Receive recv_two loads_ready
            (snd (Gateway_Receive recv_two loads_ready
                    {| gateway := connected_gateway; cursor := 0 |})))
     = Ok (JObj [("type", JStr "Ready")])
  /\ fst (Gateway_Receive recv_then_closed loads_ready
            {| gateway := connected_gateway; cursor := 1 |})
     = Raise (TransportError "connection closed")
  /\ fst (Gateway_Receive recv_then_closed loads_ready
            (snd (Gateway_Receive recv_then_closed loads_ready
                    {| gateway := connected_gateway; cursor := 1 |})))
     = Raise ClosedSocketException.
Proof.
  destruct (receive_reads_frames_in_order recv_two loads_ready
              {| gateway := connected_gateway; cursor := 0 |})
    as (_ & Hopen).
  destruct (Hopen eq_refl) as (Hframe & _).
  destruct (Hframe "garbage" eq_refl) as (H1 & H2).
  destruct (receive_reads_frames_in_order recv_then_closed loads_ready
              {| gateway := connected_gateway; cursor := 1 |})
    as (_ & Hopen').
  destruct (Hopen' eq_refl) as (_ & Hraise).
  destruct (Hraise (TransportError "connection closed") eq_refl)
    as (H3 & _ & H4).
  split; [by rewrite H1|]. split; [exact (H2 "ready" eq_refl)|].
  split; [exact H3|]. by rewrite H4.
Defined.

(** ** Invariants of a session *)

Section HistoryFacts.

Variable http : list effect -> Request -> result json.
Variable dial : list effect -> string -> result unit.

(** The shapes a gateway can have after one event. *)
Lemma perform_cases (g : Gateway) (e : event) :
  let g' := perform http dial g e in
  g' = g
  \/ (exists frame, open (websocket g) = true
                    /\ g' = logged g [WsSend frame])
  \/ g' = set_keepAlive (set_finished (keepAlive g)) g
        /\ started (keepAlive g) = true
  \/ (e = PeerCloses /\ g' = peer_close g)
  \/ (e = CallClose /\ g' = snd (Gateway_Close g))
  \/ (e = CallConnect /\ open (websocket g) = false
      /\ g' = snd (Gateway_Connect http dial g)).
Proof.
  destruct e; simpl.
  - destruct (open (websocket g)) eqn:Ho.
    + left. by rewrite Gateway_Connect_open.
    + do 5 right. done.
  - do 4 right. left. done.
  - destruct (open (websocket g)) eqn:Ho.
    + right. left. exists data. by rewrite Gateway_Send_open.
    + left. by rewrite Gateway_Send_closed.
  - unfold Gateway_Authenticate. destruct (open (websocket g)) eqn:Ho.
    + right. left. eexists. by rewrite Gateway_Send_open.
    + left. by rewrite Gateway_Send_closed.
  - destruct (started (keepAlive g)) eqn:Hs; [|by left].
    destruct (finished (keepAlive g)) eqn:Hf; [by left|]. simpl.
    unfold GatewayKeepAlive_run_step, run_tick.
    destruct (stopEvent (keepAlive g)); [right; right; left; done|].
    cbn [submitted]. destruct (open (websocket g)) eqn:Ho.
    + right. left. eexists. by rewrite Gateway_Send_open.
    + right. right. left. by rewrite Gateway_Send_closed.
  - do 3 right. left. done.
Qed.

Lemma perform_invariant (g : Gateway) (e : event) :
  gateway_invariant g -> gateway_invariant (perform http dial g e).
Proof.
  intros (Ht & Hr & Hi & Hd & Ho & Hf).
  destruct (perform_cases g e)
    as [-> | [(frame & Hopen & ->) | [[-> Hs] | [[_ ->] | [[_ ->]
        | (_ & Hclosed & ->)]]]]].
  - done.
  - unfold gateway_invariant, logged. simpl. rewrite !count_app.
    unfold count at 2 4. simpl. rewrite !Nat.add_0_r. done.
  - unfold gateway_invariant. simpl. done.
  - unfold gateway_invariant, peer_close. simpl. done.
  - rewrite Gateway_Close_run. unfold gateway_invariant. simpl.
    rewrite !count_app.
    destruct (released (client g)), (open (websocket g));
      unfold count in *; simpl in *;
      repeat split; try done; try lia; auto.
  - rewrite Gateway_Connect_run by exact Hclosed. cbv zeta.
    destruct (http _ _) as [body|err].
    2: { unfold gateway_invariant, logged. simpl. rewrite !count_app.
         unfold count at 2 4. simpl. rewrite !Nat.add_0_r. done. }
    destruct (py_item body "ws") as [[| | |uri| |]|err];
      try (unfold gateway_invariant, logged; simpl; rewrite !count_app;
           unfold count at 2 4; simpl; rewrite !Nat.add_0_r; done).
    destruct (dial _ uri) as [[]|err].
    2: { unfold gateway_invariant, logged. simpl. rewrite !count_app.
         unfold count at 2 4. simpl. rewrite !Nat.add_0_r. done. }
    destruct (started (keepAlive g)) eqn:Hs; unfold gateway_invariant;
      simpl; rewrite !count_app; unfold count at 2 4; simpl;
      rewrite Ht, Hr, ?Hs; simpl; repeat split; auto; lia.
Qed.

Lemma perform_balance (drops : nat) (g : Gateway) (e : event) :
  socket_balance drops g ->
  socket_balance (drops + bool_to_nat (is_peer_close e))
    (perform http dial g e).
Proof.
  intros [Hlo Hhi].
  destruct (perform_cases g e)
    as [-> | [(frame & Hopen & ->) | [[-> Hs] | [[-> ->] | [[-> ->]
        | (-> & Hclosed & ->)]]]]].
  - unfold socket_balance. lia.
  - unfold socket_balance, logged. simpl. rewrite !count_app.
    unfold count at 2 4 6 8. simpl. lia.
  - unfold socket_balance. simpl. lia.
  - unfold socket_balance, peer_close. simpl.
    destruct (open (websocket g)); simpl in *; lia.
  - rewrite Gateway_Close_run. unfold socket_balance. simpl.
    rewrite !count_app.
    destruct (released (client g)), (open (websocket g));
      unfold count in *; simpl in *; lia.
  - rewrite Gateway_Connect_run by exact Hclosed. cbv zeta.
    rewrite Hclosed in Hlo, Hhi. simpl in Hlo, Hhi.
    destruct (http _ _) as [body|err].
    2: { unfold socket_balance, logged. simpl. rewrite !count_app, Hclosed.
         unfold count at 2 4 6 8. simpl. lia. }
    destruct (py_item body "ws") as [[| | |uri| |]|err];
      try (unfold socket_balance, logged; simpl;
           rewrite !count_app, Hclosed;
           unfold count at 2 4 6 8; simpl; lia).
    destruct (dial _ uri) as [[]|err].
    2: { unfold socket_balance, logged. simpl. rewrite !count_app, Hclosed.
         unfold count at 2 4 6 8. simpl. lia. }
    destruct (started (keepAlive g)); unfold socket_balance; simpl;
      rewrite !count_app; unfold count at 2 4 6 8; simpl; lia.
Qed.

Lemma history_invariant (es : list event) :
  gateway_invariant (history http dial es).
Proof.
  unfold history.
  assert (H : gateway_invariant Gateway_init) by (repeat split; done).
  revert H. generalize Gateway_init.
  induction es as [|e es IH]; intros g Hg; simpl; [exact Hg|].
  apply IH. by apply perform_invariant.
Qed.

Lemma history_balance (es : list event) :
  socket_balance (peer_closes es) (history http dial es).
Proof.
  unfold history.
  assert (H : socket_balance 0 Gateway_init)
    by (unfold socket_balance; simpl; unfold count; simpl; lia).
  replace (peer_closes es) with (0 + peer_closes es) by lia.
  revert H. generalize Gateway_init. generalize 0.
  induction es as [|e es IH]; intros n g Hg; simpl.
  - unfold peer_closes. simpl. by rewrite Nat.add_0_r.
  - replace (n + peer_closes (e :: es))
      with (n + bool_to_nat (is_peer_close e) + peer_closes es).
    + apply IH. by apply perform_balance.
    + unfold peer_closes. rewrite filter_cons.
      destruct e; simpl; lia.
Qed.

End HistoryFacts.

(** Whatever the user calls, whenever the thread wakes up and whenever the
    other end closes the connection: the keep-alive thread of a gateway is
    started at most once, a socket is open only after that one start, and
    the period stays 20 on a daemon thread. *)
Theorem heartbeat_thread_started_at_most_once
    (http : list effect -> Request -> result json)
    (dial : list effect -> string -> result unit)
    (es : list event) :
  let g := history http dial es in
  count is_thread_start (log g) <= 1
  /\ (open (websocket g) = true -> count is_thread_start (log g) = 1)
  /\ interval (keepAlive g) = 20%Z
  /\ daemon (keepAlive g) = true.
Proof.
  intros g.
  destruct (history_invariant http dial es)
    as (Ht & _ & Hi & Hd & Ho & _).
  fold g in Ht, Hi, Hd, Ho.
  split; [rewrite Ht; destruct (started (keepAlive g)); simpl; lia|].
  split; [|done].
  intros Hopen. rewrite Ht, (Ho Hopen). reflexivity.
Qed.

(** [connect(); close(); connect(); close(); connect()] with a wake-up in
    between: one thread start, and the last socket is open. *)
Lemma heartbeat_thread_started_at_most_once_witness :
  let g := history http_gateway dial_ok
             [CallConnect; ThreadWakes; CallClose; CallConnect; CallClose;
              CallConnect] in
  open (websocket g) = true /\ count is_thread_start (log g) = 1.
Proof.
  intros g. split; [reflexivity|].
  apply (heartbeat_thread_started_at_most_once http_gateway dial_ok
           [CallConnect; ThreadWakes; CallClose; CallConnect; CallClose;
            CallConnect]).
  reflexivity.
Defined.

Section OverlapFacts.

Variable http : list effect -> Request -> result json.
Variable dial : list effect -> string -> result unit.
Variable body : json.
Variable url : string.
Hypothesis Hhttp : forall t, http t (Request_init GET "/") = Ok body.
Hypothesis Hws : py_item body "ws" = Ok (JStr url).
Hypothesis Hdial : forall t, dial t url = Ok tt.

Lemma Connect_resume_past_guard (c : Connect_call) (g : Gateway) :
  guard_behind url c ->
  guard_behind url (fst (Connect_resume http dial c g))
  /\ resumes_left (fst (Connect_resume http dial c g))
     = pred (resumes_left c)
  /\ count is_connect (log (snd (Connect_resume http dial c g)))
     + past_guard (fst (Connect_resume http dial c g))
     = count is_connect (log g) + past_guard c
  /\ count is_ws_close (log (snd (Connect_resume http dial c g)))
     = count is_ws_close (log g)
  /\ (past_guard c = 1 ->
      past_guard (fst (Connect_resume http dial c g)) = 0 ->
      open (websocket (snd (Connect_resume http dial c g))) = true)
  /\ (open (websocket g) = true ->
      open (websocket (snd (Connect_resume http dial c g))) = true).
Proof.
  intros [[-> | ->] | [r ->]].
  - unfold Connect_resume, Gateway_GetWebsocketURL, Gateway_Request,
      bind, get, record, modify, lift.
    simpl. rewrite Hhttp. simpl. rewrite Hws. simpl.
    split; [left; by right|]. split; [done|].
    unfold count. rewrite !filter_app. simpl.
    rewrite !length_app. simpl.
    split; [lia|]. split; [lia|]. split; [discriminate|done].
  - unfold Connect_resume, client_connect, stopEvent_clear, keepAlive_start,
      bind, get, record, modify, lift.
    simpl. rewrite Hdial. simpl.
    destruct (started (keepAlive g)); simpl;
      (split; [right; eauto|]); (split; [done|]);
      unfold count; rewrite ?filter_app; simpl;
      rewrite ?length_app; simpl;
      (split; [lia|]); (split; [lia|]); split; done.
  - simpl. split; [right; eauto|]. split; [done|].
    split; [done|]. split; [done|]. split; [discriminate|done].
Qed.

Lemma Connect_twice_past_guard (s : list bool) :
  forall (a b : Connect_call) (g : Gateway),
    guard_behind url a -> guard_behind url b ->
    resumes_left a <= turns true s ->
    resumes_left b <= turns false s ->
    (past_guard a = 1 \/ past_guard b = 1 \/ open (websocket g) = true) ->
    let r := Connect_twice http dial s a b g in
    (exists ra rb, fst (fst r) = Returned ra /\ snd (fst r) = Returned rb)
    /\ count is_connect (log (snd r))
       = count is_connect (log g) + past_guard a + past_guard b
    /\ count is_ws_close (log (snd r)) = count is_ws_close (log g)
    /\ open (websocket (snd r)) = true.
Proof.
  induction s as [|x s IH]; intros a b g Ha Hb Hla Hlb Hlive; simpl.
  - simpl in Hla, Hlb.
    assert (Ea : exists ra, a = Returned ra).
    { destruct Ha as [[-> | ->] | ?]; simpl in Hla; [lia | lia | done]. }
    assert (Eb : exists rb, b = Returned rb).
    { destruct Hb as [[-> | ->] | ?]; simpl in Hlb; [lia | lia | done]. }
    destruct Ea as [ra ->]. destruct Eb as [rb ->]. simpl in *.
    split; [eauto|]. split; [lia|]. split; [done|].
    destruct Hlive as [? | [? | ?]]; [discriminate | discriminate | done].
  - destruct x.
    + destruct (Connect_resume_past_guard a g Ha)
        as (Ha' & Hl & Hc & Hw & Ho & Hk).
      destruct (Connect_resume http dial a g) as [a' g'] eqn:E.
      simpl in Ha', Hl, Hc, Hw, Ho, Hk. simpl in Hla, Hlb.
      destruct (IH a' b g' Ha' Hb) as (Hr & Hn & Hm & Hopen);
        [lia | lia | | ].
      * assert (Hpg : past_guard a' = 0 \/ past_guard a' = 1)
          by (destruct a'; simpl; auto).
        destruct Hpg as [Hz | Hone]; [|by left].
        destruct Hlive as [Hp | [Hp | Hp]];
          [right; right; by apply Ho | right; by left
          | right; right; by apply Hk].
      * split; [exact Hr|]. split; [lia|]. split; [lia | exact Hopen].
    + destruct (Connect_resume_past_guard b g Hb)
        as (Hb' & Hl & Hc & Hw & Ho & Hk).
      destruct (Connect_resume http dial b g) as [b' g'] eqn:E.
      simpl in Hb', Hl, Hc, Hw, Ho, Hk. simpl in Hla, Hlb.
      destruct (IH a b' g' Ha Hb') as (Hr & Hn & Hm & Hopen);
        [lia | lia | | ].
      * assert (Hpg : past_guard b' = 0 \/ past_guard b' = 1)
          by (destruct b'; simpl; auto).
        destruct Hpg as [Hz | Hone]; [|right; by left].
        destruct Hlive as [Hp | [Hp | Hp]];
          [by left | right; right; by apply Ho
          | right; right; by apply Hk].
      * split; [exact Hr|]. split; [lia|]. split; [lia | exact Hopen].
Qed.

End OverlapFacts.

Lemma Connect_alone_is_Connect
    (http : list effect -> Request -> result json)
    (dial : list effect -> string -> result unit) (g : Gateway) :
  Connect_alone http dial g
  = (Returned (fst (Gateway_Connect http dial g)),
     snd (Gateway_Connect http dial g)).
Proof.
  unfold Connect_alone, Gateway_Connect, bind, get. simpl.
  destruct (open (websocket g)); simpl; [reflexivity|].
  destruct (Gateway_GetWebsocketURL http g) as [[u|e] g1]; simpl;
    [|reflexivity].
  unfold bind.
  destruct (client_connect dial u g1) as [[ws|e] g2]; simpl;
    [|reflexivity].
  destruct (keepAlive_start _) as [r g3]. reflexivity.
Qed.

(** The live sockets of a gateway. When every call is awaited before the
    next event, every socket that was opened, except the one that is open
    now, was closed by [Close] or dropped by the other end; with no drops
    the sockets opened are exactly those closed plus the open one. That
    needs the calls not to overlap: a call of [Connect] run alone is
    [Gateway_Connect], but two calls on a gateway whose socket is not open
    can both pass the guard before either has its socket, and however the
    event loop then resumes them to their ends (the address is served and
    the connection accepted), each opens a socket of its own, none is
    closed and the gateway holds one open socket. *)
Theorem one_live_socket_unless_connects_overlap
    (http : list effect -> Request -> result json)
    (dial : list effect -> string -> result unit) :
  (forall es : list event,
     let g := history http dial es in
     count is_ws_close (log g) + bool_to_nat (open (websocket g))
     <= count is_connect (log g)
     /\ count is_connect (log g)
        <= count is_ws_close (log g) + peer_closes es
           + bool_to_nat (open (websocket g))
     /\ (peer_closes es = 0 ->
         count is_connect (log g)
         = count is_ws_close (log g) + bool_to_nat (open (websocket g))))
  /\ (forall g : Gateway,
        Connect_alone http dial g
        = (Returned (fst (Gateway_Connect http dial g)),
           snd (Gateway_Connect http dial g)))
  /\ (forall g : Gateway,
        open (websocket g) = false ->
        Connect_twice http dial [true; false] AtGuard AtGuard g
        = (AwaitsURL, AwaitsURL, g))
  /\ (forall (body : json) (url : string),
        (forall t, http t (Request_init GET "/") = Ok body) ->
        py_item body "ws" = Ok (JStr url) ->
        (forall t, dial t url = Ok tt) ->
        forall (s : list bool) (a b : Connect_call) (g : Gateway),
          waits_for url a -> waits_for url b ->
          resumes_left a <= turns true s ->
          resumes_left b <= turns false s ->
          let r := Connect_twice http dial s a b g in
          (exists ra rb,
             fst (fst r) = Returned ra /\ snd (fst r) = Returned rb)
          /\ count is_connect (log (snd r)) = count is_connect (log g) + 2
          /\ count is_ws_close (log (snd r)) = count is_ws_close (log g)
          /\ open (websocket (snd r)) = true).
Proof.
  split.
  { intros es g. destruct (history_balance http dial es) as [Hlo Hhi].
    fold g in Hlo, Hhi. split; [exact Hlo|]. split; [exact Hhi|]. lia. }
  split; [apply Connect_alone_is_Connect|].
  split.
  { intros g Ho. unfold Connect_twice, Connect_resume.
    rewrite Ho. simpl. rewrite Ho. reflexivity. }
  intros body url Hhttp Hws Hdial s a b g Ha Hb Hla Hlb r.
  assert (Hpa : past_guard a = 1) by (by destruct Ha as [-> | ->]).
  assert (Hpb : past_guard b = 1) by (by destruct Hb as [-> | ->]).
  destruct (Connect_twice_past_guard http dial body url Hhttp Hws Hdial
              s a b g (or_introl Ha) (or_introl Hb) Hla Hlb
              (or_introl Hpa)) as (Hr & Hn & Hm & Hopen).
  fold r in Hr, Hn, Hm, Hopen.
  split; [exact Hr|]. split; [lia|]. split; [exact Hm | exact Hopen].
Qed.

(** Two calls of [connect()] on a new gateway that the event loop resumes
    in turn: two sockets opened, none closed, one held; the call that
    comes second to line 85 raises [RuntimeError]. *)
Lemma one_live_socket_unless_connects_overlap_witness :
  let r := Connect_twice http_gateway dial_ok
             [true; false; true; false; true; false]
             AtGuard AtGuard Gateway_init in
  fst r = (Returned (Ok tt), Returned (Raise RuntimeError))
  /\ count is_connect (log (snd r)) = 2
  /\ count is_ws_close (log (snd r)) = 0
  /\ open (websocket (snd r)) = true.
Proof.
  intros r. split; [reflexivity|].
  destruct (one_live_socket_unless_connects_overlap http_gateway dial_ok)
    as (_ & _ & Hguard & Hover).
  assert (E : r = Connect_twice http_gateway dial_ok
                    [true; false; true; false]
                    AwaitsURL AwaitsURL Gateway_init).
  { unfold r.
    change [true; false; true; false; true; false]
      with ([true; false] ++ [true; false; true; false]).
    generalize (Hguard Gateway_init eq_refl).
    generalize [true; false; true; false]. intros s Hg.
    simpl. reflexivity. }
  destruct (Hover (JObj [("ws", JStr "wss://example/ws")])
              "wss://example/ws" (fun _ => eq_refl) eq_refl
              (fun _ => eq_refl) [true; false; true; false]
              AwaitsURL AwaitsURL Gateway_init
              (or_introl eq_refl) (or_introl eq_refl))
    as (_ & Hn & Hm & Hopen); [simpl; lia | simpl; lia |].
  rewrite E. split; [exact Hn|]. split; [exact Hm | exact Hopen].
Defined.

(** * Further properties of users and channels *)

(** ** Taking a computation apart *)

Lemma bind_ok_inv {S A B : Type} (m : St S A) (k : A -> St S B) s b s' :
  bind m k s = (Ok b, s') ->
  exists a s1, m s = (Ok a, s1) /\ k a s1 = (Ok b, s').
Proof.
  unfold bind. destruct (m s) as [[a|e] s1]; [eauto | discriminate].
Qed.

Lemma lift_ok_inv {S A : Type} (r : result A) (s s' : S) (a : A) :
  lift r s = (Ok a, s') -> r = Ok a /\ s' = s.
Proof. unfold lift. by intros [= -> ->]. Qed.

Lemma ret_ok_inv {S A : Type} (x a : A) (s s' : S) :
  ret x s = (Ok a, s') -> a = x /\ s' = s.
Proof. unfold ret. by intros [= -> ->]. Qed.

Ltac inv_step :=
  match goal with
  | H : bind _ _ _ = (Ok _, _) |- _ =>
      apply bind_ok_inv in H as (? & ? & ? & H); cbv beta in H
  | H : lift _ _ = (Ok _, _) |- _ =>
      apply lift_ok_inv in H as [H ?]; subst
  | H : ret _ _ = (Ok _, _) |- _ =>
      apply ret_ok_inv in H as [? ?]; subst
  end.

Lemma stateless_lift {S A : Type} (r : result A) : stateless (@lift S A r).
Proof. by intros s. Qed.

Lemma stateless_ret {S A : Type} (a : A) : stateless (@ret S A a).
Proof. by intros s. Qed.

Lemma stateless_bind {S A B : Type} (m : St S A) (k : A -> St S B) :
  stateless m -> (forall a, stateless (k a)) -> stateless (bind m k).
Proof.
  intros Hm Hk s. unfold bind. specialize (Hm s).
  destruct (m s) as [[a|e] s1]; simpl in *; subst; [apply Hk | done].
Qed.

Lemma stateless_when_present {S A : Type} data probe (k : St S A) :
  stateless k -> stateless (when_present data probe k).
Proof.
  intros Hk. unfold when_present.
  apply stateless_bind; [apply stateless_lift|].
  intros []; try apply stateless_ret;
    (apply stateless_bind; [exact Hk | intros; apply stateless_ret]).
Qed.

Lemma stateless_Status_FromJSON {S : Type} (data : json) :
  stateless (@Status_FromJSON S data).
Proof.
  unfold Status_FromJSON.
  repeat (first [ apply stateless_when_present
                | apply stateless_lift | apply stateless_ret
                | apply stateless_bind; [|intros] ]).
Qed.

Lemma stateless_ok {S A : Type} (m : St S A) s a s' :
  stateless m -> m s = (Ok a, s') -> s' = s.
Proof. intros Hm H. specialize (Hm s). by rewrite H in Hm. Qed.

(** A field that is missing or null gives no keyword argument. *)
Lemma when_present_absent {S A : Type} data probe (k : St S A) (s : S) :
  py_get data probe = Ok JNull ->
  when_present data probe k s = (Ok None, s).
Proof. intros H. unfold when_present. by erewrite bind_lift_ok by exact H. Qed.

(** An optional field copied from a payload is what [data.get] gives. *)
Lemma plain_field_inv {S : Type} data field (s s' : S) kw :
  when_present data field (lift (py_item data field)) s = (Ok kw, s') ->
  s' = s /\ py_get data field = Ok (kwargs_get kw).
Proof.
  unfold when_present, bind, lift, ret.
  destruct data; simpl; try discriminate.
  destruct (assoc field members) as [v|] eqn:E; simpl.
  - destruct v; simpl; rewrite ?E; by intros [= <- <-].
  - by intros [= <- <-].
Qed.

(** ** Enumerations *)

Lemma Relationship_call_inv (v : json) (r : Relationship.t) :
  Relationship.call v = Ok r -> v = JStr (Relationship.value r).
Proof.
  unfold Relationship.call, Relationship.members. simpl.
  repeat match goal with
         | |- context [json_eqb v (JStr ?s)] =>
             destruct (json_eqb v (JStr s)) eqn:?;
             [intros [= <-]; by apply json_eqb_str|]
         end.
  discriminate.
Qed.

Lemma Presence_call_inv (v : json) (p : Presence.t) :
  Presence.call v = Ok p -> v = JStr (Presence.value p).
Proof.
  unfold Presence.call, Presence.members. simpl.
  repeat match goal with
         | |- context [json_eqb v (JStr ?s)] =>
             destruct (json_eqb v (JStr s)) eqn:?;
             [intros [= <-]; by apply json_eqb_str|]
         end.
  discriminate.
Qed.

Lemma Relationship_call_unknown (v : json) :
  (forall r, v <> JStr (Relationship.value r)) ->
  Relationship.call v = Raise ValueError.
Proof.
  intros Hno. destruct (Relationship.call v) as [r|e] eqn:E.
  - apply Relationship_call_inv in E. by destruct (Hno r).
  - unfold Relationship.call in E.
    by destruct (find _ _); inversion E.
Qed.

(** The enumerations of [user.py] round-trip through their wire values:
    [Relationship(value)] and [Presence(value)] give back the member whose
    value it is (the relationship written "None" is [NoRelationship]), a
    member is obtained from no other value, and any value that belongs to
    no member raises [ValueError]. *)
Theorem enum_value_roundtrip :
  (forall r, Relationship.call (JStr (Relationship.value r)) = Ok r)
  /\ (forall p, Presence.call (JStr (Presence.value p)) = Ok p)
  /\ (forall v r, Relationship.call v = Ok r ->
        v = JStr (Relationship.value r))
  /\ (forall v p, Presence.call v = Ok p -> v = JStr (Presence.value p))
  /\ (forall v, (forall r, v <> JStr (Relationship.value r)) ->
        Relationship.call v = Raise ValueError)
  /\ (forall v, (forall p, v <> JStr (Presence.value p)) ->
        Presence.call v = Raise ValueError).
Proof.
  split; [by intros []|]. split; [by intros []|].
  split; [apply Relationship_call_inv|].
  split; [apply Presence_call_inv|].
  split; [apply Relationship_call_unknown|].
  intros v Hno. destruct (Presence.call v) as [p|e] eqn:E.
  - apply Presence_call_inv in E. by destruct (Hno p).
  - unfold Presence.call in E. by destruct (find _ _); inversion E.
Qed.

(** The wire value "None", a number, and a value in the wrong case. *)
Lemma enum_value_roundtrip_witness :
  Relationship.call (JStr "None") = Ok Relationship.NoRelationship
  /\ Relationship.call (JNum 3) = Raise ValueError
  /\ Presence.call (JStr "online") = Raise ValueError.
Proof.
  destruct enum_value_roundtrip as (Hr & _ & _ & _ & Hru & Hpu).
  split; [apply (Hr Relationship.NoRelationship)|].
  split; [apply Hru; intros r; discriminate|].
  apply Hpu. intros []; discriminate.
Defined.

(** ** Decoding users *)

(** A decoding that returns, taken apart. *)
Lemma User_FromJSON_inv (data : json) (w w1 : World) (r : UserRef) :
  User_FromJSON data w = (Ok r, w1) ->
  exists kb ko kr ks kbot i n,
    r = {| addr := next_addr w;
           deref := User_init i n kb ko kr ks None kbot |}
    /\ w1 = allocated w
    /\ py_get data "badges" = Ok (kwargs_get kb)
    /\ py_get data "online" = Ok (kwargs_get ko)
    /\ py_get data "relationship"
       = Ok (match kr with
             | Some rel => JStr (Relationship.value rel)
             | None => JNull
             end)
    /\ py_item data "_id" = Ok i
    /\ py_item data "username" = Ok n.
Proof.
  unfold User_FromJSON. intros H.
  apply bind_ok_inv in H as (kb & s1 & Hb & H). cbv beta in H.
  apply plain_field_inv in Hb as [-> Hb].
  apply bind_ok_inv in H as (ko & s2 & Ho & H). cbv beta in H.
  apply plain_field_inv in Ho as [-> Ho].
  apply bind_ok_inv in H as (kr & s3 & Hr & H). cbv beta in H.
  assert (Hs3 : s3 = w).
  { eapply stateless_ok; [|exact Hr]. apply stateless_when_present.
    apply stateless_bind; [|intros]; apply stateless_lift. }
  assert (Hrel : py_get data "relationship"
                 = Ok (match kr with
                       | Some rel => JStr (Relationship.value rel)
                       | None => JNull
                       end)).
  { clear H. unfold when_present in Hr.
    apply bind_ok_inv in Hr as (v & s & Hv & Hr). cbv beta in Hr.
    apply lift_ok_inv in Hv as [Hv ->]. rewrite Hv.
    destruct data; simpl in Hv; try discriminate.
    injection Hv as Hv.
    destruct (assoc "relationship" members) as [x|] eqn:E; simpl in Hv;
      subst v; [|by apply ret_ok_inv in Hr as [-> _]].
    destruct x; try (by apply ret_ok_inv in Hr as [-> _]);
      repeat inv_step; simpl in *; rewrite E in *;
      match goal with
      | H1 : Ok _ = Ok _, H2 : Relationship.call _ = Ok _ |- _ =>
          injection H1 as <-; apply Relationship_call_inv in H2;
          by rewrite H2
      end. }
  subst s3.
  apply bind_ok_inv in H as (ks & s4 & Hst & H). cbv beta in H.
  assert (Hs4 : s4 = w).
  { eapply stateless_ok; [|exact Hst]. apply stateless_when_present.
    apply stateless_bind; [apply stateless_lift|intros].
    apply stateless_Status_FromJSON. }
  subst s4.
  apply bind_ok_inv in H as (kbot & s5 & Hbot & H). cbv beta in H.
  assert (Hs5 : s5 = w).
  { eapply stateless_ok; [|exact Hbot]. apply stateless_when_present.
    repeat (first [ apply stateless_lift | apply stateless_ret
                  | apply stateless_bind; [|intros] ]). }
  subst s5.
  apply bind_ok_inv in H as (i & s6 & Hi & H). cbv beta in H.
  apply lift_ok_inv in Hi as [Hi ->].
  apply bind_ok_inv in H as (n & s7 & Hn & H). cbv beta in H.
  apply lift_ok_inv in Hn as [Hn ->].
  unfold new_User in H. injection H as <- <-.
  exists kb, ko, kr, ks, kbot, i, n. done.
Qed.

(** ** Identities *)

Lemma built_before_mono (n n' : nat) (us : list UserRef) :
  n <= n' -> built_before n us -> built_before n' us.
Proof.
  intros Hn Hus. unfold built_before in *.
  eapply Forall_impl; [exact Hus|]. intros u Hu. simpl in Hu. lia.
Qed.

Lemma built_before_app (n : nat) (us vs : list UserRef) :
  built_before n (us ++ vs) <-> built_before n us /\ built_before n vs.
Proof. unfold built_before. apply Forall_app. Qed.

Lemma built_before_sub (n : nat) (us vs : list UserRef) :
  (forall u, u ∈ us -> u ∈ vs) -> built_before n vs -> built_before n us.
Proof.
  unfold built_before. rewrite !Forall_forall. intros Hs Hv u Hu.
  apply Hv, Hs, Hu.
Qed.

Lemma builds_bind {A B : Type} given (refsA : A -> list UserRef)
    (refsB : B -> list UserRef) (m : St World A) (k : A -> St World B) :
  builds given refsA m ->
  (forall a, builds (given ++ refsA a) refsB (k a)) ->
  builds given refsB (bind m k).
Proof.
  intros Hm Hk w Hinv Hg. unfold bind.
  destruct (Hm w Hinv Hg) as (Hinv1 & Hle & Hrefs).
  destruct (m w) as [[a|e] w1]; simpl in *.
  - destruct (Hk a w1 Hinv1) as (Hinv2 & Hle2 & Hrefs2).
    { apply built_before_app. split; [|by apply Hrefs].
      by apply (built_before_mono (next_addr w)). }
    split; [exact Hinv2|]. split; [lia | exact Hrefs2].
  - split; [exact Hinv1|]. split; [exact Hle | discriminate].
Qed.

Lemma builds_same_world {A : Type} given (m : St World A) :
  (forall w, session (snd (m w)) = session w
             /\ next_addr (snd (m w)) = next_addr w) ->
  builds given (fun _ => []) m.
Proof.
  intros Hm w Hinv _. destruct (Hm w) as [Hs Hn].
  split; [|split; [lia | intros; apply Forall_nil_2]].
  intros u Hu. rewrite Hs in Hu. rewrite Hn. by apply Hinv.
Qed.

Lemma builds_stateless {A : Type} given (m : St World A) :
  stateless m -> builds given (fun _ => []) m.
Proof. intros Hm. apply builds_same_world. intros w. by rewrite (Hm w). Qed.

Lemma builds_lift {A : Type} given (r : result A) :
  builds given (fun _ => []) (lift r).
Proof. apply builds_stateless, stateless_lift. Qed.

Lemma builds_emit given (e : effect) : builds given (fun _ => []) (emit e).
Proof. by apply builds_same_world. Qed.

Lemma builds_raise {A : Type} given (refs : A -> list UserRef) (e : exn) :
  builds given refs (raise e).
Proof. intros w Hinv _. simpl. split; [done|]. split; [lia | discriminate]. Qed.

Lemma builds_ret {A : Type} given (refs : A -> list UserRef) (a : A) :
  (forall u, u ∈ refs a -> u ∈ given) -> builds given refs (ret a).
Proof.
  intros Hs w Hinv Hg. simpl. split; [done|]. split; [lia|].
  intros a' [= <-]. by apply (built_before_sub _ _ given).
Qed.

Lemma builds_get {A : Type} given (refs : A -> list UserRef)
    (k : World -> St World A) :
  (forall w,
     identities_in_use w -> built_before (next_addr w) given ->
     identities_in_use (snd (k w w))
     /\ next_addr w <= next_addr (snd (k w w))
     /\ forall a, fst (k w w) = Ok a ->
                  built_before (next_addr (snd (k w w))) (refs a)) ->
  builds given refs (bind get k).
Proof. intros H w Hinv Hg. exact (H w Hinv Hg). Qed.

Lemma builds_new_User given (u : User) :
  builds given (fun r => [r]) (new_User u).
Proof.
  intros w Hinv _. simpl. split; [|split; [lia|]].
  - intros v Hv. simpl in Hv. specialize (Hinv v Hv). simpl. lia.
  - intros a [= <-]. apply Forall_singleton. simpl. lia.
Qed.

Lemma builds_plain_kwarg given data field :
  builds given (fun _ => []) (plain_kwarg data field).
Proof.
  apply builds_stateless. unfold plain_kwarg.
  apply stateless_when_present, stateless_lift.
Qed.

Lemma builds_User_FromJSON given (data : json) :
  builds given (fun r => [r]) (User_FromJSON data).
Proof.
  unfold User_FromJSON.
  repeat (eapply builds_bind;
          [ apply builds_stateless;
            repeat (first [ apply stateless_when_present
                          | apply stateless_Status_FromJSON
                          | apply stateless_lift | apply stateless_ret
                          | apply stateless_bind; [|intros] ])
          | intros ? ]).
  apply builds_new_User.
Qed.

Lemma builds_register given (k : key) (c : Channel) :
  (forall u, u ∈ channel_users c -> u ∈ given) ->
  builds given (fun _ => []) (register_channel k c).
Proof.
  intros Hs w Hinv Hg. simpl.
  split; [|split; [lia | intros; apply Forall_nil_2]].
  intros u [[k' Hu] | (k' & c' & Hc & Hu)]; simpl in *.
  - apply Hinv. left. eauto.
  - apply lookup_insert_Some in Hc as [[_ <-] | [_ Hc]].
    + unfold built_before in Hg. rewrite Forall_forall in Hg.
      apply Hg, Hs, Hu.
    + apply Hinv. right. eauto.
Qed.

Section IdentityFacts.

Variable http : list effect -> Request -> result json.

Lemma builds_HTTPClient_Request given (r : Request) :
  builds given (fun _ => []) (HTTPClient_Request http r).
Proof. by apply builds_same_world. Qed.

Lemma builds_User_FromID given (id : json) (tok : string) :
  builds given (fun r => [r]) (User_FromID http id tok).
Proof.
  unfold User_FromID.
  eapply builds_bind; [apply builds_lift|]. intros path.
  eapply builds_bind; [apply builds_HTTPClient_Request|]. intros result.
  eapply builds_bind; [apply builds_emit|]. intros ?.
  apply builds_User_FromJSON.
Qed.

Lemma builds_resolve_user given (userID : json) :
  builds given (fun r => [r]) (resolve_user http userID).
Proof.
  unfold resolve_user.
  eapply builds_bind; [apply builds_lift|]. intros k.
  apply builds_get. intros w Hinv Hg.
  destruct (users (session w) !! k) as [user|] eqn:Hk.
  - simpl. split; [done|]. split; [lia|].
    intros a [= <-]. apply Forall_singleton. apply Hinv. left. eauto.
  - exact (builds_User_FromID _ userID (token (session w)) w Hinv Hg).
Qed.

Lemma builds_DirectMessage_loop ids : forall given acc,
  (forall u, u ∈ acc -> u ∈ given) ->
  builds given (fun r => r) (DirectMessage_loop http ids acc).
Proof.
  induction ids as [|userID rest IH]; intros given acc Hs; simpl.
  - by apply builds_ret.
  - eapply builds_bind; [apply builds_resolve_user|]. intros user.
    apply IH. intros u. rewrite !elem_of_app. intros [Hu | Hu]; auto.
Qed.

Lemma builds_Group_loop data ids : forall given acc owner,
  (forall u, u ∈ acc ++ option_list owner -> u ∈ given) ->
  builds given (fun ro => fst ro ++ option_list (snd ro))
    (Group_loop http data ids acc owner).
Proof.
  induction ids as [|userID rest IH]; intros given acc owner Hs; simpl.
  - by apply builds_ret.
  - eapply builds_bind; [apply builds_resolve_user|]. intros user.
    eapply builds_bind; [apply builds_lift|]. intros uid.
    eapply builds_bind; [apply builds_lift|]. intros o.
    apply IH. intros u. specialize (Hs u). revert Hs.
    destruct (py_eq uid o), owner; simpl;
      rewrite ?elem_of_app, ?elem_of_cons, ?elem_of_nil; intuition.
Qed.

Ltac builds_steps :=
  repeat (eapply builds_bind;
          [ first [ apply builds_lift
                  | apply builds_plain_kwarg
                  | apply builds_stateless, stateless_when_present,
                      stateless_lift
                  | apply builds_resolve_user
                  | apply builds_DirectMessage_loop;
                    intros ?; by rewrite elem_of_nil
                  | apply builds_Group_loop;
                    intros ?; simpl; by rewrite elem_of_nil ]
          | intros ? ]).

Lemma builds_Channel_FromJSON given (data : json) :
  builds given channel_users (Channel_FromJSON http data).
Proof.
  unfold Channel_FromJSON.
  eapply builds_bind; [apply builds_lift|]. intros tag.
  apply builds_bind with (refsA := from_option channel_users []).
  - repeat match goal with
           | |- builds _ _ (if ?c then _ else _) => destruct c
           end;
      builds_steps; apply builds_ret; simpl; intros u;
      rewrite ?elem_of_app, ?elem_of_cons, ?elem_of_nil; intuition.
  - intros [c|]; [|apply builds_raise]. simpl.
    eapply builds_bind; [apply builds_lift|]. intros k.
    eapply builds_bind.
    { apply builds_register. intros u. rewrite !elem_of_app. auto. }
    intros ?. apply builds_ret. intros u. rewrite !elem_of_app. auto.
Qed.

Lemma builds_Channel_FromID given (id : json) :
  builds given (from_option channel_users []) (Channel_FromID http id).
Proof.
  unfold Channel_FromID.
  eapply builds_bind; [apply builds_lift|]. intros k.
  apply builds_get. intros w Hinv Hg.
  destruct (channels (session w) !! k) as [c|] eqn:Hk.
  - simpl. split; [done|]. split; [lia|].
    intros a [= <-]. simpl. unfold built_before. rewrite Forall_forall.
    intros u Hu. apply Hinv. right. eauto.
  - revert w Hinv Hg Hk. intros w Hinv Hg _. revert Hinv Hg.
    generalize (token (session w)). intros tok.
    assert (Hb : builds (given ++ []) (from_option channel_users [])
              (path <- lift (str_add "/channels/" id) ;;
               result <- HTTPClient_Request http
                           (AddAuthentication tok (Request_init GET path)) ;;
               emit HttpRelease ;;
               ty <- lift (py_get result "type") ;;
               match ty with
               | JNull => c <- Channel_FromJSON http result ;; ret (Some c)
               | _ => ret None
               end)).
    { eapply builds_bind; [apply builds_lift|]. intros path.
      eapply builds_bind; [apply builds_HTTPClient_Request|]. intros result.
      eapply builds_bind; [apply builds_emit|]. intros ?.
      eapply builds_bind; [apply builds_lift|]. intros ty.
      destruct ty;
        try (apply builds_ret; simpl; intros u; by rewrite elem_of_nil).
      eapply builds_bind; [apply builds_Channel_FromJSON|]. intros c.
      apply builds_ret. simpl. intros u. rewrite !elem_of_app. auto. }
    intros Hinv Hg. by apply Hb.
Qed.

End IdentityFacts.

Lemma builds_keeps {A : Type} (refs : A -> list UserRef) (m : St World A)
    (w : World) :
  builds [] refs m -> identities_in_use w -> identities_in_use (snd (m w)).
Proof. intros Hm Hinv. by apply (Hm w Hinv), Forall_nil_2. Qed.

(** A decoded user shows what the payload says: [id], [username], [badges],
    [online] and [relationship] are the payload's [_id], [username],
    [badges], [online] and [relationship] (missing or null gives [None]).
    [flags] is always [None], whatever the payload holds. The object takes
    the identity of the next constructor call, and nothing else in the
    world changes. It is a new object: none of the objects built before is
    the same object, and so none that the session holds in its user cache
    or through a cached channel, as long as those came out of constructor
    calls. That they did holds when the caches are empty and stays true
    through [User.FromJSON], [User.FromID], [Channel.FromJSON] and
    [Channel.FromID], whatever the server answers and whether they return
    or raise. *)
Theorem User_FromJSON_fields
    (http : list effect -> Request -> result json) :
  (forall (data : json) (w w1 : World) (r : UserRef),
     User_FromJSON data w = (Ok r, w1) ->
     py_item data "_id" = Ok (id_ (deref r))
     /\ py_item data "username" = Ok (username (deref r))
     /\ py_get data "badges" = Ok (badges (deref r))
     /\ py_get data "online" = Ok (online (deref r))
     /\ py_get data "relationship"
        = Ok (match relationship (deref r) with
              | Some rel => JStr (Relationship.value rel)
              | None => JNull
              end)
     /\ flags (deref r) = JNull
     /\ addr r = next_addr w
     /\ w1 = allocated w
     /\ (forall u, addr u < next_addr w -> same_object r u = false)
     /\ (identities_in_use w ->
         forall u, held (session w) u -> same_object r u = false))
  /\ (forall w : World,
        users (session w) = ∅ -> channels (session w) = ∅ ->
        identities_in_use w)
  /\ (forall w : World,
        identities_in_use w ->
        (forall data, identities_in_use (snd (User_FromJSON data w)))
        /\ (forall id tok,
              identities_in_use (snd (User_FromID http id tok w)))
        /\ (forall data,
              identities_in_use (snd (Channel_FromJSON http data w)))
        /\ (forall id,
              identities_in_use (snd (Channel_FromID http id w)))).
Proof.
  split; [|split].
  - intros data w w1 r H.
    apply User_FromJSON_inv in H
      as (kb & ko & kr & ks & kbot & i & n & -> & -> & Hb & Ho & Hr & Hi
          & Hn).
    simpl.
    assert (Hnew : forall u, addr u < next_addr w ->
              same_object {| addr := next_addr w;
                             deref := User_init i n kb ko kr ks None kbot |}
                u = false).
    { intros u Hu. unfold same_object. simpl. apply Nat.eqb_neq. lia. }
    do 8 (split; [done|]). split; [exact Hnew|].
    intros Hinv u Hu. by apply Hnew, Hinv.
  - intros w Hu Hc u [[k Hk] | (k & c & Hk & _)].
    + by rewrite Hu, lookup_empty in Hk.
    + by rewrite Hc, lookup_empty in Hk.
  - intros w Hinv.
    split; [intros data; by apply (builds_keeps _ _ _
                                     (builds_User_FromJSON [] data))|].
    split; [intros id tok; by apply (builds_keeps _ _ _
                                       (builds_User_FromID http [] id tok))|].
    split; [intros data;
            by apply (builds_keeps _ _ _
                        (builds_Channel_FromJSON http [] data))|].
    intros id.
    by apply (builds_keeps _ _ _ (builds_Channel_FromID http [] id)).
Qed.

(** The payload of "U3", a friend with badges 3 and a [flags] field that
    the decoding does not read, decoded in a session that holds "U1" in
    its user cache and "U2" through a cached channel: the new object is
    neither of the two. *)
Lemma User_FromJSON_fields_witness :
  exists r,
    fst (User_FromJSON friend_json world_with_channel) = Ok r
    /\ id_ (deref r) = JStr "U3"
    /\ badges (deref r) = JNum 3
    /\ relationship (deref r) = Some Relationship.Friend
    /\ flags (deref r) = JNull
    /\ held (session world_with_channel) alice
    /\ held (session world_with_channel) bob
    /\ same_object r alice = false
    /\ same_object r bob = false.
Proof.
  destruct (User_FromJSON friend_json world_with_channel)
    as [[r|e] w1] eqn:E; [|vm_compute in E; discriminate].
  destruct (User_FromJSON_fields http_alice) as (Hfields & _ & _).
  destruct (Hfields friend_json world_with_channel w1 r E)
    as (Hi & _ & Hb & _ & Hr & Hf & _ & _ & _ & Hnew).
  assert (Hinv : identities_in_use world_with_channel).
  { intros u [[k Hk] | (k & c & Hk & Hu)]; simpl in *.
    - apply lookup_singleton_Some in Hk as [_ <-]. simpl. lia.
    - apply lookup_singleton_Some in Hk as [_ <-]. simpl in Hu.
      rewrite !elem_of_cons, elem_of_nil in Hu.
      destruct Hu as [-> | [-> | []]]; simpl; lia. }
  specialize (Hnew Hinv).
  assert (Ha : held (session world_with_channel) alice).
  { left. exists (KStr "U1"). reflexivity. }
  assert (Hbob : held (session world_with_channel) bob).
  { right. exists (KStr "D1"), (DirectMessage (JStr "D1") (JBool true)
                                 [alice; bob] JNull).
    split; [reflexivity|]. simpl. rewrite !elem_of_cons. auto. }
  exists r. split; [reflexivity|].
  cbn in Hi, Hb, Hr.
  split; [congruence|]. split; [congruence|].
  split; [destruct (relationship (deref r)) as [[]|]; by inversion Hr|].
  split; [exact Hf|]. split; [exact Ha|]. split; [exact Hbob|].
  split; [by apply Hnew | by apply Hnew].
Defined.

(** Every decoding builds a new object: two users decoded one after the
    other are never the same object, also when the payload is the same. *)
Theorem User_FromJSON_fresh_identity
    (d1 d2 : json) (w w1 w2 : World) (r1 r2 : UserRef) :
  User_FromJSON d1 w = (Ok r1, w1) ->
  User_FromJSON d2 w1 = (Ok r2, w2) ->
  same_object r1 r2 = false.
Proof.
  intros H1 H2.
  apply User_FromJSON_inv in H1 as (? & ? & ? & ? & ? & ? & ? & -> & -> & _).
  apply User_FromJSON_inv in H2 as (? & ? & ? & ? & ? & ? & ? & -> & _).
  unfold same_object. simpl. apply Nat.eqb_neq. lia.
Qed.

(** The payload of "U1" decoded twice. *)
Lemma User_FromJSON_fresh_identity_witness :
  exists r1 r2,
    fst (User_FromJSON alice_json fresh_world) = Ok r1
    /\ fst (User_FromJSON alice_json
              (snd (User_FromJSON alice_json fresh_world))) = Ok r2
    /\ deref r1 = deref r2
    /\ same_object r1 r2 = false.
Proof.
  exists alice, {| addr := 1; deref := deref alice |}.
  split; [reflexivity|]. split; [reflexivity|]. split; [reflexivity|].
  apply (User_FromJSON_fresh_identity alice_json alice_json fresh_world
           (allocated fresh_world) (allocated (allocated fresh_world)));
    reflexivity.
Defined.

Lemma plain_field_dict {S : Type} kv field (s : S) :
  exists kw,
    when_present (JObj kv) field (lift (py_item (JObj kv) field)) s
    = (Ok kw, s).
Proof.
  unfold when_present, bind, lift, ret. simpl.
  destruct (assoc field kv) as [v|] eqn:E; simpl; [|eauto].
  destruct v; simpl; rewrite ?E; eauto.
Qed.

(** What a user payload must hold. When none of the optional fields is
    there, a dict decodes exactly when it has [_id] and [username]; without
    [_id] the decoding raises [KeyError] for [_id], with [_id] but without
    [username] it raises [KeyError] for [username], and in both cases no
    object is built. *)
Theorem User_FromJSON_required_fields
    (kv : list (string * json)) (w : World) :
  no_optional_fields (JObj kv) ->
  User_FromJSON (JObj kv) w =
  match assoc "_id" kv, assoc "username" kv with
  | None, _ => (Raise (KeyError "_id"), w)
  | Some _, None => (Raise (KeyError "username"), w)
  | Some i, Some n =>
      (Ok {| addr := next_addr w;
             deref := User_init i n None None None None None None |},
       allocated w)
  end.
Proof.
  intros Hno. unfold no_optional_fields in Hno.
  rewrite !Forall_cons in Hno.
  destruct Hno as (Hb & Ho & Hr & Hs & Hbot & _).
  unfold User_FromJSON.
  erewrite bind_ok by (apply when_present_absent; exact Hb).
  erewrite bind_ok by (apply when_present_absent; exact Ho).
  erewrite bind_ok by (apply when_present_absent; exact Hr).
  erewrite bind_ok by (apply when_present_absent; exact Hs).
  erewrite bind_ok by (apply when_present_absent; exact Hbot).
  unfold bind, lift, new_User. simpl.
  destruct (assoc "_id" kv); [|reflexivity].
  destruct (assoc "username" kv); reflexivity.
Qed.

(** The payload of "U1", and the same payload without its [username]. *)
Lemma User_FromJSON_required_fields_witness :
  User_FromJSON alice_json fresh_world = (Ok alice, allocated fresh_world)
  /\ User_FromJSON (JObj [("_id", JStr "U1")]) fresh_world
     = (Raise (KeyError "username"), fresh_world).
Proof.
  split.
  - apply (User_FromJSON_required_fields
             [("_id", JStr "U1"); ("username", JStr "alice")] fresh_world).
    repeat constructor.
  - apply (User_FromJSON_required_fields [("_id", JStr "U1")] fresh_world).
    repeat constructor.
Defined.

(** A [relationship] that is not the value of a member makes the whole
    decoding fail with [ValueError]; no user is built. *)
Theorem User_FromJSON_unknown_relationship
    (kv : list (string * json)) (v : json) (w : World) :
  assoc "relationship" kv = Some v ->
  v <> JNull ->
  (forall rel, v <> JStr (Relationship.value rel)) ->
  User_FromJSON (JObj kv) w = (Raise ValueError, w).
Proof.
  intros Hv Hnn Hno. unfold User_FromJSON.
  destruct (plain_field_dict kv "badges" w) as [kb Hb].
  destruct (plain_field_dict kv "online" w) as [ko Ho].
  erewrite bind_ok by exact Hb.
  erewrite bind_ok by exact Ho.
  erewrite bind_raise; [reflexivity|].
  unfold when_present, bind, lift. simpl. rewrite Hv. simpl.
  rewrite (Relationship_call_unknown v Hno).
  by destruct v.
Qed.

(** The payload of "U4", whose relationship is "Acquaintance". *)
Lemma User_FromJSON_unknown_relationship_witness :
  User_FromJSON stranger_json fresh_world = (Raise ValueError, fresh_world).
Proof.
  apply (User_FromJSON_unknown_relationship
           [("_id", JStr "U4"); ("username", JStr "dave");
            ("relationship", JStr "Acquaintance")]
           (JStr "Acquaintance") fresh_world).
  - reflexivity.
  - discriminate.
  - intros []; discriminate.
Defined.

(** [FromID] wants a string. With any other id, [User.FromID] raises
    [TypeError] at the concatenation of the path, before a request is made;
    so does [Channel.FromID] unless the channel cache has an entry under
    that id. *)
Theorem FromID_needs_string_id
    (http : list effect -> Request -> result json)
    (id : json) (tok : string) (w : World) :
  (forall s, id <> JStr s) ->
  User_FromID http id tok w = (Raise TypeError, w)
  /\ ((forall k, to_key id = Ok k -> channels (session w) !! k = None) ->
      Channel_FromID http id w = (Raise TypeError, w)).
Proof.
  intros Hns. split.
  - unfold User_FromID. erewrite bind_lift_raise; [reflexivity|].
    destruct id; try reflexivity. by destruct (Hns s).
  - intros Hmiss. unfold Channel_FromID.
    destruct id as [|b|n|s| |]; try reflexivity;
      try (by destruct (Hns s));
      (erewrite bind_lift_ok by reflexivity;
       erewrite bind_ok by reflexivity;
       rewrite (Hmiss _ eq_refl); reflexivity).
Qed.

(** The id 5 instead of "5". *)
Lemma FromID_needs_string_id_witness :
  User_FromID http_alice (JNum 5) "secret" fresh_world
  = (Raise TypeError, fresh_world)
  /\ Channel_FromID http_text (JNum 5) fresh_world
     = (Raise TypeError, fresh_world).
Proof.
  destruct (FromID_needs_string_id http_alice (JNum 5) "secret" fresh_world)
    as [Hu _]; [discriminate|].
  destruct (FromID_needs_string_id http_text (JNum 5) "secret" fresh_world)
    as [_ Hc]; [discriminate|].
  split; [exact Hu|]. apply Hc. intros k _. reflexivity.
Defined.

(** ** What decoding a channel does to the session *)

Lemma keeps_session_lift {A : Type} (r : result A) :
  keeps_session (lift r).
Proof. by intros w. Qed.

Lemma keeps_session_ret {A : Type} (a : A) : keeps_session (ret a).
Proof. by intros w. Qed.

Lemma keeps_session_raise {A : Type} (e : exn) :
  keeps_session (@raise World A e).
Proof. by intros w. Qed.

Lemma keeps_session_get : keeps_session get.
Proof. by intros w. Qed.

Lemma keeps_session_emit (e : effect) : keeps_session (emit e).
Proof. by intros w. Qed.

Lemma keeps_session_bind {A B : Type} (m : St World A)
    (k : A -> St World B) :
  keeps_session m -> (forall a, keeps_session (k a)) ->
  keeps_session (bind m k).
Proof.
  intros Hm Hk w. unfold bind. specialize (Hm w).
  destruct (m w) as [[a|e] w1]; simpl in *; [|done].
  by rewrite Hk.
Qed.

Lemma keeps_session_when_present {A : Type} data probe (k : St World A) :
  keeps_session k -> keeps_session (when_present data probe k).
Proof.
  intros Hk. unfold when_present.
  apply keeps_session_bind; [apply keeps_session_lift|].
  intros []; try apply keeps_session_ret;
    (apply keeps_session_bind; [exact Hk | intros; apply keeps_session_ret]).
Qed.

Lemma keeps_session_User_FromJSON (data : json) :
  keeps_session (User_FromJSON data).
Proof. intros w. apply User_FromJSON_quiet. Qed.

Create HintDb keeps.
#[local] Hint Resolve keeps_session_lift keeps_session_ret
  keeps_session_raise keeps_session_get keeps_session_emit
  keeps_session_User_FromJSON : keeps.
#[local] Hint Extern 2 (keeps_session (when_present _ _ _)) =>
  apply keeps_session_when_present : keeps.
#[local] Hint Extern 3 (keeps_session (bind _ _)) =>
  apply keeps_session_bind; [|intros] : keeps.

Section SessionFacts.

Variable http : list effect -> Request -> result json.

Lemma keeps_session_User_FromID (id : json) (tok : string) :
  keeps_session (User_FromID http id tok).
Proof. unfold User_FromID, HTTPClient_Request. auto 10 with keeps. Qed.

Lemma keeps_session_resolve_user (userID : json) :
  keeps_session (resolve_user http userID).
Proof.
  unfold resolve_user.
  apply keeps_session_bind; [auto with keeps|]. intros k.
  intros w. unfold bind at 1, get at 1.
  destruct (users (session w) !! k); [reflexivity|].
  apply keeps_session_User_FromID.
Qed.

Lemma keeps_session_DirectMessage_loop ids acc :
  keeps_session (DirectMessage_loop http ids acc).
Proof.
  revert acc. induction ids as [|userID rest IH]; intros acc; simpl.
  - apply keeps_session_ret.
  - apply keeps_session_bind; [apply keeps_session_resolve_user|].
    intros user. apply IH.
Qed.

Lemma keeps_session_Group_loop data ids acc owner :
  keeps_session (Group_loop http data ids acc owner).
Proof.
  revert acc owner. induction ids as [|userID rest IH]; intros acc owner;
    simpl.
  - apply keeps_session_ret.
  - apply keeps_session_bind; [apply keeps_session_resolve_user|].
    intros user. apply keeps_session_bind; [apply keeps_session_lift|].
    intros uid. apply keeps_session_bind; [apply keeps_session_lift|].
    intros o. apply IH.
Qed.

Lemma keeps_session_plain_kwarg data field :
  keeps_session (plain_kwarg data field).
Proof. unfold plain_kwarg. auto with keeps. Qed.

(** How [Channel.FromJSON] ends, for any way of building the channel that
    leaves the session alone: the user cache and the token stay, and the
    channel cache gets the one new entry when a channel is returned. *)
Lemma registration_outcome (build : St World (option Channel)) (w : World) :
  keeps_session build ->
  let run :=
    bind build
      (fun channel =>
         match channel with
         | None => raise (AttributeError "channelID")
         | Some c =>
             k <- lift (to_key (channelID c)) ;;
             register_channel k c ;;
             ret c
         end) w in
  users (session (snd run)) = users (session w)
  /\ token (session (snd run)) = token (session w)
  /\ match fst run with
     | Ok c =>
         exists k,
           to_key (channelID c) = Ok k
           /\ channels (session (snd run))
              = <[k := c]> (channels (session w))
     | Raise _ => channels (session (snd run)) = channels (session w)
     end.
Proof.
  intros Hb run.
  assert (E : run =
    match build w with
    | (Ok (Some c), w1) =>
        match to_key (channelID c) with
        | Ok k => (Ok c, registered k c w1)
        | Raise e => (Raise e, w1)
        end
    | (Ok None, w1) => (Raise (AttributeError "channelID"), w1)
    | (Raise e, w1) => (Raise e, w1)
    end).
  { subst run. unfold bind at 1.
    by destruct (build w) as [[[c|]|e] w1]. }
  rewrite E. clear E run. specialize (Hb w).
  destruct (build w) as [[[c|]|e] w1]; simpl in Hb; simpl;
    try (by rewrite Hb).
  destruct (to_key (channelID c)) as [k|e] eqn:Hk; simpl; rewrite Hb;
    [|done].
  split; [done|]. split; [done|]. by exists k.
Qed.

Lemma Channel_FromJSON_outcome (data : json) (w : World) :
  let run := Channel_FromJSON http data w in
  users (session (snd run)) = users (session w)
  /\ token (session (snd run)) = token (session w)
  /\ match fst run with
     | Ok c =>
         exists k,
           to_key (channelID c) = Ok k
           /\ channels (session (snd run))
              = <[k := c]> (channels (session w))
     | Raise _ => channels (session (snd run)) = channels (session w)
     end.
Proof.
  unfold Channel_FromJSON.
  destruct (py_item data "channel_type") as [tag|e] eqn:Htag.
  2: { erewrite bind_lift_raise by reflexivity. done. }
  erewrite bind_lift_ok by reflexivity.
  apply registration_outcome.
  repeat match goal with
         | |- keeps_session (if ?c then _ else _) => destruct c
         end;
    repeat (first [ apply keeps_session_ret
                  | apply keeps_session_lift
                  | apply keeps_session_plain_kwarg
                  | apply keeps_session_when_present
                  | apply keeps_session_resolve_user
                  | apply keeps_session_DirectMessage_loop
                  | apply keeps_session_Group_loop
                  | apply keeps_session_bind; [|intros] ]).
Qed.

End SessionFacts.

(** Decoding a channel never touches the user cache or the token of the
    session, also when it fetched users on the way. It changes the channel
    cache only when it returns a channel, and then by the one entry for that
    channel under the channel's own id; a decoding that raises stores
    nothing. *)
Theorem Channel_FromJSON_registers_only_its_channel
    (http : list effect -> Request -> result json)
    (data : json) (w : World) :
  users (session (snd (Channel_FromJSON http data w))) = users (session w)
  /\ token (session (snd (Channel_FromJSON http data w)))
     = token (session w)
  /\ match fst (Channel_FromJSON http data w) with
     | Ok c =>
         exists k,
           to_key (channelID c) = Ok k
           /\ channels (session (snd (Channel_FromJSON http data w)))
              = <[k := c]> (channels (session w))
     | Raise _ =>
         channels (session (snd (Channel_FromJSON http data w)))
         = channels (session w)
     end.
Proof. apply Channel_FromJSON_outcome. Qed.

(** ** Decoding and the channel cache *)

Lemma Channel_FromID_hit
    (http : list effect -> Request -> result json)
    (id : string) (c : Channel) (w : World) :
  channels (session w) !! KStr id = Some c ->
  Channel_FromID http (JStr id) w = (Ok (Some c), w).
Proof.
  intros Hhit. unfold Channel_FromID.
  erewrite bind_lift_ok by reflexivity.
  erewrite bind_ok by reflexivity.
  by rewrite Hhit.
Qed.

Lemma decoded_channel_cached
    (http : list effect -> Request -> result json)
    (data : json) (w w1 : World) (c : Channel) (id : string) :
  Channel_FromJSON http data w = (Ok c, w1) ->
  channelID c = JStr id ->
  channels (session w1) !! KStr id = Some c.
Proof.
  intros Hrun Hid.
  pose proof (Channel_FromJSON_outcome http data w) as H. cbv zeta in H.
  rewrite Hrun in H. simpl in H. destruct H as (_ & _ & k & Hk & Hch).
  rewrite Hid in Hk. injection Hk as <-.
  rewrite Hch. apply lookup_insert_eq.
Qed.

(** A channel that [Channel.FromJSON] returned is in the channel cache:
    [Channel.FromID] with the channel's id gives the same channel back,
    without a request and without changing anything. *)
Theorem decoded_channel_is_found_by_id
    (http http' : list effect -> Request -> result json)
    (data : json) (w w1 : World) (c : Channel) (id : string) :
  Channel_FromJSON http data w = (Ok c, w1) ->
  channelID c = JStr id ->
  Channel_FromID http' (JStr id) w1 = (Ok (Some c), w1).
Proof.
  intros Hrun Hid. apply Channel_FromID_hit.
  by apply (decoded_channel_cached http data w).
Qed.

(** The text channel "T1" decoded, then looked up against a transport that
    is down. *)
Lemma decoded_channel_is_found_by_id_witness :
  exists c w1,
    Channel_FromJSON http_down text_payload fresh_world = (Ok c, w1)
    /\ Channel_FromID http_down (JStr "T1") w1 = (Ok (Some c), w1).
Proof.
  exists (TextChannel (JStr "T1") (JStr "S9") (JStr "general")
            JNull JNull JNull JNull).
  eexists. split; [reflexivity|].
  eapply (decoded_channel_is_found_by_id http_down http_down text_payload
            fresh_world); reflexivity.
Defined.

(** [Channel.FromID] asks the server at most once per channel. A cached
    channel is returned without a request. After a miss that returned a
    channel carrying the id that was asked for, the channel is cached: the
    next call returns the same channel and has no effect. *)
Theorem Channel_FromID_fetches_once
    (http : list effect -> Request -> result json)
    (id : string) (c : Channel) (w : World) :
  (channels (session w) !! KStr id = Some c ->
   Channel_FromID http (JStr id) w = (Ok (Some c), w))
  /\ (forall w1,
        channels (session w) !! KStr id = None ->
        Channel_FromID http (JStr id) w = (Ok (Some c), w1) ->
        channelID c = JStr id ->
        Channel_FromID http (JStr id) w1 = (Ok (Some c), w1)).
Proof.
  split; [apply Channel_FromID_hit|].
  intros w1 Hmiss Hrun Hid.
  rewrite Channel_FromID_run in Hrun by exact Hmiss. cbv zeta in Hrun.
  destruct (http _ _) as [body|e]; [|discriminate].
  destruct (py_get body "type") as [[]|e]; try discriminate.
  apply bind_ok_inv in Hrun as (c' & w' & Hdec & Hret). cbv beta in Hret.
  apply ret_ok_inv in Hret as [[= ->] ->].
  apply Channel_FromID_hit.
  by apply (decoded_channel_cached http body _ _ _ _ Hdec).
Qed.

(** "T1" fetched twice from a server that knows it: one request. *)
Lemma Channel_FromID_fetches_once_witness :
  exists c w1,
    Channel_FromID http_text (JStr "T1") fresh_world = (Ok (Some c), w1)
    /\ Channel_FromID http_text (JStr "T1") w1 = (Ok (Some c), w1)
    /\ count is_fetch (trace w1) = 1.
Proof.
  exists (TextChannel (JStr "T1") (JStr "S9") (JStr "general")
            JNull JNull JNull JNull).
  eexists. split; [reflexivity|]. split; [|reflexivity].
  eapply (proj2 (Channel_FromID_fetches_once http_text "T1" _ fresh_world));
    reflexivity.
Defined.

(** ** What a decoded channel is *)

Ltac inv_channel E :=
  unfold matches in E; apply json_eqb_str in E;
  repeat inv_step; simplify_eq; simpl; split; done.

(** A channel that was decoded belongs to the class that the payload names
    and carries the payload's id: its [type] is the member whose value is
    the payload's [channel_type], and its [channelID] is the payload's
    [_id]. *)
Theorem Channel_FromJSON_tag_and_id
    (http : list effect -> Request -> result json)
    (data : json) (w w1 : World) (c : Channel) :
  Channel_FromJSON http data w = (Ok c, w1) ->
  py_item data "channel_type" = Ok (JStr (ChannelType.value (type c)))
  /\ py_item data "_id" = Ok (channelID c).
Proof.
  intros H. unfold Channel_FromJSON in H.
  apply bind_ok_inv in H as (tag & s0 & Htag & H). cbv beta in H.
  apply lift_ok_inv in Htag as [Htag ->].
  apply bind_ok_inv in H as (oc & w' & Hb & Hfin). cbv beta in Hfin.
  destruct oc as [c'|]; [|discriminate].
  assert (Hc : c' = c).
  { apply bind_ok_inv in Hfin as (k & s1 & _ & Hfin). cbv beta in Hfin.
    apply bind_ok_inv in Hfin as (u & s2 & _ & Hfin). cbv beta in Hfin.
    by apply ret_ok_inv in Hfin as [-> _]. }
  subst c'. clear Hfin.
  destruct (matches tag ChannelType.SavedMessages) eqn:E1;
    [inv_channel E1|].
  destruct (matches tag ChannelType.DirectMessage) eqn:E2;
    [inv_channel E2|].
  destruct (matches tag ChannelType.Group) eqn:E3; [inv_channel E3|].
  destruct (matches tag ChannelType.TextChannel) eqn:E4; [inv_channel E4|].
  destruct (matches tag ChannelType.VoiceChannel) eqn:E5;
    [inv_channel E5|].
  discriminate.
Qed.

(** The direct message "D1" between two cached users. *)
Lemma Channel_FromJSON_tag_and_id_witness :
  exists c w1,
    Channel_FromJSON http_down dm_payload world_with_both = (Ok c, w1)
    /\ type c = ChannelType.DirectMessage
    /\ channelID c = JStr "D1".
Proof.
  destruct (Channel_FromJSON http_down dm_payload world_with_both)
    as [[c|e] w1] eqn:E; [|vm_compute in E; discriminate].
  exists c, w1. split; [reflexivity|].
  destruct (Channel_FromJSON_tag_and_id http_down dm_payload
              world_with_both w1 c E) as [Ht Hi].
  cbn in Ht, Hi. split; [|congruence].
  destruct (type c); by inversion Ht.
Defined.

Lemma offline_apply {A : Type} (m : St World A) (w : World) :
  offline m ->
  trace (snd (m w)) = trace w /\ next_addr (snd (m w)) = next_addr w.
Proof. intros H. apply H. Qed.

Lemma offline_lift {A : Type} (r : result A) : offline (lift r).
Proof. by intros w. Qed.

Lemma offline_ret {A : Type} (a : A) : offline (ret a).
Proof. by intros w. Qed.

Lemma offline_raise {A : Type} (e : exn) : offline (@raise World A e).
Proof. by intros w. Qed.

Lemma offline_register_channel k c : offline (register_channel k c).
Proof. by intros w. Qed.

Lemma offline_bind {A B : Type} (m : St World A) (k : A -> St World B) :
  offline m -> (forall a, offline (k a)) -> offline (bind m k).
Proof.
  intros Hm Hk w. unfold bind. specialize (Hm w).
  destruct (m w) as [[a|e] w1]; simpl in *; [|done].
  destruct Hm as [Hmt Hmn]. destruct (Hk a w1) as [Ht Hn].
  split; congruence.
Qed.

Lemma offline_when_present {A : Type} data probe (k : St World A) :
  offline k -> offline (when_present data probe k).
Proof.
  intros Hk. unfold when_present.
  apply offline_bind; [apply offline_lift|].
  intros []; try apply offline_ret;
    (apply offline_bind; [exact Hk | intros; apply offline_ret]).
Qed.

Ltac offline_steps :=
  repeat (first [ apply offline_ret | apply offline_lift
                | apply offline_raise | apply offline_register_channel
                | apply offline_when_present
                | apply offline_bind; [|intros] ]).

(** Decoding a text channel or a voice channel is pure bookkeeping: it
    makes no request and builds no user object, whether it returns the
    channel or raises. *)
Theorem server_channels_decode_offline
    (http : list effect -> Request -> result json)
    (data : json) (w : World) :
  py_item data "channel_type" = Ok (JStr "TextChannel")
  \/ py_item data "channel_type" = Ok (JStr "VoiceChannel") ->
  trace (snd (Channel_FromJSON http data w)) = trace w
  /\ next_addr (snd (Channel_FromJSON http data w)) = next_addr w.
Proof.
  intros [Htag|Htag]; unfold Channel_FromJSON;
    (erewrite bind_lift_ok by exact Htag);
    match goal with
    | |- context [matches ?t _] =>
        replace (matches t ChannelType.SavedMessages) with false
          by reflexivity;
        replace (matches t ChannelType.DirectMessage) with false
          by reflexivity;
        replace (matches t ChannelType.Group) with false by reflexivity;
        first [ replace (matches t ChannelType.TextChannel) with true
                  by reflexivity
              | replace (matches t ChannelType.TextChannel) with false
                  by reflexivity;
                replace (matches t ChannelType.VoiceChannel) with true
                  by reflexivity ]
    end;
    cbv iota; apply offline_apply; unfold plain_kwarg;
    (apply offline_bind;
     [ offline_steps
     | intros [c|]; [offline_steps | apply offline_raise] ]).
Qed.

(** The text channel "T1", decoded while the transport is down. *)
Lemma server_channels_decode_offline_witness :
  is_ok (fst (Channel_FromJSON http_down text_payload fresh_world)) = true
  /\ trace (snd (Channel_FromJSON http_down text_payload fresh_world)) = [].
Proof.
  split; [reflexivity|].
  apply (server_channels_decode_offline http_down text_payload fresh_world).
  left. reflexivity.
Defined.

(** ** The five kinds of channel *)

Lemma bind_first_not_ok {S A B : Type} (m : St S A) (k : A -> St S B) s :
  is_ok (fst (m s)) = false -> is_ok (fst (bind m k s)) = false.
Proof. unfold bind. by destruct (m s) as [[a|e] s1]. Qed.

Section KindFacts.

Variable http : list effect -> Request -> result json.

(** An optional field of a dict, as the keyword argument it becomes. *)
Lemma plain_kwarg_value kv field (w : World) :
  exists kw,
    plain_kwarg (JObj kv) field w = (Ok kw, w)
    /\ kwargs_get kw = default JNull (assoc field kv).
Proof.
  unfold plain_kwarg, when_present, bind, lift, ret. simpl.
  destruct (assoc field kv) as [v|] eqn:E; simpl.
  - destruct v; simpl; rewrite ?E; eauto.
  - by exists None.
Qed.

(** Registering the channel that was built. *)
Lemma register_built (c : Channel) (k : key) (w : World) :
  to_key (channelID c) = Ok k ->
  (k' <- lift (to_key (channelID c)) ;; register_channel k' c ;; ret c) w
  = (Ok c, registered k c w).
Proof. intros Hk. by erewrite bind_lift_ok by exact Hk. Qed.

Lemma DirectMessage_loop_cached uids refs acc (w : World) :
  Forall2 (fun uid r => users (session w) !! KStr uid = Some r) uids refs ->
  DirectMessage_loop http (map JStr uids) acc w = (Ok (acc ++ refs), w).
Proof.
  intros Hall. revert acc.
  induction Hall as [|uid r uids refs Hhit _ IH]; intros acc; simpl.
  - unfold ret. by rewrite app_nil_r.
  - erewrite bind_ok by (apply resolve_user_hit; exact Hhit).
    rewrite IH. by rewrite <- app_assoc.
Qed.

Lemma Group_loop_never_ok data x rest acc owner (w : World) :
  is_ok (fst (Group_loop http data (x :: rest) acc owner w)) = false.
Proof.
  simpl. apply bind_never_ok. intros user s.
  by erewrite bind_lift_raise by apply User_getattr_userID.
Qed.

End KindFacts.

(** A direct message whose recipients are all in the user cache is decoded
    without a request: its recipients are the cached objects themselves, in
    the order of the payload, and the channel is registered under its id. *)
Theorem DirectMessage_recipients_from_cache
    (http : list effect -> Request -> result json)
    (kv : list (string * json)) (uids : list string) (refs : list UserRef)
    (i a : json) (k : key) (w : World) :
  assoc "channel_type" kv = Some (JStr "DirectMessage") ->
  assoc "recipients" kv = Some (JArr (map JStr uids)) ->
  Forall2 (fun uid r => users (session w) !! KStr uid = Some r) uids refs ->
  assoc "_id" kv = Some i ->
  to_key i = Ok k ->
  assoc "active" kv = Some a ->
  let c := DirectMessage i a refs
             (default JNull (assoc "last_message_id" kv)) in
  Channel_FromJSON http (JObj kv) w = (Ok c, registered k c w).
Proof.
  intros Htag Hrec Hall Hid Hk Hact c. unfold Channel_FromJSON.
  erewrite bind_lift_ok by (simpl; by rewrite Htag).
  replace (matches (JStr "DirectMessage") ChannelType.SavedMessages)
    with false by reflexivity.
  replace (matches (JStr "DirectMessage") ChannelType.DirectMessage)
    with true by reflexivity.
  cbv iota.
  destruct (plain_kwarg_value kv "last_message_id" w) as (kw & Hkw & Hval).
  erewrite bind_ok; cycle 1.
  { erewrite bind_ok by exact Hkw.
    erewrite bind_lift_ok by (simpl; by rewrite Hrec).
    erewrite bind_lift_ok by reflexivity.
    erewrite bind_ok by (apply DirectMessage_loop_cached; exact Hall).
    erewrite bind_lift_ok by (simpl; by rewrite Hid).
    erewrite bind_lift_ok by (simpl; by rewrite Hact).
    reflexivity. }
  simpl app. rewrite Hval. fold c. by apply register_built.
Qed.

(** "D1" between "U1" and "U2", both cached: the recipients are the two
    cached objects and no request is made. *)
Lemma DirectMessage_recipients_from_cache_witness :
  Channel_FromJSON http_down dm_payload world_with_both
  = (Ok (DirectMessage (JStr "D1") (JBool true) [alice; bob] JNull),
     registered (KStr "D1")
       (DirectMessage (JStr "D1") (JBool true) [alice; bob] JNull)
       world_with_both).
Proof.
  apply (DirectMessage_recipients_from_cache http_down
           [("channel_type", JStr "DirectMessage"); ("_id", JStr "D1");
            ("active", JBool true);
            ("recipients", JArr [JStr "U1"; JStr "U2"])]
           ["U1"; "U2"] [alice; bob] (JStr "D1") (JBool true) (KStr "D1")
           world_with_both); try reflexivity.
  repeat constructor.
Defined.

(** A saved-messages channel whose user is in the user cache is decoded
    without a request, holds the cached object itself and is registered
    under its id. *)
Theorem SavedMessages_user_from_cache
    (http : list effect -> Request -> result json)
    (kv : list (string * json)) (uid : string) (r : UserRef)
    (i : json) (k : key) (w : World) :
  assoc "channel_type" kv = Some (JStr "SavedMessages") ->
  assoc "user" kv = Some (JStr uid) ->
  users (session w) !! KStr uid = Some r ->
  assoc "_id" kv = Some i ->
  to_key i = Ok k ->
  Channel_FromJSON http (JObj kv) w
  = (Ok (SavedMessages i r), registered k (SavedMessages i r) w).
Proof.
  intros Htag Huser Hhit Hid Hk. unfold Channel_FromJSON.
  erewrite bind_lift_ok by (simpl; by rewrite Htag).
  replace (matches (JStr "SavedMessages") ChannelType.SavedMessages)
    with true by reflexivity.
  cbv iota.
  erewrite bind_ok; cycle 1.
  { erewrite bind_lift_ok by (simpl; by rewrite Huser).
    erewrite bind_ok by (apply resolve_user_hit; exact Hhit).
    erewrite bind_lift_ok by (simpl; by rewrite Hid).
    reflexivity. }
  by apply register_built.
Qed.

(** The saved messages of "U1". *)
Lemma SavedMessages_user_from_cache_witness :
  Channel_FromJSON http_down saved_payload world_with_alice
  = (Ok (SavedMessages (JStr "S1") alice),
     registered (KStr "S1") (SavedMessages (JStr "S1") alice)
       world_with_alice).
Proof.
  apply (SavedMessages_user_from_cache http_down
           [("channel_type", JStr "SavedMessages"); ("_id", JStr "S1");
            ("user", JStr "U1")] "U1" alice (JStr "S1") (KStr "S1")
           world_with_alice); reflexivity.
Defined.

(** A group decodes when its list of recipients is empty: the loop does not
    run, so the group has no recipients and its owner is [None], whatever
    [owner] the payload names. *)
Theorem Group_without_recipients_has_no_owner
    (http : list effect -> Request -> result json)
    (kv : list (string * json)) (i n : json) (k : key) (w : World) :
  assoc "channel_type" kv = Some (JStr "Group") ->
  assoc "recipients" kv = Some (JArr []) ->
  assoc "_id" kv = Some i ->
  to_key i = Ok k ->
  assoc "name" kv = Some n ->
  let c := Group i n [] None
             (default JNull (assoc "description" kv))
             (default JNull (assoc "last_message_id" kv))
             (default JNull (assoc "permissions" kv))
             (default JNull (assoc "nsfw" kv)) in
  Channel_FromJSON http (JObj kv) w = (Ok c, registered k c w).
Proof.
  intros Htag Hrec Hid Hk Hname c. unfold Channel_FromJSON.
  erewrite bind_lift_ok by (simpl; by rewrite Htag).
  replace (matches (JStr "Group") ChannelType.SavedMessages) with false
    by reflexivity.
  replace (matches (JStr "Group") ChannelType.DirectMessage) with false
    by reflexivity.
  replace (matches (JStr "Group") ChannelType.Group) with true
    by reflexivity.
  cbv iota.
  destruct (plain_kwarg_value kv "description" w) as (k1 & E1 & V1).
  destruct (plain_kwarg_value kv "last_message_id" w) as (k2 & E2 & V2).
  destruct (plain_kwarg_value kv "permissions" w) as (k3 & E3 & V3).
  destruct (plain_kwarg_value kv "nsfw" w) as (k4 & E4 & V4).
  erewrite bind_ok; cycle 1.
  { erewrite bind_ok by exact E1.
    erewrite bind_ok by exact E2.
    erewrite bind_ok by exact E3.
    erewrite bind_ok by exact E4.
    erewrite bind_lift_ok by (simpl; by rewrite Hrec).
    erewrite bind_lift_ok by reflexivity.
    erewrite bind_ok by reflexivity.
    erewrite bind_lift_ok by (simpl; by rewrite Hid).
    erewrite bind_lift_ok by (simpl; by rewrite Hname).
    reflexivity. }
  simpl fst. simpl snd. rewrite V1, V2, V3, V4. fold c.
  by apply register_built.
Qed.

(** The group "G0" with no recipients and the owner "U1". *)
Lemma Group_without_recipients_has_no_owner_witness :
  Channel_FromJSON http_down empty_group_payload world_with_alice
  = (Ok (Group (JStr "G0") (JStr "nobody") [] None JNull JNull JNull JNull),
     registered (KStr "G0")
       (Group (JStr "G0") (JStr "nobody") [] None JNull JNull JNull JNull)
       world_with_alice).
Proof.
  apply (Group_without_recipients_has_no_owner http_down
           [("channel_type", JStr "Group"); ("_id", JStr "G0");
            ("name", JStr "nobody"); ("recipients", JArr []);
            ("owner", JStr "U1")]
           (JStr "G0") (JStr "nobody") (KStr "G0") world_with_alice);
    reflexivity.
Defined.

(** A group payload with at least one recipient never decodes, cached or
    not: either the recipient cannot be resolved, or the read of
    [user.userID] raises. No channel is returned and the channel cache is
    as before. *)
Theorem Group_with_recipients_never_decodes
    (http : list effect -> Request -> result json)
    (data r x : json) (rest : list json) (w : World) :
  py_item data "channel_type" = Ok (JStr "Group") ->
  py_item data "recipients" = Ok r ->
  py_iter r = Ok (x :: rest) ->
  is_ok (fst (Channel_FromJSON http data w)) = false
  /\ channels (session (snd (Channel_FromJSON http data w)))
     = channels (session w).
Proof.
  intros Htag Hrec Hiter.
  assert (Hfail : is_ok (fst (Channel_FromJSON http data w)) = false).
  { unfold Channel_FromJSON.
    erewrite bind_lift_ok by exact Htag.
    replace (matches (JStr "Group") ChannelType.SavedMessages) with false
      by reflexivity.
    replace (matches (JStr "Group") ChannelType.DirectMessage) with false
      by reflexivity.
    replace (matches (JStr "Group") ChannelType.Group) with true
      by reflexivity.
    cbv iota. apply bind_first_not_ok.
    do 4 (apply bind_never_ok; intros ? ?).
    erewrite bind_lift_ok by exact Hrec.
    erewrite bind_lift_ok by exact Hiter.
    apply bind_first_not_ok. apply Group_loop_never_ok. }
  split; [exact Hfail|].
  pose proof (Channel_FromJSON_outcome http data w) as H. cbv zeta in H.
  destruct H as (_ & _ & H).
  by destruct (fst (Channel_FromJSON http data w)).
Qed.

(** The group of "U1" and "U2": with both users cached, and with an empty
    cache against a server that knows "U1". *)
Lemma Group_with_recipients_never_decodes_witness :
  is_ok (fst (Channel_FromJSON http_down group_payload world_with_both))
  = false
  /\ is_ok (fst (Channel_FromJSON http_alice group_payload fresh_world))
     = false.
Proof.
  split.
  - apply (Group_with_recipients_never_decodes http_down group_payload
             (JArr [JStr "U1"; JStr "U2"]) (JStr "U1") [JStr "U2"]
             world_with_both); reflexivity.
  - apply (Group_with_recipients_never_decodes http_alice group_payload
             (JArr [JStr "U1"; JStr "U2"]) (JStr "U1") [JStr "U2"]
             fresh_world); reflexivity.
Defined.

(** The default permissions of a server channel are tested under the key
    [default_permissions] and read under the key [defaultPermissions]: a
    text or voice payload that has the first, not null, and lacks the second
    raises [KeyError] for [defaultPermissions], and nothing is registered. *)
Theorem default_permissions_read_under_other_key
    (http : list effect -> Request -> result json)
    (kv : list (string * json)) (v : json) (w : World) :
  assoc "channel_type" kv = Some (JStr "TextChannel")
  \/ assoc "channel_type" kv = Some (JStr "VoiceChannel") ->
  assoc "default_permissions" kv = Some v ->
  v <> JNull ->
  assoc "defaultPermissions" kv = None ->
  Channel_FromJSON http (JObj kv) w
  = (Raise (KeyError "defaultPermissions"), w).
Proof.
  intros Htag Hv Hnn Hmissing.
  destruct (plain_kwarg_value kv "description" w) as (k1 & E1 & _).
  assert (Hperm : when_present (JObj kv) "default_permissions"
                    (lift (py_item (JObj kv) "defaultPermissions")) w
                  = (Raise (KeyError "defaultPermissions"), w)).
  { unfold when_present, bind, lift. simpl. rewrite Hv, Hmissing. simpl.
    by destruct v. }
  unfold Channel_FromJSON.
  destruct Htag as [Htag|Htag];
    (erewrite bind_lift_ok by (simpl; by rewrite Htag));
    match goal with
    | |- context [matches ?t _] =>
        replace (matches t ChannelType.SavedMessages) with false
          by reflexivity;
        replace (matches t ChannelType.DirectMessage) with false
          by reflexivity;
        replace (matches t ChannelType.Group) with false by reflexivity;
        first [ replace (matches t ChannelType.TextChannel) with true
                  by reflexivity
              | replace (matches t ChannelType.TextChannel) with false
                  by reflexivity;
                replace (matches t ChannelType.VoiceChannel) with true
                  by reflexivity ]
    end;
    cbv iota;
    (erewrite bind_raise; [reflexivity|]);
    (erewrite bind_ok by exact E1);
    (erewrite bind_raise; [reflexivity|]);
    exact Hperm.
Qed.

(** The text channel "T2" with [default_permissions] 7. *)
Lemma default_permissions_read_under_other_key_witness :
  Channel_FromJSON http_down text_payload_with_permissions fresh_world
  = (Raise (KeyError "defaultPermissions"), fresh_world).
Proof.
  apply (default_permissions_read_under_other_key http_down
           [("channel_type", JStr "TextChannel"); ("_id", JStr "T2");
            ("server", JStr "S9"); ("name", JStr "mods");
            ("default_permissions", JNum 7)] (JNum 7) fresh_world).
  - left. reflexivity.
  - reflexivity.
  - discriminate.
  - reflexivity.
Defined.

(** ** The price of a decoding *)

Lemma costs_le {A : Type} (n n' : nat) (m : St World A) :
  n <= n' -> costs n m -> costs n' m.
Proof. intros Hle Hm w. specialize (Hm w). lia. Qed.

Lemma costs_lift {A : Type} (r : result A) : costs 0 (lift r).
Proof. intros w. simpl. lia. Qed.

Lemma costs_ret {A : Type} (a : A) : costs 0 (ret a).
Proof. intros w. simpl. lia. Qed.

Lemma costs_raise {A : Type} (e : exn) : costs 0 (@raise World A e).
Proof. intros w. simpl. lia. Qed.

Lemma costs_get : costs 0 get.
Proof. intros w. simpl. lia. Qed.

Lemma costs_register_channel k c : costs 0 (register_channel k c).
Proof. intros w. simpl. lia. Qed.

Lemma costs_release : costs 0 (emit HttpRelease).
Proof.
  intros w. simpl. rewrite count_app. unfold count at 2. simpl. lia.
Qed.

Lemma costs_bind {A B : Type} (a b : nat) (m : St World A)
    (k : A -> St World B) :
  costs a m -> (forall x, costs b (k x)) -> costs (a + b) (bind m k).
Proof.
  intros Hm Hk w. unfold bind. specialize (Hm w).
  destruct (m w) as [[x|e] w1]; simpl in *; [|lia].
  specialize (Hk x w1). lia.
Qed.

Lemma costs_bind_lift_ok {A B : Type} (n : nat) (a : A)
    (k : A -> St World B) :
  costs n (k a) -> costs n (bind (lift (Ok a)) k).
Proof. intros Hk w. apply Hk. Qed.

Lemma costs_quiet {A : Type} (m : St World A) : quiet m -> costs 0 m.
Proof. intros Hq w. destruct (Hq w) as [_ ->]. lia. Qed.

Section CostFacts.

Variable http : list effect -> Request -> result json.

Lemma costs_HTTPClient_Request (r : Request) :
  costs 1 (HTTPClient_Request http r).
Proof.
  intros w. rewrite HTTPClient_Request_run. simpl. rewrite count_app.
  unfold count at 2. simpl. lia.
Qed.

Lemma costs_User_FromID (id : json) (tok : string) :
  costs 1 (User_FromID http id tok).
Proof.
  unfold User_FromID.
  apply (costs_bind 0 1); [apply costs_lift|]. intros path.
  apply (costs_bind 1 0); [apply costs_HTTPClient_Request|]. intros result.
  apply (costs_bind 0 0); [apply costs_release|]. intros _.
  apply costs_quiet, User_FromJSON_quiet.
Qed.

(** Resolving one user reference makes at most one request. *)
Lemma costs_resolve_user (userID : json) :
  costs 1 (resolve_user http userID).
Proof.
  unfold resolve_user.
  apply (costs_bind 0 1); [apply costs_lift|]. intros k.
  intros w. unfold bind at 1, get at 1.
  destruct (users (session w) !! k).
  - simpl. lia.
  - apply costs_User_FromID.
Qed.

Lemma costs_DirectMessage_loop ids acc :
  costs (length ids) (DirectMessage_loop http ids acc).
Proof.
  revert acc. induction ids as [|userID rest IH]; intros acc; simpl.
  - apply costs_ret.
  - apply (costs_bind 1 (length rest)); [apply costs_resolve_user|].
    intros user. apply IH.
Qed.

Lemma costs_plain_kwarg data field : costs 0 (plain_kwarg data field).
Proof.
  unfold plain_kwarg, when_present.
  apply (costs_bind 0 0); [apply costs_lift|].
  intros []; try apply costs_ret;
    (apply (costs_bind 0 0); [apply costs_lift | intros; apply costs_ret]).
Qed.

End CostFacts.

(** Decoding a direct message makes at most one request per recipient of
    the payload, and none for anything else. *)
Theorem DirectMessage_costs_one_request_per_recipient
    (http : list effect -> Request -> result json)
    (data r : json) (ids : list json) (w : World) :
  py_item data "channel_type" = Ok (JStr "DirectMessage") ->
  py_item data "recipients" = Ok r ->
  py_iter r = Ok ids ->
  count is_fetch (trace (snd (Channel_FromJSON http data w)))
  <= count is_fetch (trace w) + length ids.
Proof.
  intros Htag Hrec Hiter. unfold Channel_FromJSON.
  erewrite bind_lift_ok by exact Htag.
  replace (matches (JStr "DirectMessage") ChannelType.SavedMessages)
    with false by reflexivity.
  replace (matches (JStr "DirectMessage") ChannelType.DirectMessage)
    with true by reflexivity.
  cbv iota. rewrite Hrec.
  revert w. apply (costs_le (length ids + 0)); [lia|].
  apply costs_bind.
  - apply (costs_bind 0 (length ids)); [apply costs_plain_kwarg|].
    intros kw. apply costs_bind_lift_ok. rewrite Hiter.
    apply costs_bind_lift_ok.
    apply (costs_le (length ids + 0)); [lia|].
    apply costs_bind; [apply costs_DirectMessage_loop|].
    intros recipients.
    apply (costs_bind 0 0); [apply costs_lift|]. intros id.
    apply (costs_bind 0 0); [apply costs_lift|]. intros active.
    apply costs_ret.
  - intros [c|]; [|apply costs_raise].
    apply (costs_bind 0 0); [apply costs_lift|]. intros k.
    apply (costs_bind 0 0); [apply costs_register_channel|]. intros _.
    apply costs_ret.
Qed.

(** "D1" decoded with an empty user cache: two recipients, two requests;
    with both users cached: none. *)
Lemma DirectMessage_costs_one_request_per_recipient_witness :
  count is_fetch
    (trace (snd (Channel_FromJSON http_alice dm_payload fresh_world))) = 2
  /\ count is_fetch
       (trace (snd (Channel_FromJSON http_alice dm_payload fresh_world)))
     <= 0 + 2.
Proof.
  split; [reflexivity|].
  apply (DirectMessage_costs_one_request_per_recipient http_alice dm_payload
           (JArr [JStr "U1"; JStr "U2"]) [JStr "U1"; JStr "U2"] fresh_world);
    reflexivity.
Defined.
